(** * Shopier SDK: request signing and callback verification

    A shallow embedding of the TypeScript sources of the SDK
    (signature engine, validator, configuration resolver, payment-request
    builder, renderers, callback verifier) and the properties its
    specification states about them.

    JavaScript strings are sequences of UTF-16 code units, numbers are
    IEEE 754 binary64 values, exceptions are explicit completions, and the
    two ambient inputs of the code (process.env and the secure random
    source) are explicit arguments. *)

From Stdlib Require Import String Ascii ZArith List Bool Lia.
From Stdlib Require Import Floats.SpecFloat.
Import ListNotations.
Open Scope Z_scope.

(* ================================================================== *)
(** * Part I: the embedding                                            *)
(* ================================================================== *)

(** ** JavaScript strings *)
Module JsString.

(** A string is its sequence of UTF-16 code units. *)
Definition jsstring := list Z.

Definition code (a : ascii) : Z := Z.of_N (N_of_ascii a).

(** An ASCII literal. *)
Definition js (s : string) : jsstring := map code (list_ascii_of_string s).

(** Template text: the double quote of the source is written as a
    backquote, a character the templates of the code base never use. *)
Definition tpl (s : string) : jsstring :=
  map (fun c => if c =? 96 then 34 else c) (js s).

Fixpoint eqb (a b : jsstring) : bool :=
  match a, b with
  | [], [] => true
  | x :: a', y :: b' => (x =? y) && eqb a' b'
  | _, _ => false
  end.

(** [Array.prototype.join]. *)
Fixpoint join (sep : jsstring) (l : list jsstring) : jsstring :=
  match l with
  | [] => []
  | [x] => x
  | x :: rest => x ++ sep ++ join sep rest
  end.

Fixpoint startsWith (p s : jsstring) : bool :=
  match p, s with
  | [], _ => true
  | x :: p', y :: s' => (x =? y) && startsWith p' s'
  | _ :: _, [] => false
  end.

(** [String.prototype.includes]. *)
Fixpoint includes (s p : jsstring) : bool :=
  startsWith p s ||
  match s with
  | [] => false
  | _ :: s' => includes s' p
  end.

(** WhiteSpace and LineTerminator of ECMA-262: what [trim] strips and
    what the regular expression class [\s] matches. *)
Definition isWhiteSpace (c : Z) : bool :=
  existsb (Z.eqb c)
    [0x9; 0xA; 0xB; 0xC; 0xD; 0x20; 0xA0; 0x1680; 0x2028; 0x2029;
     0x202F; 0x205F; 0x3000; 0xFEFF]
  || ((0x2000 <=? c) && (c <=? 0x200A)).

Fixpoint trimStart (s : jsstring) : jsstring :=
  match s with
  | c :: r => if isWhiteSpace c then trimStart r else s
  | [] => []
  end.

Definition trimEnd (s : jsstring) : jsstring := rev (trimStart (rev s)).

(** [String.prototype.trim]. *)
Definition trim (s : jsstring) : jsstring := trimEnd (trimStart s).

(** Truthiness of a string: non-empty. *)
Definition truthy (s : jsstring) : bool :=
  match s with [] => false | _ => true end.

(** *** UTF-8 encoding, as [Buffer.from(s, 'utf8')] and the string
    arguments of [createHmac] and [Hmac.update] encode *)

Definition isHighSurrogate (c : Z) : bool := (0xD800 <=? c) && (c <=? 0xDBFF).
Definition isLowSurrogate (c : Z) : bool := (0xDC00 <=? c) && (c <=? 0xDFFF).

Definition utf8_of_codepoint (cp : Z) : list Z :=
  if cp <? 0x80 then [cp]
  else if cp <? 0x800 then
    [Z.lor 0xC0 (Z.shiftr cp 6); Z.lor 0x80 (Z.land cp 0x3F)]
  else if cp <? 0x10000 then
    [Z.lor 0xE0 (Z.shiftr cp 12);
     Z.lor 0x80 (Z.land (Z.shiftr cp 6) 0x3F);
     Z.lor 0x80 (Z.land cp 0x3F)]
  else
    [Z.lor 0xF0 (Z.shiftr cp 18);
     Z.lor 0x80 (Z.land (Z.shiftr cp 12) 0x3F);
     Z.lor 0x80 (Z.land (Z.shiftr cp 6) 0x3F);
     Z.lor 0x80 (Z.land cp 0x3F)].

(** U+FFFD, which replaces an unpaired surrogate. *)
Definition replacement : list Z := [0xEF; 0xBF; 0xBD].

Fixpoint utf8 (s : jsstring) : list Z :=
  match s with
  | [] => []
  | c :: rest =>
    if isHighSurrogate c then
      match rest with
      | d :: rest' =>
        if isLowSurrogate d
        then utf8_of_codepoint
               (0x10000 + Z.shiftl (c - 0xD800) 10 + (d - 0xDC00))
             ++ utf8 rest'
        else replacement ++ utf8 rest
      | [] => replacement
      end
    else if isLowSurrogate c then replacement ++ utf8 rest
    else utf8_of_codepoint c ++ utf8 rest
  end.

End JsString.
Export JsString.

(** ** Node's [crypto]: HMAC-SHA256 and base64 *)
Module Crypto.

Definition w32 (x : Z) : Z := x mod 2 ^ 32.
Definition add32 (x y : Z) : Z := w32 (x + y).
Definition rotr (n x : Z) : Z :=
  Z.lor (Z.shiftr x n) (w32 (Z.shiftl x (32 - n))).
Definition not32 (x : Z) : Z := Z.lxor x 0xFFFFFFFF.

Definition Ch (x y z : Z) : Z := Z.lxor (Z.land x y) (Z.land (not32 x) z).
Definition Maj (x y z : Z) : Z :=
  Z.lxor (Z.lxor (Z.land x y) (Z.land x z)) (Z.land y z).
Definition Sigma0 (x : Z) : Z := Z.lxor (Z.lxor (rotr 2 x) (rotr 13 x)) (rotr 22 x).
Definition Sigma1 (x : Z) : Z := Z.lxor (Z.lxor (rotr 6 x) (rotr 11 x)) (rotr 25 x).
Definition sigma0 (x : Z) : Z := Z.lxor (Z.lxor (rotr 7 x) (rotr 18 x)) (Z.shiftr x 3).
Definition sigma1 (x : Z) : Z := Z.lxor (Z.lxor (rotr 17 x) (rotr 19 x)) (Z.shiftr x 10).

(** The first 64 primes. *)
Definition primes : list Z :=
  [2; 3; 5; 7; 11; 13; 17; 19; 23; 29; 31; 37; 41; 43; 47; 53; 59; 61; 67;
   71; 73; 79; 83; 89; 97; 101; 103; 107; 109; 113; 127; 131; 137; 139;
   149; 151; 157; 163; 167; 173; 179; 181; 191; 193; 197; 199; 211; 223;
   227; 229; 233; 239; 241; 251; 257; 263; 269; 271; 277; 281; 283; 293;
   307; 311].

(** The integer cube root, bit by bit from bit [bits - 1] down. *)
Fixpoint cbrt_aux (bits : nat) (n acc : Z) : Z :=
  match bits with
  | O => acc
  | S b =>
    let c := acc + 2 ^ Z.of_nat b in
    if c * c * c <=? n then cbrt_aux b n c else cbrt_aux b n acc
  end.

(** The round constants: the first 32 bits of the fractional parts of
    the cube roots of the primes. *)
Definition K256 : list Z :=
  Eval vm_compute in map (fun p => w32 (cbrt_aux 36 (p * 2 ^ 96) 0)) primes.

Record state := St { sa : Z; sb : Z; sc : Z; sd : Z; se : Z; sf : Z; sg : Z; sh : Z }.

(** The fractional part of the square root of [p], 32 bits of it. *)
Definition frac_sqrt (p : Z) : Z := w32 (Z.sqrt (p * 2 ^ 64)).

(** The initial hash value, from the first eight primes. *)
Definition H0 : state :=
  Eval vm_compute in
    St (frac_sqrt 2) (frac_sqrt 3) (frac_sqrt 5) (frac_sqrt 7)
       (frac_sqrt 11) (frac_sqrt 13) (frac_sqrt 17) (frac_sqrt 19).

(** Big-endian words of a block. *)
Fixpoint words_of_bytes (l : list Z) : list Z :=
  match l with
  | a :: b :: c :: d :: rest =>
    (Z.shiftl a 24 + Z.shiftl b 16 + Z.shiftl c 8 + d) :: words_of_bytes rest
  | _ => []
  end.

Definition bytes_of_word (w : Z) : list Z :=
  [Z.land (Z.shiftr w 24) 0xFF; Z.land (Z.shiftr w 16) 0xFF;
   Z.land (Z.shiftr w 8) 0xFF; Z.land w 0xFF].

(** The message schedule, most recent word first. *)
Fixpoint schedule (n : nat) (rw : list Z) : list Z :=
  match n with
  | O => rw
  | S n' =>
    let w := add32 (add32 (sigma1 (nth 1 rw 0)) (nth 6 rw 0))
                   (add32 (sigma0 (nth 14 rw 0)) (nth 15 rw 0)) in
    schedule n' (w :: rw)
  end.

Definition round (s : state) (kw : Z * Z) : state :=
  let '(k, w) := kw in
  let t1 := add32 (add32 (add32 (sh s) (Sigma1 (se s))) (Ch (se s) (sf s) (sg s)))
                  (add32 k w) in
  let t2 := add32 (Sigma0 (sa s)) (Maj (sa s) (sb s) (sc s)) in
  St (add32 t1 t2) (sa s) (sb s) (sc s) (add32 (sd s) t1) (se s) (sf s) (sg s).

Definition compress (s : state) (block : list Z) : state :=
  let w := rev (schedule 48 (rev (words_of_bytes block))) in
  let r := fold_left round (combine K256 w) s in
  St (add32 (sa s) (sa r)) (add32 (sb s) (sb r)) (add32 (sc s) (sc r))
     (add32 (sd s) (sd r)) (add32 (se s) (se r)) (add32 (sf s) (sf r))
     (add32 (sg s) (sg r)) (add32 (sh s) (sh r)).

Definition pad (msg : list Z) : list Z :=
  let len := Z.of_nat (List.length msg) in
  let zeros := Z.to_nat ((55 - len) mod 64) in
  let bits := len * 8 in
  msg ++ [0x80] ++ repeat 0 zeros
      ++ bytes_of_word (Z.shiftr bits 32) ++ bytes_of_word (w32 bits).

Fixpoint blocks (n : nat) (msg : list Z) (s : state) : state :=
  match n with
  | O => s
  | S n' => blocks n' (skipn 64 msg) (compress s (firstn 64 msg))
  end.

Definition sha256 (msg : list Z) : list Z :=
  let p := pad msg in
  let s := blocks (Nat.div (List.length p) 64) p H0 in
  concat (map bytes_of_word [sa s; sb s; sc s; sd s; se s; sf s; sg s; sh s]).

(** HMAC of RFC 2104 over SHA-256 (block size 64). *)
Definition hmac_sha256 (key msg : list Z) : list Z :=
  let k := if (64 <? Z.of_nat (List.length key)) then sha256 key else key in
  let k := k ++ repeat 0 (64 - List.length k)%nat in
  sha256 (map (Z.lxor 0x5c) k ++ sha256 (map (Z.lxor 0x36) k ++ msg)).

Definition b64_alphabet : jsstring :=
  js "ABCDEFGHIJKLMNOPQRSTUVWXYZabcdefghijklmnopqrstuvwxyz0123456789+/".

Definition b64_char (i : Z) : Z := nth (Z.to_nat i) b64_alphabet 0.

(** Base64 of RFC 4648, with padding. *)
Fixpoint base64 (l : list Z) : jsstring :=
  match l with
  | [] => []
  | [a] =>
    [b64_char (Z.shiftr a 2); b64_char (Z.shiftl (Z.land a 3) 4); 61; 61]
  | [a; b] =>
    [b64_char (Z.shiftr a 2);
     b64_char (Z.lor (Z.shiftl (Z.land a 3) 4) (Z.shiftr b 4));
     b64_char (Z.shiftl (Z.land b 15) 2); 61]
  | a :: b :: c :: rest =>
    [b64_char (Z.shiftr a 2);
     b64_char (Z.lor (Z.shiftl (Z.land a 3) 4) (Z.shiftr b 4));
     b64_char (Z.lor (Z.shiftl (Z.land b 15) 2) (Z.shiftr c 6));
     b64_char (Z.land c 63)] ++ base64 rest
  end.

End Crypto.

(** ** JavaScript numbers: IEEE 754 binary64 *)
Module JsNumber.

Definition number := spec_float.
Definition prec : Z := 53.
Definition emax : Z := 1024.

(** The Number value of a mathematical integer (round to nearest, ties
    to even). *)
Definition of_Z (z : Z) : number := binary_normalize prec emax z 0 false.

Definition zero : number := S754_zero false.
Definition NaN : number := S754_nan.

Definition isFinite (x : number) : bool :=
  match x with
  | S754_zero _ | S754_finite _ _ _ => true
  | _ => false
  end.

Definition isInteger (x : number) : bool :=
  match x with
  | S754_zero _ => true
  | S754_finite _ m e => (0 <=? e) || (Zpos m mod 2 ^ (- e) =? 0)
  | _ => false
  end.

(** [<], [<=] and [===] on numbers. *)
Definition ltb (x y : number) : bool := SFltb x y.
Definition leb (x y : number) : bool := SFleb x y.
Definition strict_eq (x y : number) : bool := SFeqb x y.

(** ToBoolean: every number but NaN, +0 and -0 is truthy. *)
Definition truthy (x : number) : bool :=
  match x with
  | S754_zero _ | S754_nan => false
  | _ => true
  end.

(** *** Number::toString, radix 10 (ECMA-262, 6.1.6.1.20) *)

Definition digit (n : Z) : Z := 48 + n mod 10.

Fixpoint digits_aux (fuel : nat) (n : Z) (acc : jsstring) : jsstring :=
  match fuel with
  | O => acc
  | S fuel' =>
    if n <? 10 then digit n :: acc
    else digits_aux fuel' (n / 10) (digit n :: acc)
  end.

(** The decimal digits of a non-negative integer. *)
Definition digits (n : Z) : jsstring :=
  digits_aux (S (Z.to_nat (Z.log2 n))) n [].

(** Comparison of [a * 2^i * 10^j] with [b * 2^i' * 10^j']. *)
Definition cmp_scaled (a i j b i' j' : Z) : comparison :=
  let i0 := Z.min i i' in
  let j0 := Z.min j j' in
  (a * 2 ^ (i - i0) * 10 ^ (j - j0) ?= b * 2 ^ (i' - i0) * 10 ^ (j' - j0)).

(** Is [m * 2^e] the Number value of [s * 10^t]?  The reals that round
    to a double lie between the midpoints to its two neighbours, the
    midpoints included when the mantissa is even. *)
Definition rounds_to (m e s t : Z) : bool :=
  let '(lm, le) :=
    if (m =? 2 ^ 52) && (-1074 <? e) then (4 * m - 1, e - 2)
    else (2 * m - 1, e - 1) in
  let lo := cmp_scaled lm le 0 s 0 t in
  let hi := cmp_scaled s 0 t (2 * m + 1) (e - 1) 0 in
  let ok c := match c with Lt => true | Eq => Z.even m | Gt => false end in
  ok lo && ok hi.

(** The [n] with [10^(n-1) <= m * 2^e < 10^n], searched downwards
    from [n]. *)
Fixpoint magnitude (fuel : nat) (n m e : Z) : Z :=
  match fuel with
  | O => n
  | S fuel' =>
    match cmp_scaled 1 0 (n - 1) m e 0 with
    | Gt => magnitude fuel' (n - 1) m e
    | _ => n
    end
  end.

(** floor of [m * 2^e / 10^t]. *)
Definition floor_scaled (m e t : Z) : Z :=
  (m * 2 ^ (Z.max e 0) * 10 ^ (Z.max (- t) 0))
  / (2 ^ (Z.max (- e) 0) * 10 ^ (Z.max t 0)).

(** The [k]-digit decimals [s * 10^(n-k)] whose Number value is
    [m * 2^e]: the one below or the one above; when both do, the nearer,
    and the even one when they are as near. *)
Definition shortest_at (m e nx k : Z) : option (Z * Z) :=
  let t := nx - k in
  let f := floor_scaled m e t in
  let lo_ok := (10 ^ (k - 1) <=? f) && rounds_to m e f t in
  let hi_ok := rounds_to m e (f + 1) t in
  let hi := if f + 1 =? 10 ^ k then (10 ^ (k - 1), nx + 1) else (f + 1, nx) in
  match lo_ok, hi_ok with
  | true, true =>
    match cmp_scaled (2 * m) e 0 (2 * f + 1) 0 t with
    | Gt => Some hi
    | Eq => if Z.even f then Some (f, nx) else Some hi
    | Lt => Some (f, nx)
    end
  | true, false => Some (f, nx)
  | false, true => Some hi
  | false, false => None
  end.

(** The least [k], from [k] on, with such a decimal: [(s, n, k)]. *)
Fixpoint shortest (fuel : nat) (m e nx k : Z) : Z * Z * Z :=
  match fuel with
  | O => (floor_scaled m e (nx - k), nx, k)
  | S fuel' =>
    match shortest_at m e nx k with
    | Some (s, n) => (s, n, k)
    | None => shortest fuel' m e nx (k + 1)
    end
  end.

Definition zeros (n : Z) : jsstring := repeat 48 (Z.to_nat n).

(** Steps 7 to 10 of Number::toString: the layout of the digits. *)
Definition layout (ds : jsstring) (n k : Z) : jsstring :=
  if (k <=? n) && (n <=? 21) then ds ++ zeros (n - k)
  else if (0 <? n) && (n <=? 21) then
    firstn (Z.to_nat n) ds ++ js "." ++ skipn (Z.to_nat n) ds
  else if (-6 <? n) && (n <=? 0) then js "0." ++ zeros (- n) ++ ds
  else
    let ex := js "e" ++ (if n - 1 <? 0 then js "-" else js "+")
                     ++ digits (Z.abs (n - 1)) in
    if k =? 1 then ds ++ ex
    else firstn 1 ds ++ js "." ++ skipn 1 ds ++ ex.

(** An upper estimate of the magnitude, from the binary one:
    [log10 2 < 0.30103]. *)
Definition magnitude_bound (m e : Z) : Z :=
  (Z.log2 m + e) * 30103 / 100000 + 2.

Definition toString_pos (m e : Z) : jsstring :=
  let nx := magnitude 8 (magnitude_bound m e) m e in
  let '(s, n, k) := shortest 17 m e nx 1 in
  layout (digits s) n k.

Definition toString (x : number) : jsstring :=
  match x with
  | S754_nan => js "NaN"
  | S754_zero _ => js "0"
  | S754_infinity false => js "Infinity"
  | S754_infinity true => js "-Infinity"
  | S754_finite false m e => toString_pos (Zpos m) e
  | S754_finite true m e => js "-" ++ toString_pos (Zpos m) e
  end.

(** *** [parseInt(string, 10)] (ECMA-262, 19.2.5) *)

Definition isDigit (c : Z) : bool := (48 <=? c) && (c <=? 57).

Fixpoint digit_prefix (s : jsstring) : jsstring :=
  match s with
  | c :: r => if isDigit c then c :: digit_prefix r else []
  | [] => []
  end.

Definition digits_value (ds : jsstring) : Z :=
  fold_left (fun acc c => acc * 10 + (c - 48)) ds 0.

Definition parseInt10 (input : jsstring) : number :=
  let s := trimStart input in
  let '(neg, s) :=
    match s with
    | c :: r => if c =? 45 then (true, r)
                else if c =? 43 then (false, r) else (false, s)
    | [] => (false, s)
    end in
  match digit_prefix s with
  | [] => NaN
  | ds =>
    let mathInt := digits_value ds in
    if mathInt =? 0 then S754_zero neg
    else of_Z (if neg then - mathInt else mathInt)
  end.

(** [x || 0]. *)
Definition or_zero (x : number) : number := if truthy x then x else zero.

End JsNumber.

(** ** Values, exceptions and errors *)
Module Js.
Export JsNumber.

(** The values the code handles. The only arrays it builds are arrays
    of strings. *)
Inductive jsvalue :=
| VUndefined
| VNull
| VBoolean (b : bool)
| VNumber (n : number)
| VString (s : jsstring)
| VArray (l : list jsstring).

(** ToString, as template literals and [String(value)] apply it. *)
Definition ToString (v : jsvalue) : jsstring :=
  match v with
  | VUndefined => js "undefined"
  | VNull => js "null"
  | VBoolean true => js "true"
  | VBoolean false => js "false"
  | VNumber n => toString n
  | VString s => s
  | VArray l => join (js ",") l
  end.

(** An object literal of type [Record<string, unknown>], in insertion
    order. *)
Definition object := list (jsstring * jsvalue).

(** The error classes of src/errors: [ShopierError] and its subclasses
    differ by [name] and [code]. *)
Record ShopierError := mkError {
  name : jsstring;
  message : jsstring;
  code : jsstring;
  details : option object
}.

Inductive exception :=
| Shopier (e : ShopierError)
| RangeError (msg : jsstring).

Inductive completion (A : Type) :=
| Return (a : A)
| Throw (e : exception).
Arguments Return {A} a.
Arguments Throw {A} e.

Definition bind {A B} (c : completion A) (k : A -> completion B) : completion B :=
  match c with
  | Return a => k a
  | Throw e => Throw e
  end.

(** [try { c } catch { h }]. *)
Definition try_catch {A} (c : completion A) (h : exception -> completion A)
  : completion A :=
  match c with
  | Return a => Return a
  | Throw e => h e
  end.

Definition default {A} (o : option A) (d : A) : A :=
  match o with Some a => a | None => d end.

End Js.
Export Js.

Declare Scope js_scope.
Notation "x <- c ;; k" := (bind c (fun x => k))
  (at level 61, c at next level, right associativity) : js_scope.
Notation "c ;;; k" := (bind c (fun _ => k))
  (at level 61, right associativity) : js_scope.
Open Scope js_scope.

(** ** src/errors *)
Module Errors.

Definition ShopierError_new (message code : jsstring) (details : option object)
  : ShopierError :=
  mkError (js "ShopierError") message code details.

Definition with_name (e : ShopierError) (n : jsstring) : ShopierError :=
  mkError n (message e) (code e) (details e).

Definition InvalidApiKeyError (message : option jsstring) (details : option object) :=
  with_name
    (ShopierError_new (default message (js "API key is missing or invalid"))
                      (js "INVALID_API_KEY") details)
    (js "InvalidApiKeyError").

Definition InvalidApiSecretError (message : option jsstring) (details : option object) :=
  with_name
    (ShopierError_new (default message (js "API secret is missing or invalid"))
                      (js "INVALID_API_SECRET") details)
    (js "InvalidApiSecretError").

Definition ValidationError (message : jsstring) (details : option object) :=
  with_name (ShopierError_new message (js "VALIDATION_ERROR") details)
            (js "ValidationError").

Definition SignatureValidationError (message : option jsstring) (details : option object) :=
  with_name
    (ShopierError_new (default message (js "Signature validation failed"))
                      (js "SIGNATURE_VALIDATION_ERROR") details)
    (js "SignatureValidationError").

Definition SENSITIVE_FIELDS : list jsstring :=
  [js "email"; js "phone"; js "value"; js "password"; js "secret";
   js "token"; js "apiSecret"; js "apiKey"].

Definition REDACTED : jsstring := js "[REDACTED]".

(** The projection [toSafeJSON] returns. *)
Record SafeJSON := mkSafe {
  safe_name : jsstring;
  safe_message : jsstring;
  safe_code : jsstring;
  safe_details : option object
}.

Section Redaction.
(** [String.prototype.toLowerCase], the host's Unicode case mapping. *)
Variable toLowerCase : jsstring -> jsstring.

Definition isSensitive (key : jsstring) : bool :=
  existsb (fun field => includes (toLowerCase key) (toLowerCase field))
          SENSITIVE_FIELDS.

Definition getSafeDetails (e : ShopierError) : option object :=
  match details e with
  | None => None
  | Some d =>
    Some (map (fun '(key, value) =>
                 if isSensitive key then (key, VString REDACTED)
                 else (key, value)) d)
  end.

Definition toSafeJSON (e : ShopierError) : SafeJSON :=
  mkSafe (name e) (message e) (code e) (getSafeDetails e).
End Redaction.

(** The case mapping on the ASCII range. *)
Definition ascii_toLowerCase (s : jsstring) : jsstring :=
  map (fun c => if (65 <=? c) && (c <=? 90) then c + 32 else c) s.

End Errors.

(** ** src/utils *)
Module Utils.

Definition HTML_ESCAPE_MAP : list (Z * jsstring) :=
  [(38, js "&amp;"); (60, js "&lt;"); (62, js "&gt;");
   (34, js "&quot;"); (39, js "&#x27;")].

(** The character class of the regular expression: ampersand, angle
    brackets, double quote, single quote. *)
Definition isHtmlSpecial (c : Z) : bool :=
  existsb (Z.eqb c) [38; 60; 62; 34; 39].

Fixpoint lookup (m : list (Z * jsstring)) (c : Z) : option jsstring :=
  match m with
  | [] => None
  | (k, v) :: m' => if k =? c then Some v else lookup m' c
  end.

(** The replacer [(char) => HTML_ESCAPE_MAP[char] || char]. *)
Definition replacer (c : Z) : jsstring :=
  match lookup HTML_ESCAPE_MAP c with
  | Some e => if JsString.truthy e then e else [c]
  | None => [c]
  end.

(** The global [replace] over that class: every code unit of the class
    is replaced by what the replacer returns, the others are kept. *)
Definition escapeHtml (input : jsstring) : jsstring :=
  flat_map (fun c => if isHtmlSpecial c then replacer c else [c]) input.

Definition MIN_RANDOM : Z := 100000.
Definition MAX_RANDOM : Z := 999999.

(** [crypto.randomInt(min, max)]: an integer of [min, max), here the one
    the entropy [draw] of the secure source selects. *)
Definition randomInt (draw : Z) (min max : Z) : Z := min + draw mod (max - min).

Definition generateRandomNumber (draw : Z) : number :=
  of_Z (randomInt draw MIN_RANDOM (MAX_RANDOM + 1)).

End Utils.

(** ** Regular expressions, matched by derivatives *)
Module Regex.

Inductive regex :=
| Fail
| Eps
| Class (p : Z -> bool)
| Seq (r1 r2 : regex)
| Alt (r1 r2 : regex)
| Star (r : regex).

Definition Plus (r : regex) : regex := Seq r (Star r).

(** [r{n}] and [r{0,n}]. *)
Fixpoint power (n : nat) (r : regex) : regex :=
  match n with
  | O => Eps
  | S n' => Seq r (power n' r)
  end.

Fixpoint upto (n : nat) (r : regex) : regex :=
  match n with
  | O => Eps
  | S n' => Alt Eps (Seq r (upto n' r))
  end.

Fixpoint nullable (r : regex) : bool :=
  match r with
  | Fail => false
  | Eps => true
  | Class _ => false
  | Seq a b => nullable a && nullable b
  | Alt a b => nullable a || nullable b
  | Star _ => true
  end.

Fixpoint deriv (c : Z) (r : regex) : regex :=
  match r with
  | Fail => Fail
  | Eps => Fail
  | Class p => if p c then Eps else Fail
  | Seq a b =>
    if nullable a then Alt (Seq (deriv c a) b) (deriv c b)
    else Seq (deriv c a) b
  | Alt a b => Alt (deriv c a) (deriv c b)
  | Star a => Seq (deriv c a) (Star a)
  end.

(** [/^r$/.test(s)]. *)
Fixpoint test (r : regex) (s : jsstring) : bool :=
  match s with
  | [] => nullable r
  | c :: s' => test (deriv c r) s'
  end.

End Regex.

(** ** src/enums and src/types *)
Module Types.

Inductive Currency := TL | USD | EUR.
Inductive Language := TR | EN.
Inductive ProductType := REAL_OBJECT | DOWNLOADABLE_VIRTUAL | DEFAULT.
Inductive PlatformType := IN_FRAME | NOT_IN_FRAME.
Inductive WebsiteIndex := SITE_1 | SITE_2 | SITE_3 | SITE_4 | SITE_5.

(** The numeric value of each enum member. *)
Definition Currency_value (c : Currency) : number :=
  of_Z match c with TL => 0 | USD => 1 | EUR => 2 end.
Definition Language_value (l : Language) : number :=
  of_Z match l with TR => 0 | EN => 1 end.
Definition ProductType_value (p : ProductType) : number :=
  of_Z match p with REAL_OBJECT => 0 | DOWNLOADABLE_VIRTUAL => 1 | DEFAULT => 2 end.
Definition PlatformType_value (p : PlatformType) : number :=
  of_Z match p with IN_FRAME => 0 | NOT_IN_FRAME => 1 end.
Definition WebsiteIndex_value (w : WebsiteIndex) : number :=
  of_Z match w with
       | SITE_1 => 1 | SITE_2 => 2 | SITE_3 => 3 | SITE_4 => 4 | SITE_5 => 5
       end.

(** The six required fields hold whatever the caller passed, the
    optional ones are absent or typed. *)
Record BuyerInfo := mkBuyer {
  id : jsvalue;
  platformOrderId : option jsstring;
  productName : jsvalue;
  productType : option ProductType;
  firstName : jsvalue;
  lastName : jsvalue;
  email : jsvalue;
  phone : jsvalue;
  accountAge : option number
}.

Record Address := mkAddress {
  address : jsstring;
  city : jsstring;
  country : jsstring;
  postcode : jsstring
}.

Record ShopierConfig := mkConfig {
  cfg_apiKey : option jsstring;
  cfg_apiSecret : option jsstring;
  cfg_language : option Language;
  cfg_moduleVersion : option jsstring;
  cfg_websiteIndex : option WebsiteIndex
}.

Record PaymentOptions := mkOptions {
  opt_amount : number;
  opt_buyer : BuyerInfo;
  opt_billing : option Address;
  opt_shipping : option Address;
  opt_currency : option Currency;
  opt_maxInstallment : option number;
  opt_language : option Language;
  opt_productType : option ProductType;
  opt_platformType : option PlatformType;
  opt_websiteIndex : option WebsiteIndex;
  opt_isInFrame : option bool;
  opt_randomNr : option number
}.

Record FormData := mkFormData {
  API_key : jsstring;
  website_index : number;
  platform_order_id : jsvalue;
  product_name : jsvalue;
  product_type : number;
  buyer_name : jsvalue;
  buyer_surname : jsvalue;
  buyer_email : jsvalue;
  buyer_account_age : number;
  buyer_id_nr : jsvalue;
  buyer_phone : jsvalue;
  billing_address : jsstring;
  billing_city : jsstring;
  billing_country : jsstring;
  billing_postcode : jsstring;
  shipping_address : jsstring;
  shipping_city : jsstring;
  shipping_country : jsstring;
  shipping_postcode : jsstring;
  total_order_value : number;
  currency : number;
  platform : number;
  is_in_frame : number;
  current_language : number;
  modul_version : jsstring;
  random_nr : number;
  signature : jsstring
}.

(** [Object.entries(formData)]: the properties in the order the object
    literal of [buildFormData] lists them. *)
Definition Object_entries (f : FormData) : object :=
  [(js "API_key", VString (API_key f));
   (js "website_index", VNumber (website_index f));
   (js "platform_order_id", platform_order_id f);
   (js "product_name", product_name f);
   (js "product_type", VNumber (product_type f));
   (js "buyer_name", buyer_name f);
   (js "buyer_surname", buyer_surname f);
   (js "buyer_email", buyer_email f);
   (js "buyer_account_age", VNumber (buyer_account_age f));
   (js "buyer_id_nr", buyer_id_nr f);
   (js "buyer_phone", buyer_phone f);
   (js "billing_address", VString (billing_address f));
   (js "billing_city", VString (billing_city f));
   (js "billing_country", VString (billing_country f));
   (js "billing_postcode", VString (billing_postcode f));
   (js "shipping_address", VString (shipping_address f));
   (js "shipping_city", VString (shipping_city f));
   (js "shipping_country", VString (shipping_country f));
   (js "shipping_postcode", VString (shipping_postcode f));
   (js "total_order_value", VNumber (total_order_value f));
   (js "currency", VNumber (currency f));
   (js "platform", VNumber (platform f));
   (js "is_in_frame", VNumber (is_in_frame f));
   (js "current_language", VNumber (current_language f));
   (js "modul_version", VString (modul_version f));
   (js "random_nr", VNumber (random_nr f));
   (js "signature", VString (signature f))].

Record FormDataResult := mkFormDataResult {
  fdr_formData : FormData;
  fdr_actionUrl : jsstring
}.

Record PaymentResult := mkPaymentResult {
  html : jsstring;
  formData : FormData;
  actionUrl : jsstring;
  hiddenInputs : jsstring
}.

Record CallbackBody := mkBody {
  cb_random_nr : jsstring;
  cb_platform_order_id : jsstring;
  cb_payment_id : jsstring;
  cb_installment : jsstring;
  cb_status : jsstring;
  cb_signature : jsstring
}.

Record CallbackResult := mkResult {
  success : bool;
  orderId : jsstring;
  paymentId : jsstring;
  installment : number;
  res_platformOrderId : jsstring;
  status : jsstring
}.

End Types.
Export Types.

(** ** src/core/validator.ts *)
Module Validator.
Import Errors Regex.

Inductive BuyerField :=
| f_id | f_firstName | f_lastName | f_email | f_phone | f_productName.

Definition field_name (f : BuyerField) : jsstring :=
  match f with
  | f_id => js "id"
  | f_firstName => js "firstName"
  | f_lastName => js "lastName"
  | f_email => js "email"
  | f_phone => js "phone"
  | f_productName => js "productName"
  end.

(** [buyer[field]]. *)
Definition get (buyer : BuyerInfo) (f : BuyerField) : jsvalue :=
  match f with
  | f_id => id buyer
  | f_firstName => firstName buyer
  | f_lastName => lastName buyer
  | f_email => email buyer
  | f_phone => phone buyer
  | f_productName => productName buyer
  end.

Definition requiredFields : list BuyerField :=
  [f_id; f_firstName; f_lastName; f_email; f_phone; f_productName].

(** The test of the loop: undefined, null, or a string that is empty
    once trimmed. *)
Definition isMissing (value : jsvalue) : bool :=
  match value with
  | VUndefined | VNull => true
  | VString s => JsString.eqb (trim s) []
  | _ => false
  end.

Definition notSpaceOrAt (c : Z) : bool := negb (isWhiteSpace c || (c =? 64)).

(** [^[^\s@]+@[^\s@]+\.[^\s@]+$]. *)
Definition emailRegex : regex :=
  Seq (Plus (Class notSpaceOrAt))
   (Seq (Class (Z.eqb 64))
    (Seq (Plus (Class notSpaceOrAt))
     (Seq (Class (Z.eqb 46)) (Plus (Class notSpaceOrAt))))).

Definition validateEmail (email : jsvalue) : bool :=
  match email with
  | VString s => JsString.truthy s && test emailRegex (trim s)
  | _ => false
  end.

(** The class of the separators the phone check strips: white space,
    dash, parentheses, plus. *)
Definition isPhoneSeparator (c : Z) : bool :=
  isWhiteSpace c || existsb (Z.eqb c) [45; 40; 41; 43].

(** [^\d{7,15}$]. *)
Definition phoneRegex : regex :=
  Seq (power 7 (Class isDigit)) (upto 8 (Class isDigit)).

Definition validatePhone (phone : jsvalue) : bool :=
  match phone with
  | VString s =>
    JsString.truthy s &&
    (let digitsOnly := filter (fun c => negb (isPhoneSeparator c)) s in
     test phoneRegex digitsOnly)
  | _ => false
  end.

Definition validateBuyer (buyer : BuyerInfo) : completion unit :=
  let missingFields :=
    map field_name (filter (fun f => isMissing (get buyer f)) requiredFields) in
  if (0 <? length missingFields)%nat then
    Throw (Shopier (ValidationError
      (js "Missing required buyer fields: " ++ join (js ", ") missingFields)
      (Some [(js "missingFields", VArray missingFields)])))
  else if negb (validateEmail (email buyer)) then
    Throw (Shopier (ValidationError (js "Invalid email format")
      (Some [(js "field", VString (js "email")); (js "value", email buyer)])))
  else if negb (validatePhone (phone buyer)) then
    Throw (Shopier (ValidationError (js "Invalid phone number format")
      (Some [(js "field", VString (js "phone")); (js "value", phone buyer)])))
  else Return tt.

Definition validateAmount (amount : number) : completion unit :=
  if negb (isFinite amount) || leb amount zero then
    Throw (Shopier (ValidationError (js "Amount must be a valid positive number")
      (Some [(js "field", VString (js "amount")); (js "value", VNumber amount)])))
  else Return tt.

Definition validateInstallment (installment : number) : completion unit :=
  if negb (isInteger installment) || ltb installment zero
     || ltb (of_Z 12) installment then
    Throw (Shopier (ValidationError
      (js "Installment must be an integer between 0 and 12")
      (Some [(js "field", VString (js "installment"));
             (js "value", VNumber installment)])))
  else Return tt.

End Validator.

(** ** src/core/config.ts *)
Module Config.
Import Errors.

Definition DEFAULT_language : Language := TR.
Definition DEFAULT_moduleVersion : jsstring := js "1.0.4".
Definition DEFAULT_websiteIndex : WebsiteIndex := SITE_1.

Definition ENV_API_KEY : jsstring := js "SHOPIER_API_KEY".
Definition ENV_API_SECRET : jsstring := js "SHOPIER_API_SECRET".

Record ResolvedConfig := mkResolved {
  apiKey : jsstring;
  apiSecret : jsstring;
  language : Language;
  moduleVersion : jsstring;
  websiteIndex : WebsiteIndex
}.

(** [v && v.trim() !== ''] for a string that may be undefined. *)
Definition nonBlank (v : option jsstring) : bool :=
  match v with
  | Some s => JsString.truthy s && negb (JsString.eqb (trim s) [])
  | None => false
  end.

(** [!v] for a string that may be undefined. *)
Definition falsy (v : option jsstring) : bool :=
  match v with
  | Some s => negb (JsString.truthy s)
  | None => true
  end.

Section Env.
(** [process.env]. *)
Variable env : jsstring -> option jsstring.

Definition resolveApiKey (configValue : option jsstring) : option jsstring :=
  if nonBlank configValue then option_map trim configValue
  else
    let envValue := env ENV_API_KEY in
    if nonBlank envValue then option_map trim envValue
    else None.

Definition resolveApiSecret (configValue : option jsstring) : option jsstring :=
  if nonBlank configValue then option_map trim configValue
  else
    let envValue := env ENV_API_SECRET in
    if nonBlank envValue then option_map trim envValue
    else None.

Definition emptyConfig : ShopierConfig := mkConfig None None None None None.

Definition resolveConfig (config : option ShopierConfig) : completion ResolvedConfig :=
  let config := default config emptyConfig in
  let apiKey := resolveApiKey (cfg_apiKey config) in
  let apiSecret := resolveApiSecret (cfg_apiSecret config) in
  if falsy apiKey then
    Throw (Shopier (InvalidApiKeyError (Some (js "API key is missing or empty")) None))
  else if falsy apiSecret then
    Throw (Shopier (InvalidApiSecretError (Some (js "API secret is missing or empty")) None))
  else
    Return (mkResolved (default apiKey []) (default apiSecret [])
              (default (cfg_language config) DEFAULT_language)
              (default (cfg_moduleVersion config) DEFAULT_moduleVersion)
              (default (cfg_websiteIndex config) DEFAULT_websiteIndex)).

(** *** ConfigManager: a mutable [ResolvedConfig].  A method maps the
    stored configuration to its completion and the configuration it
    leaves behind, also when it throws. *)
Definition method (A : Type) := ResolvedConfig -> completion A * ResolvedConfig.

Definition ret {A} (a : A) : method A := fun c => (Return a, c).
Definition throw {A} (e : exception) : method A := fun c => (Throw e, c).
Definition assign (f : ResolvedConfig -> ResolvedConfig) : method unit :=
  fun c => (Return tt, f c).
Definition andThen {A B} (m : method A) (k : A -> method B) : method B :=
  fun c => match m c with
           | (Return a, c') => k a c'
           | (Throw e, c') => (Throw e, c')
           end.
Definition when (b : bool) (m : method unit) : method unit :=
  if b then m else ret tt.
Definition isDefined {A} (o : option A) : bool :=
  match o with Some _ => true | None => false end.

Definition set_apiKey (v : jsstring) (c : ResolvedConfig) :=
  mkResolved v (apiSecret c) (language c) (moduleVersion c) (websiteIndex c).
Definition set_apiSecret (v : jsstring) (c : ResolvedConfig) :=
  mkResolved (apiKey c) v (language c) (moduleVersion c) (websiteIndex c).
Definition set_language (v : Language) (c : ResolvedConfig) :=
  mkResolved (apiKey c) (apiSecret c) v (moduleVersion c) (websiteIndex c).
Definition set_moduleVersion (v : jsstring) (c : ResolvedConfig) :=
  mkResolved (apiKey c) (apiSecret c) (language c) v (websiteIndex c).
Definition set_websiteIndex (v : WebsiteIndex) (c : ResolvedConfig) :=
  mkResolved (apiKey c) (apiSecret c) (language c) (moduleVersion c) v.

Definition ConfigManager_new (config : option ShopierConfig)
  : completion ResolvedConfig := resolveConfig config.

Definition getApiKey : method jsstring := fun c => (Return (apiKey c), c).
Definition getApiSecret : method jsstring := fun c => (Return (apiSecret c), c).

Definition updateConfig (updates : ShopierConfig) : method unit :=
  andThen
    (when (isDefined (cfg_apiKey updates))
       (let apiKey := resolveApiKey (cfg_apiKey updates) in
        if falsy apiKey then
          throw (Shopier (InvalidApiKeyError (Some (js "API key is missing or empty")) None))
        else assign (set_apiKey (default apiKey []))))
    (fun _ =>
  andThen
    (when (isDefined (cfg_apiSecret updates))
       (let apiSecret := resolveApiSecret (cfg_apiSecret updates) in
        if falsy apiSecret then
          throw (Shopier (InvalidApiSecretError (Some (js "API secret is missing or empty")) None))
        else assign (set_apiSecret (default apiSecret []))))
    (fun _ =>
  andThen
    (match cfg_language updates with
     | Some l => assign (set_language l)
     | None => ret tt
     end)
    (fun _ =>
  andThen
    (match cfg_moduleVersion updates with
     | Some v => assign (set_moduleVersion v)
     | None => ret tt
     end)
    (fun _ =>
    match cfg_websiteIndex updates with
    | Some w => assign (set_websiteIndex w)
    | None => ret tt
    end)))).
End Env.

End Config.

(** ** src/core/signature.ts *)
Module Signature.

(** [createHmac('sha256', secret).update(data).digest('base64')]: both
    strings are encoded as UTF-8. *)
Definition generateSignature (secret data : jsstring) : jsstring :=
  Crypto.base64 (Crypto.hmac_sha256 (utf8 secret) (utf8 data)).

(** [Buffer.from(s, 'utf8')]. *)
Definition Buffer_from (s : jsstring) : list Z := utf8 s.

(** [crypto.timingSafeEqual]: throws a RangeError on buffers of
    different byte lengths. *)
Definition timingSafeEqual (a b : list Z) : completion bool :=
  if (length a =? length b)%nat then Return (JsString.eqb a b)
  else Throw (RangeError (js "Input buffers must have the same byte length")).

Definition verifySignature (secret data signature : jsstring) : completion bool :=
  let expectedSignature := generateSignature secret data in
  try_catch
    (let expectedBuffer := Buffer_from expectedSignature in
     let signatureBuffer := Buffer_from signature in
     if negb (length expectedBuffer =? length signatureBuffer)%nat
     then Return false
     else timingSafeEqual expectedBuffer signatureBuffer)
    (fun _ => Return false).

Definition generatePaymentSignature
    (secret : jsstring) (randomNr : number) (orderId : jsvalue)
    (amount : number) (currency : number) : jsstring :=
  let data := toString randomNr ++ ToString orderId
              ++ toString amount ++ toString currency in
  generateSignature secret data.

Definition generateCallbackSignature (secret randomNr orderId : jsstring) : jsstring :=
  let data := randomNr ++ orderId in
  generateSignature secret data.

End Signature.

(** ** src/renderers *)
Module Renderers.
Import Utils.

Definition nl : jsstring := [10].
Definition lines (l : list jsstring) : jsstring := join nl l.

(** One hidden input of [renderHiddenInputs]. *)
Definition hiddenInput (entry : jsstring * jsvalue) : jsstring :=
  let '(key, value) := entry in
  let escapedKey := escapeHtml key in
  let escapedValue := escapeHtml (ToString value) in
  tpl "<input type=`hidden` name=`" ++ escapedKey
    ++ tpl "` value=`" ++ escapedValue ++ tpl "` />".

Definition renderHiddenInputs (formData : FormData) : jsstring :=
  lines (map hiddenInput (Object_entries formData)).

Definition loadingMessage (language : Language) : jsstring :=
  match language with
  | EN => js "Redirecting to payment page..."
  | TR => [214] ++ js "deme sayfas" ++ [305] ++ js "na y" ++ [246]
          ++ js "nlendiriliyorsunuz..."
  end.

(** The template of the page up to the loading message. *)
Definition page_head : jsstring :=
  lines
    [tpl "<!DOCTYPE html>";
     tpl "<html>";
     tpl "<head>";
     tpl "  <meta charset=`UTF-8`>";
     tpl "  <meta name=`viewport` content=`width=device-width, initial-scale=1.0`>";
     tpl "  <title>Shopier Payment</title>";
     tpl "  <style>";
     tpl "    body {";
     tpl "      font-family: -apple-system, BlinkMacSystemFont, 'Segoe UI', Roboto, sans-serif;";
     tpl "      display: flex;";
     tpl "      justify-content: center;";
     tpl "      align-items: center;";
     tpl "      height: 100vh;";
     tpl "      margin: 0;";
     tpl "      background-color: #f5f5f5;";
     tpl "    }";
     tpl "    .loading {";
     tpl "      text-align: center;";
     tpl "      color: #333;";
     tpl "    }";
     tpl "    .spinner {";
     tpl "      border: 3px solid #f3f3f3;";
     tpl "      border-top: 3px solid #3498db;";
     tpl "      border-radius: 50%;";
     tpl "      width: 40px;";
     tpl "      height: 40px;";
     tpl "      animation: spin 1s linear infinite;";
     tpl "      margin: 0 auto 20px;";
     tpl "    }";
     tpl "    @keyframes spin {";
     tpl "      0% { transform: rotate(0deg); }";
     tpl "      100% { transform: rotate(360deg); }";
     tpl "    }";
     tpl "  </style>";
     tpl "</head>";
     tpl "<body>";
     tpl "  <div class=`loading`>";
     tpl "    <div class=`spinner`></div>";
     tpl "    <p>"].

(** From the loading message to the action URL. *)
Definition page_form : jsstring :=
  lines
    [tpl "</p>";
     tpl "  </div>";
     tpl "  <form id=`shopier-form` action=`"].

(** After the hidden inputs. *)
Definition page_tail : jsstring :=
  lines
    [tpl "";
     tpl "  </form>";
     tpl "  <script>";
     tpl "    document.getElementById('shopier-form').submit();";
     tpl "  </script>";
     tpl "</body>";
     tpl "</html>"].

Definition renderAutoSubmitHTML
    (formData : FormData) (actionUrl : jsstring) (language : option Language)
  : jsstring :=
  let language := default language TR in
  let escapedActionUrl := escapeHtml actionUrl in
  let hiddenInputs := renderHiddenInputs formData in
  page_head ++ escapeHtml (loadingMessage language) ++ page_form
    ++ escapedActionUrl ++ tpl "` method=`POST`>" ++ nl
    ++ hiddenInputs ++ page_tail.

Definition SHOPIER_ACTION_URL : jsstring :=
  js "https://www.shopier.com/ShowProduct/api_pay4.php".

Definition getFormDataObject (formData : FormData) (actionUrl : option jsstring)
  : FormDataResult :=
  mkFormDataResult formData (default actionUrl SHOPIER_ACTION_URL).

End Renderers.

(** ** src/core/shopier.ts *)
Module ShopierSDK.
Import Errors Utils Validator Config Signature.

Definition SHOPIER_ACTION_URL : jsstring :=
  js "https://www.shopier.com/ShowProduct/api_pay4.php".

(** The constructor: an instance is its resolved configuration. *)
Definition Shopier_new (env : jsstring -> option jsstring)
    (config : option ShopierConfig) : completion ResolvedConfig :=
  resolveConfig env config.

Definition emptyAddress : Address := mkAddress [] [] [] [].

(** [buyer.platformOrderId || buyer.id], the order id of
    [buildFormData]. *)
Definition resolveOrderId (buyer : BuyerInfo) : jsvalue :=
  match platformOrderId buyer with
  | Some o => if JsString.truthy o then VString o else id buyer
  | None => id buyer
  end.

Section Instance.
(** [this.config]. *)
Variable config : ResolvedConfig.

(** [draw] is what the secure random source yields, should the nonce
    be generated. *)
Definition buildFormData (draw : Z) (options : PaymentOptions)
  : completion FormData :=
  let amount := opt_amount options in
  let buyer := opt_buyer options in
  let billing := opt_billing options in
  let shipping := opt_shipping options in
  let currency := default (opt_currency options) TL in
  let maxInstallment := default (opt_maxInstallment options) zero in
  let language := default (opt_language options) (language config) in
  let productType := default (opt_productType options) REAL_OBJECT in
  let platformType := default (opt_platformType options) NOT_IN_FRAME in
  let websiteIndex := default (opt_websiteIndex options) (websiteIndex config) in
  let isInFrame := default (opt_isInFrame options) false in
  let randomNrOverride := opt_randomNr options in
  validateAmount amount ;;;
  validateBuyer buyer ;;;
  (if negb (strict_eq maxInstallment zero)
   then validateInstallment maxInstallment else Return tt) ;;;
  let randomNr := default randomNrOverride (generateRandomNumber draw) in
  let orderId := resolveOrderId buyer in
  let signature :=
    generatePaymentSignature (apiSecret config) randomNr orderId amount
      (Currency_value currency) in
  let finalProductType := default (Types.productType buyer) productType in
  let billingAddr := default billing emptyAddress in
  let shippingAddr :=
    match shipping with
    | Some a => a
    | None => default billing emptyAddress
    end in
  Return (mkFormData
    (apiKey config)
    (WebsiteIndex_value websiteIndex)
    orderId
    (productName buyer)
    (ProductType_value finalProductType)
    (firstName buyer)
    (lastName buyer)
    (email buyer)
    (default (accountAge buyer) zero)
    (id buyer)
    (phone buyer)
    (address billingAddr) (city billingAddr)
    (country billingAddr) (postcode billingAddr)
    (address shippingAddr) (city shippingAddr)
    (country shippingAddr) (postcode shippingAddr)
    amount
    (Currency_value currency)
    maxInstallment
    (PlatformType_value (if isInFrame then IN_FRAME else platformType))
    (Language_value language)
    (moduleVersion config)
    randomNr
    signature).

Definition createPayment (draw : Z) (options : PaymentOptions)
  : completion PaymentResult :=
  formData <- buildFormData draw options ;;
  let html :=
    Renderers.renderAutoSubmitHTML formData SHOPIER_ACTION_URL
      (Some (default (opt_language options) (language config))) in
  let hiddenInputs := Renderers.renderHiddenInputs formData in
  Return (mkPaymentResult html formData SHOPIER_ACTION_URL hiddenInputs).

Definition verifyCallback (body : CallbackBody) : completion CallbackResult :=
  let data := cb_random_nr body ++ cb_platform_order_id body in
  ok <- verifySignature (apiSecret config) data (cb_signature body) ;;
  if negb ok then
    Throw (Shopier (SignatureValidationError
                      (Some (js "Callback signature verification failed")) None))
  else
    Return (mkResult
      (JsString.eqb (cb_status body) (js "success"))
      (cb_platform_order_id body)
      (cb_payment_id body)
      (or_zero (parseInt10 (cb_installment body)))
      (cb_platform_order_id body)
      (cb_status body)).

Definition Shopier_generateSignature (data : jsstring) : jsstring :=
  generateSignature (apiSecret config) data.
End Instance.

End ShopierSDK.

(** ** Vocabulary of the properties *)
Module Spec.
Import Errors.

(** A credential source is blank when it is undefined or empty once
    trimmed. *)
Definition blank (o : option jsstring) : Prop :=
  forall v, o = Some v -> trim v = [].

(** The two errors of the configuration resolver. *)
Definition keyError : exception :=
  Shopier (InvalidApiKeyError (Some (js "API key is missing or empty")) None).
Definition secretError : exception :=
  Shopier (InvalidApiSecretError (Some (js "API secret is missing or empty")) None).

(** A required buyer field is missing, null, or blank once trimmed. *)
Definition missingOrBlank (v : jsvalue) : Prop :=
  v = VUndefined \/ v = VNull \/ exists s, v = VString s /\ trim s = [].

(** The six required buyer fields, name and value, in the order the
    validator lists them. *)
Definition requiredEntries (buyer : BuyerInfo) : list (jsstring * jsvalue) :=
  [(js "id", id buyer); (js "firstName", firstName buyer);
   (js "lastName", lastName buyer); (js "email", email buyer);
   (js "phone", phone buyer); (js "productName", productName buyer)].

(** [selects P l l']: [l'] is [l] with exactly the elements that satisfy
    [P] kept, each once and in their order. *)
Inductive selects {A : Type} (P : A -> Prop) : list A -> list A -> Prop :=
| selects_nil : selects P [] []
| selects_keep x l l' : P x -> selects P l l' -> selects P (x :: l) (x :: l')
| selects_drop x l l' : ~ P x -> selects P l l' -> selects P (x :: l) l'.

(** A detail payload mentions a string when the rendering of one of its
    values includes it. *)
Definition mentions (payload : option object) (s : jsstring) : Prop :=
  exists d key value,
    payload = Some d /\ In (key, value) d /\ includes (ToString value) s = true.

(** The five entities of the escaping utility. *)
Definition entities : list jsstring :=
  [js "&amp;"; js "&lt;"; js "&gt;"; js "&quot;"; js "&#x27;"].

(** The error [verifyCallback] throws. *)
Definition callbackRejection : ShopierError :=
  SignatureValidationError (Some (js "Callback signature verification failed")) None.

(** The result [verifyCallback] decodes from a notification. *)
Definition decoded (body : CallbackBody) : CallbackResult :=
  mkResult (JsString.eqb (cb_status body) (js "success"))
           (cb_platform_order_id body) (cb_payment_id body)
           (or_zero (parseInt10 (cb_installment body)))
           (cb_platform_order_id body) (cb_status body).

(** [p] occurs in [s] as a contiguous part. *)
Definition occursIn (p s : jsstring) : Prop := exists a b, s = a ++ p ++ b.

(** The attributes [name="k" value="v"] of a hidden input. *)
Definition hiddenField (k v : jsstring) : jsstring :=
  tpl "name=`" ++ k ++ tpl "` value=`" ++ v ++ tpl "`".

(** The double nearest to 99.99, the value of the literal [99.99]. *)
Definition amount_99_99 : number := S754_finite false 7036170730324623 (-46).

(** The payment of the end-to-end scenario 1, under a currency option. *)
Definition scenario1_buyer : BuyerInfo :=
  mkBuyer (VString (js "b1")) None (VString (js "Plan")) None
          (VString (js "Ahmet")) (VString (js "Y" ++ [305] ++ js "lmaz"))
          (VString (js "a@example.com")) (VString (js "05551234567")) None.

Definition scenario1_options (currency : option Currency) : PaymentOptions :=
  mkOptions amount_99_99 scenario1_buyer None None currency None None None
            None None None (Some (of_Z 123456)).

Definition scenario1_config : ShopierConfig :=
  mkConfig (Some (js "k")) (Some (js "s")) None None None.

(** A string with none of the five characters the escaping utility
    replaces. *)
Definition plain (s : jsstring) : Prop :=
  Forall (fun c => Utils.isHtmlSpecial c = false) s.

(** A payment whose buyer id holds an ampersand. *)
Definition ampersand_options : PaymentOptions :=
  mkOptions (of_Z 100)
    (mkBuyer (VString (js "a&b")) None (VString (js "Plan")) None
             (VString (js "Ahmet")) (VString (js "Y"))
             (VString (js "a@example.com")) (VString (js "05551234567")) None)
    None None None None None None None None None (Some (of_Z 123456)).

End Spec.
Export Spec.

(** ** src/core/validator.ts: the check of a configuration *)
Module ConfigCheck.
Import Errors.

(** [a || b] on strings that may be undefined. *)
Definition orElse (a b : option jsstring) : option jsstring :=
  match a with
  | Some s => if JsString.truthy s then a else b
  | None => b
  end.

(** [!v || v.trim() === ''] on a string that may be undefined. *)
Definition missingOrEmpty (v : option jsstring) : bool :=
  match v with
  | Some s => negb (JsString.truthy s) || JsString.eqb (trim s) []
  | None => true
  end.

Definition validateConfig (env : jsstring -> option jsstring)
    (config : ShopierConfig) : completion unit :=
  let apiKey := orElse (cfg_apiKey config) (env (js "SHOPIER_API_KEY")) in
  let apiSecret := orElse (cfg_apiSecret config) (env (js "SHOPIER_API_SECRET")) in
  if missingOrEmpty apiKey then
    Throw (Shopier (InvalidApiKeyError (Some (js "API key is missing or empty")) None))
  else if missingOrEmpty apiSecret then
    Throw (Shopier (InvalidApiSecretError (Some (js "API secret is missing or empty")) None))
  else Return tt.

End ConfigCheck.

(** ** src/renderers/button.ts *)
Module Button.
Import Utils Renderers.

Record ButtonOptions := mkButtonOptions {
  buttonText : option jsstring;
  className : option jsstring;
  style : option jsstring
}.

Definition noOptions : ButtonOptions := mkButtonOptions None None None.

(** The Turkish text as the source file spells it: U+00C3 and U+2013
    stand where the letter O with diaeresis was meant. *)
Definition DEFAULT_BUTTON_TEXT (language : Language) : jsstring :=
  match language with
  | TR => js "Shopier ile " ++ [0xC3; 0x2013] ++ js "de"
  | EN => js "Pay with Shopier"
  end.

(** [v ? yes(v) : no] on a string that may be undefined. *)
Definition ifGiven {A} (v : option jsstring) (yes : jsstring -> A) (no : A) : A :=
  match v with
  | Some s => if JsString.truthy s then yes s else no
  | None => no
  end.

(** The template of the button up to the form id. *)
Definition button_head : jsstring :=
  lines
    [tpl "<style>";
     tpl ".shopier-button {";
     tpl "  background-color: #4CAF50;";
     tpl "  border: none;";
     tpl "  color: white;";
     tpl "  padding: 15px 32px;";
     tpl "  text-align: center;";
     tpl "  text-decoration: none;";
     tpl "  display: inline-block;";
     tpl "  font-size: 16px;";
     tpl "  font-family: -apple-system, BlinkMacSystemFont, 'Segoe UI', Roboto, sans-serif;";
     tpl "  cursor: pointer;";
     tpl "  border-radius: 4px;";
     tpl "  transition: background-color 0.3s ease;";
     tpl "}";
     tpl ".shopier-button:hover {";
     tpl "  background-color: #45a049;";
     tpl "}";
     tpl ".shopier-button:active {";
     tpl "  background-color: #3d8b40;";
     tpl "}";
     tpl "</style>";
     tpl "<form id=`"].

Definition renderButton
    (formData : FormData) (actionUrl : jsstring) (options : option ButtonOptions)
  : jsstring :=
  let options := default options noOptions in
  let escapedActionUrl := escapeHtml actionUrl in
  let hiddenInputs := renderHiddenInputs formData in
  let language :=
    if strict_eq (current_language formData) (Language_value EN) then EN else TR in
  let buttonText :=
    ifGiven (buttonText options) escapeHtml (DEFAULT_BUTTON_TEXT language) in
  let className :=
    ifGiven (className options)
      (fun c => js "shopier-button " ++ escapeHtml c) (js "shopier-button") in
  let styleAttr :=
    ifGiven (style options)
      (fun s => tpl " style=`" ++ escapeHtml s ++ tpl "`") [] in
  let formId := escapeHtml (js "shopier-form-" ++ toString (random_nr formData)) in
  button_head ++ formId ++ tpl "` action=`" ++ escapedActionUrl
    ++ tpl "` method=`POST` style=`display:inline;`>" ++ nl
    ++ hiddenInputs ++ nl
    ++ tpl "  <button type=`submit` class=`" ++ className ++ tpl "`"
    ++ styleAttr ++ tpl ">" ++ buttonText ++ tpl "</button>" ++ nl
    ++ tpl "</form>".

End Button.

(** ** Vocabulary of the further properties *)
Module Laws.

(** The characters that open or close markup and attribute values. *)
Definition isMarkup (c : Z) : bool := existsb (Z.eqb c) [60; 62; 34; 39].

(** The markup characters of a text, in order. *)
Definition markup (s : jsstring) : jsstring := filter isMarkup s.

(** The strings a regular expression denotes. *)
Inductive Matches : Regex.regex -> jsstring -> Prop :=
| MEps : Matches Regex.Eps []
| MClass p c : p c = true -> Matches (Regex.Class p) [c]
| MSeq r1 r2 s1 s2 :
    Matches r1 s1 -> Matches r2 s2 -> Matches (Regex.Seq r1 r2) (s1 ++ s2)
| MAltL r1 r2 s : Matches r1 s -> Matches (Regex.Alt r1 r2) s
| MAltR r1 r2 s : Matches r2 s -> Matches (Regex.Alt r1 r2) s
| MStarNil r : Matches (Regex.Star r) []
| MStarApp r s1 s2 :
    Matches r s1 -> Matches (Regex.Star r) s2 -> Matches (Regex.Star r) (s1 ++ s2).

(** A non-empty text without white space and without the at sign. *)
Definition atom (s : jsstring) : Prop :=
  s <> [] /\ Forall (fun c => Validator.notSpaceOrAt c = true) s.

(** A credential as the resolver stores it: trimmed and not empty. *)
Definition credential (s : jsstring) : Prop := s <> [] /\ trim s = s.

(** The invariant of a stored configuration. *)
Definition wellFormed (c : Config.ResolvedConfig) : Prop :=
  credential (Config.apiKey c) /\ credential (Config.apiSecret c).

(** A text of ASCII code units. *)
Definition ascii7 (s : jsstring) : Prop := Forall (fun c => 0 <= c < 128) s.

(** The shapes of the details a logger may see once the validators'
    errors are masked: the names of the missing fields, or the name of
    the offending field with its value masked. *)
Definition maskedDetails (d : option Js.object) : Prop :=
  (exists names, d = Some [(js "missingFields", VArray names)]
                 /\ incl names (map Validator.field_name Validator.requiredFields))
  \/ (exists f, d = Some [(js "field", VString f);
                          (js "value", VString Errors.REDACTED)]
                /\ In f [js "amount"; js "email"; js "phone"; js "installment"]).

(** The installment counts from 0 to 12. *)
Definition installmentCounts : list Z := Eval cbv in map Z.of_nat (seq 0 13).

(** Does the caller give a non-empty inline style? *)
Definition styleGiven (options : option Button.ButtonOptions) : bool :=
  Button.ifGiven (Button.style (default options Button.noOptions))
                 (fun _ => true) false.

End Laws.
Export Laws.

(* ================================================================== *)
(** * Part II: properties                                              *)
(* ================================================================== *)

(** ** Strings *)
Section StringFacts.

Lemma eqb_refl (a : jsstring) : JsString.eqb a a = true.
Proof.
  induction a as [|x a IH]; simpl; [reflexivity|].
  now rewrite Z.eqb_refl.
Qed.

Lemma eqb_eq (a b : jsstring) : JsString.eqb a b = true <-> a = b.
Proof.
  split.
  - revert b; induction a as [|x a IH]; intros [|y b]; simpl; try discriminate; auto.
    intros H. apply andb_true_iff in H as [Hx Hr].
    apply Z.eqb_eq in Hx. f_equal; auto.
  - intros ->. apply eqb_refl.
Qed.

Lemma eqb_neq (a b : jsstring) : JsString.eqb a b = false <-> a <> b.
Proof.
  rewrite <- eqb_eq. destruct (JsString.eqb a b); split; congruence.
Qed.

Lemma trim_nil : trim [] = [].
Proof. reflexivity. Qed.

End StringFacts.

(** ** The signature engine *)
Section SignatureFacts.
Import Signature.

Lemma timingSafeEqual_same_length (a b : list Z) :
  length a = length b -> timingSafeEqual a b = Return (JsString.eqb a b).
Proof.
  intros H. unfold timingSafeEqual. rewrite H, Nat.eqb_refl. reflexivity.
Qed.

(** What [verifySignature] computes: equality of the two UTF-8
    encodings. *)
Lemma verifySignature_eq (secret data candidate : jsstring) :
  verifySignature secret data candidate
  = Return (JsString.eqb (utf8 (generateSignature secret data)) (utf8 candidate)).
Proof.
  unfold verifySignature, Buffer_from, timingSafeEqual.
  generalize (utf8 (generateSignature secret data)) as expected.
  generalize (utf8 candidate) as received.
  intros received expected.
  destruct (Nat.eqb_spec (length expected) (length received)) as [E|E];
    cbv [negb try_catch].
  - reflexivity.
  - f_equal. symmetry. apply eqb_neq. intros H. apply E. now rewrite H.
Qed.

Lemma verifySignature_returns (secret data candidate : jsstring) :
  exists b, verifySignature secret data candidate = Return b.
Proof. rewrite verifySignature_eq. eauto. Qed.

Lemma verifySignature_not_true (secret data candidate : jsstring) :
  verifySignature secret data candidate <> Return true ->
  verifySignature secret data candidate = Return false.
Proof.
  rewrite verifySignature_eq.
  destruct (JsString.eqb _ _); congruence.
Qed.

End SignatureFacts.

(** C1. For every secret and message, verifying the signature that
    [generateSignature] produces returns true; a candidate whose encoded
    byte length differs from the expected signature's, or that differs
    from it at some byte, is rejected with false; and [verifySignature]
    returns a boolean, never an exception, on all strings. *)
Theorem verifySignature_correct :
  (forall secret message,
      Signature.verifySignature secret message
        (Signature.generateSignature secret message) = Return true)
  /\ (forall secret message candidate,
      length (Signature.Buffer_from candidate)
        <> length (Signature.Buffer_from (Signature.generateSignature secret message)) ->
      Signature.verifySignature secret message candidate = Return false)
  /\ (forall secret message candidate (i : nat),
      nth_error (Signature.Buffer_from candidate) i
        <> nth_error (Signature.Buffer_from (Signature.generateSignature secret message)) i ->
      Signature.verifySignature secret message candidate = Return false)
  /\ (forall secret message candidate,
      exists b, Signature.verifySignature secret message candidate = Return b).
Proof.
  repeat split.
  - intros. rewrite verifySignature_eq. f_equal. apply eqb_refl.
  - intros secret message candidate H. rewrite verifySignature_eq. f_equal.
    apply eqb_neq. intros E. apply H. unfold Signature.Buffer_from. now rewrite E.
  - intros secret message candidate i H. rewrite verifySignature_eq. f_equal.
    apply eqb_neq. intros E. apply H. unfold Signature.Buffer_from. now rewrite E.
  - intros. apply verifySignature_returns.
Qed.

(** The rejections of C1 at a candidate of another length and at one
    that differs in its first byte only. *)
Lemma verifySignature_correct_witness :
  Signature.verifySignature (js "s") (js "123456b1") (js "wrong") = Return false
  /\ Signature.verifySignature (js "s") (js "123456b1")
       (js "XK2zhE0OLwXfFe9q8tmmPda2nH32AlPdUpfQar+qLx8=") = Return false.
Proof.
  destruct verifySignature_correct as (_ & Hlen & Hbyte & _).
  split.
  - apply Hlen. vm_compute. intros H; discriminate H.
  - apply (Hbyte _ _ _ 0%nat). vm_compute. intros H; discriminate H.
Defined.

Example sha256_abc :
  Crypto.sha256 (utf8 (js "abc")) =
  [0xba;0x78;0x16;0xbf;0x8f;0x01;0xcf;0xea;0x41;0x41;0x40;0xde;0x5d;0xae;0x22;0x23;
   0xb0;0x03;0x61;0xa3;0x96;0x17;0x7a;0x9c;0xb4;0x10;0xff;0x61;0xf2;0x00;0x15;0xad].
Proof. vm_compute. reflexivity. Qed.

Example generateSignature_callback :
  Signature.generateCallbackSignature (js "s") (js "123456") (js "b1")
  = js "NK2zhE0OLwXfFe9q8tmmPda2nH32AlPdUpfQar+qLx8=".
Proof. vm_compute. reflexivity. Qed.

Example hmac_long_key :
  Crypto.base64 (Crypto.hmac_sha256 (repeat 107 100) (repeat 120 200))
  = js "4ybwDOFBlLuF4mg/6bGniFF1P3dHkwP5TCw80ZmL3aM=".
Proof. vm_compute. reflexivity. Qed.

(** ** The configuration resolver *)
Section ConfigFacts.
Import Config Errors.
Variable env : jsstring -> option jsstring.

Lemma nonBlank_true (v : jsstring) : trim v <> [] -> nonBlank (Some v) = true.
Proof.
  intros H. unfold nonBlank.
  destruct v as [|c v]; [now elim H|]. simpl JsString.truthy.
  apply eqb_neq in H. now rewrite H.
Qed.

Lemma nonBlank_blank (o : option jsstring) : blank o -> nonBlank o = false.
Proof.
  intros H. destruct o as [v|]; [|reflexivity].
  unfold nonBlank. rewrite (H v eq_refl). simpl. apply andb_false_r.
Qed.

Lemma nonBlank_cases (o : option jsstring) :
  (exists v, o = Some v /\ trim v <> [] /\ nonBlank o = true)
  \/ (blank o /\ nonBlank o = false).
Proof.
  destruct o as [v|].
  - destruct (JsString.eqb (trim v) []) eqn:E.
    + right. apply eqb_eq in E.
      assert (B : blank (Some v)) by (intros w [= <-]; exact E).
      split; [exact B | now apply nonBlank_blank].
    + left. apply eqb_neq in E. exists v. repeat split; auto using nonBlank_true.
  - right. split; [intros v [=] | reflexivity].
Qed.

Lemma resolveApiKey_explicit (v : jsstring) :
  trim v <> [] -> resolveApiKey env (Some v) = Some (trim v).
Proof. intros H. unfold resolveApiKey. now rewrite (nonBlank_true v H). Qed.

Lemma resolveApiKey_env (explicit : option jsstring) (ev : jsstring) :
  blank explicit -> env ENV_API_KEY = Some ev -> trim ev <> [] ->
  resolveApiKey env explicit = Some (trim ev).
Proof.
  intros B E H. unfold resolveApiKey.
  rewrite (nonBlank_blank _ B), E, (nonBlank_true ev H). reflexivity.
Qed.

Lemma resolveApiKey_absent (explicit : option jsstring) :
  blank explicit -> blank (env ENV_API_KEY) -> resolveApiKey env explicit = None.
Proof.
  intros B B'. unfold resolveApiKey.
  now rewrite (nonBlank_blank _ B), (nonBlank_blank _ B').
Qed.

Lemma resolveApiSecret_explicit (v : jsstring) :
  trim v <> [] -> resolveApiSecret env (Some v) = Some (trim v).
Proof. intros H. unfold resolveApiSecret. now rewrite (nonBlank_true v H). Qed.

Lemma resolveApiSecret_env (explicit : option jsstring) (ev : jsstring) :
  blank explicit -> env ENV_API_SECRET = Some ev -> trim ev <> [] ->
  resolveApiSecret env explicit = Some (trim ev).
Proof.
  intros B E H. unfold resolveApiSecret.
  rewrite (nonBlank_blank _ B), E, (nonBlank_true ev H). reflexivity.
Qed.

Lemma resolveApiSecret_absent (explicit : option jsstring) :
  blank explicit -> blank (env ENV_API_SECRET) -> resolveApiSecret env explicit = None.
Proof.
  intros B B'. unfold resolveApiSecret.
  now rewrite (nonBlank_blank _ B), (nonBlank_blank _ B').
Qed.

(** A resolved credential is never the empty string. *)
Lemma resolveApiKey_truthy (explicit : option jsstring) (k : jsstring) :
  resolveApiKey env explicit = Some k -> falsy (Some k) = false.
Proof.
  unfold resolveApiKey.
  destruct (nonBlank_cases explicit) as [(v & -> & Hv & ->)|(_ & ->)].
  - intros [= <-]. simpl. destruct (trim v); [now elim Hv | reflexivity].
  - destruct (nonBlank_cases (env ENV_API_KEY)) as [(v & -> & Hv & ->)|(_ & ->)].
    + intros [= <-]. simpl. destruct (trim v); [now elim Hv | reflexivity].
    + discriminate.
Qed.

Lemma resolveApiSecret_truthy (explicit : option jsstring) (k : jsstring) :
  resolveApiSecret env explicit = Some k -> falsy (Some k) = false.
Proof.
  unfold resolveApiSecret.
  destruct (nonBlank_cases explicit) as [(v & -> & Hv & ->)|(_ & ->)].
  - intros [= <-]. simpl. destruct (trim v); [now elim Hv | reflexivity].
  - destruct (nonBlank_cases (env ENV_API_SECRET)) as [(v & -> & Hv & ->)|(_ & ->)].
    + intros [= <-]. simpl. destruct (trim v); [now elim Hv | reflexivity].
    + discriminate.
Qed.

Lemma resolveConfig_no_key (config : option ShopierConfig) :
  resolveApiKey env (cfg_apiKey (default config emptyConfig)) = None ->
  resolveConfig env config = Throw keyError.
Proof. intros H. unfold resolveConfig. now rewrite H. Qed.

Lemma resolveConfig_no_secret (config : option ShopierConfig) (k : jsstring) :
  resolveApiKey env (cfg_apiKey (default config emptyConfig)) = Some k ->
  resolveApiSecret env (cfg_apiSecret (default config emptyConfig)) = None ->
  resolveConfig env config = Throw secretError.
Proof.
  intros Hk Hs. unfold resolveConfig.
  rewrite Hk, Hs, (resolveApiKey_truthy _ _ Hk). reflexivity.
Qed.

Lemma resolveConfig_ok (config : option ShopierConfig) (k s : jsstring) :
  resolveApiKey env (cfg_apiKey (default config emptyConfig)) = Some k ->
  resolveApiSecret env (cfg_apiSecret (default config emptyConfig)) = Some s ->
  resolveConfig env config =
  Return (mkResolved k s
            (default (cfg_language (default config emptyConfig)) DEFAULT_language)
            (default (cfg_moduleVersion (default config emptyConfig)) DEFAULT_moduleVersion)
            (default (cfg_websiteIndex (default config emptyConfig)) DEFAULT_websiteIndex)).
Proof.
  intros Hk Hs. unfold resolveConfig.
  rewrite Hk, Hs, (resolveApiKey_truthy _ _ Hk), (resolveApiSecret_truthy _ _ Hs).
  reflexivity.
Qed.

End ConfigFacts.

(** C7. Per credential, the resolver returns the trimmed explicit value
    when it is not blank, otherwise the trimmed environment value when
    that is not blank, otherwise nothing; [resolveConfig] throws
    InvalidApiKeyError when the id is absent, whatever the secret is,
    and InvalidApiSecretError when only the secret is absent; when both
    are present it returns a configuration that holds exactly the two
    resolved credentials: the trimmed explicit ones when these are not
    blank. *)
Theorem resolveConfig_credentials (env : jsstring -> option jsstring) :
  (forall explicit v, explicit = Some v -> trim v <> [] ->
      Config.resolveApiKey env explicit = Some (trim v)
      /\ Config.resolveApiSecret env explicit = Some (trim v))
  /\ (forall explicit ev, blank explicit -> trim ev <> [] ->
      (env Config.ENV_API_KEY = Some ev ->
       Config.resolveApiKey env explicit = Some (trim ev))
      /\ (env Config.ENV_API_SECRET = Some ev ->
          Config.resolveApiSecret env explicit = Some (trim ev)))
  /\ (forall explicit, blank explicit ->
      (blank (env Config.ENV_API_KEY) -> Config.resolveApiKey env explicit = None)
      /\ (blank (env Config.ENV_API_SECRET) ->
          Config.resolveApiSecret env explicit = None))
  /\ (forall config,
      Config.resolveApiKey env
        (cfg_apiKey (default config Config.emptyConfig)) = None ->
      Config.resolveConfig env config = Throw keyError)
  /\ (forall config k,
      Config.resolveApiKey env
        (cfg_apiKey (default config Config.emptyConfig)) = Some k ->
      Config.resolveApiSecret env
        (cfg_apiSecret (default config Config.emptyConfig)) = None ->
      Config.resolveConfig env config = Throw secretError)
  /\ (exists e, keyError = Shopier e
                /\ name e = js "InvalidApiKeyError" /\ code e = js "INVALID_API_KEY")
  /\ (exists e, secretError = Shopier e
                /\ name e = js "InvalidApiSecretError"
                /\ code e = js "INVALID_API_SECRET")
  /\ (forall config k s,
      Config.resolveApiKey env
        (cfg_apiKey (default config Config.emptyConfig)) = Some k ->
      Config.resolveApiSecret env
        (cfg_apiSecret (default config Config.emptyConfig)) = Some s ->
      exists c, Config.resolveConfig env config = Return c
                /\ Config.apiKey c = k /\ Config.apiSecret c = s)
  /\ (forall config k s,
      cfg_apiKey config = Some k -> trim k <> [] ->
      cfg_apiSecret config = Some s -> trim s <> [] ->
      exists c, Config.resolveConfig env (Some config) = Return c
                /\ Config.apiKey c = trim k /\ Config.apiSecret c = trim s)
  /\ (forall config c, Config.resolveConfig env config = Return c ->
      Config.resolveApiKey env
        (cfg_apiKey (default config Config.emptyConfig)) = Some (Config.apiKey c)
      /\ Config.resolveApiSecret env
           (cfg_apiSecret (default config Config.emptyConfig))
         = Some (Config.apiSecret c)).
Proof.
  split; [|split; [|split; [|split; [|split; [|split; [|split; [|split; [|split]]]]]]]].
  - intros explicit v -> H.
    split; [now apply resolveApiKey_explicit | now apply resolveApiSecret_explicit].
  - intros explicit ev B H.
    split; intros E; [now apply resolveApiKey_env | now apply resolveApiSecret_env].
  - intros explicit B.
    split; intros B'; [now apply resolveApiKey_absent | now apply resolveApiSecret_absent].
  - intros config. apply resolveConfig_no_key.
  - intros config k. apply resolveConfig_no_secret.
  - eexists. repeat split.
  - eexists. repeat split.
  - intros config k s Hk Hs. eexists. split.
    + apply (resolveConfig_ok env config k s Hk Hs).
    + split; reflexivity.
  - intros config k s Hk Tk Hs Ts. eexists. split.
    + apply (resolveConfig_ok env (Some config) (trim k) (trim s)); cbn [default].
      * rewrite Hk. now apply resolveApiKey_explicit.
      * rewrite Hs. now apply resolveApiSecret_explicit.
    + split; reflexivity.
  - intros config c E.
    destruct (Config.resolveApiKey env (cfg_apiKey (default config Config.emptyConfig)))
      as [k|] eqn:Hk.
    + destruct (Config.resolveApiSecret env
                  (cfg_apiSecret (default config Config.emptyConfig)))
        as [s|] eqn:Hs.
      * rewrite (resolveConfig_ok env config k s Hk Hs) in E.
        injection E as <-. split; reflexivity.
      * rewrite (resolveConfig_no_secret env config k Hk Hs) in E. discriminate E.
    + rewrite (resolveConfig_no_key env config Hk) in E. discriminate E.
Qed.

(** C7 at a construction with no credential anywhere (the key error
    wins), with a blank explicit key next to an environment key, and
    with explicit credentials given between blanks. *)
Lemma resolveConfig_credentials_witness :
  Config.resolveConfig (fun _ => None) None = Throw keyError
  /\ Config.resolveApiKey
       (fun n => if JsString.eqb n Config.ENV_API_KEY then Some (js " env-key ") else None)
       (Some (js "  ")) = Some (js "env-key")
  /\ Config.resolveApiSecret (fun _ => None) (Some (js " s ")) = Some (js "s")
  /\ (exists c,
        Config.resolveConfig (fun _ => None)
          (Some (mkConfig (Some (js " k ")) (Some (js " s ")) None None None))
        = Return c
        /\ Config.apiKey c = js "k" /\ Config.apiSecret c = js "s").
Proof.
  split; [|split; [|split]].
  - destruct (resolveConfig_credentials (fun _ => None)) as (_ & _ & H3 & H4 & _).
    apply H4. apply (H3 None); intros v H; discriminate H.
  - set (env := fun n => if JsString.eqb n Config.ENV_API_KEY
                         then Some (js " env-key ") else None).
    destruct (resolveConfig_credentials env) as (_ & H2 & _).
    apply (H2 (Some (js "  ")) (js " env-key ")).
    + intros v [= <-]. reflexivity.
    + vm_compute. intros H; discriminate H.
    + reflexivity.
  - destruct (resolveConfig_credentials (fun _ => None)) as (H1 & _).
    apply (H1 (Some (js " s ")) (js " s ")); [reflexivity|].
    vm_compute. intros H; discriminate H.
  - destruct (resolveConfig_credentials (fun _ => None))
      as (_ & _ & _ & _ & _ & _ & _ & _ & H9 & _).
    apply (H9 (mkConfig (Some (js " k ")) (Some (js " s ")) None None None)
              (js " k ") (js " s ")); try reflexivity;
      vm_compute; intros H; discriminate H.
Defined.

(** C9. [updateConfig] is not atomic: with a non-blank new key and a
    secret that resolves to nothing, it throws InvalidApiSecretError
    after the stored key has been replaced; the configuration left
    behind holds the new key and the old secret. *)
Theorem updateConfig_not_atomic
    (env : jsstring -> option jsstring) (stored : Config.ResolvedConfig)
    (updates : ShopierConfig) (k s : jsstring) :
  cfg_apiKey updates = Some k -> trim k <> [] ->
  cfg_apiSecret updates = Some s ->
  Config.resolveApiSecret env (Some s) = None ->
  exists after,
    Config.updateConfig env updates stored = (Throw secretError, after)
    /\ Config.getApiKey after = (Return (trim k), after)
    /\ Config.getApiSecret after = (Return (Config.apiSecret stored), after)
    /\ after = Config.set_apiKey (trim k) stored.
Proof.
  intros Hk Hnb Hs Hres.
  exists (Config.set_apiKey (trim k) stored).
  unfold Config.updateConfig, Config.andThen, Config.when.
  rewrite Hk, Hs. cbn [Config.isDefined].
  rewrite (resolveApiKey_explicit env k Hnb), Hres.
  rewrite (resolveApiKey_truthy env _ _ (resolveApiKey_explicit env k Hnb)).
  cbn [Config.falsy default Config.assign Config.throw].
  repeat split.
Qed.

(** C9 on a manager holding key [old-key] and secret [old-secret],
    updated with key [new-key] and a blank secret, no environment. *)
Lemma updateConfig_not_atomic_witness :
  let stored := Config.mkResolved (js "old-key") (js "old-secret") TR (js "1.0.4") SITE_1 in
  let updates := mkConfig (Some (js "new-key")) (Some (js "  ")) None None None in
  exists after,
    Config.updateConfig (fun _ => None) updates stored = (Throw secretError, after)
    /\ Config.getApiKey after = (Return (js "new-key"), after)
    /\ Config.getApiSecret after = (Return (js "old-secret"), after)
    /\ after = Config.set_apiKey (js "new-key") stored.
Proof.
  intros stored updates.
  apply (updateConfig_not_atomic (fun _ => None) stored updates
           (js "new-key") (js "  ")).
  - reflexivity.
  - vm_compute. intros H; discriminate H.
  - reflexivity.
  - reflexivity.
Defined.

(** ** The escaping utility *)
Section EscapeFacts.
Import Utils.

Lemma isHtmlSpecial_cases (c : Z) :
  isHtmlSpecial c = true -> c = 38 \/ c = 60 \/ c = 62 \/ c = 34 \/ c = 39.
Proof.
  unfold isHtmlSpecial. cbn [existsb].
  rewrite !orb_true_iff, !Z.eqb_eq. intuition discriminate.
Qed.

Lemma escapeHtml_app (a b : jsstring) :
  escapeHtml (a ++ b) = escapeHtml a ++ escapeHtml b.
Proof. unfold escapeHtml. apply flat_map_app. Qed.

Lemma escapeHtml_cons (c : Z) (s : jsstring) :
  escapeHtml (c :: s) = (if isHtmlSpecial c then replacer c else [c]) ++ escapeHtml s.
Proof. reflexivity. Qed.

Lemma escapeHtml_safe (s : jsstring) :
  (forall c, In c s -> isHtmlSpecial c = false) -> escapeHtml s = s.
Proof.
  induction s as [|c s IH]; intros H; [reflexivity|].
  rewrite escapeHtml_cons, (H c (or_introl eq_refl)), IH; [reflexivity|].
  intros d Hd. apply H. now right.
Qed.

Lemma startsWith_app (p r : jsstring) : startsWith p (p ++ r) = true.
Proof.
  induction p as [|x p IH]; simpl; [reflexivity|].
  now rewrite Z.eqb_refl.
Qed.

(** The image of one code unit: what it holds and where its ampersand
    is. *)
Lemma escape_unit (c : Z) :
  let out := if isHtmlSpecial c then replacer c else [c] in
  (forall d, In d out -> d <> 60 /\ d <> 62 /\ d <> 34 /\ d <> 39)
  /\ (forall i, nth_error out i = Some 38 -> i = 0%nat /\ In out entities).
Proof.
  destruct (isHtmlSpecial c) eqn:E.
  - apply isHtmlSpecial_cases in E.
    destruct E as [-> | [-> | [-> | [-> | ->]]]]; cbv zeta; split.
    all: try (intros d Hd; vm_compute in Hd;
              repeat (destruct Hd as [<- | Hd]; [repeat split; discriminate|]);
              now elim Hd).
    all: intros i Hi;
      do 6 (destruct i as [|i];
            [first [discriminate Hi
                   | split; [reflexivity | vm_compute; auto 10]]|]);
      destruct i; discriminate Hi.
  - cbv zeta. split.
    + intros d [<- | []].
      repeat split; intros ->; discriminate E.
    + intros [|[|i]] Hi; try discriminate Hi.
      injection Hi as ->. discriminate E.
Qed.

Lemma escapeHtml_no_markup (s : jsstring) (d : Z) :
  In d (escapeHtml s) -> d <> 60 /\ d <> 62 /\ d <> 34 /\ d <> 39.
Proof.
  unfold escapeHtml. rewrite in_flat_map. intros (c & _ & Hd).
  exact (proj1 (escape_unit c) d Hd).
Qed.

Lemma escapeHtml_ampersand (s : jsstring) (i : nat) :
  nth_error (escapeHtml s) i = Some 38 ->
  exists ent, In ent entities /\ startsWith ent (skipn i (escapeHtml s)) = true.
Proof.
  revert i. induction s as [|c s IH]; intros i Hi.
  - destruct i; discriminate Hi.
  - rewrite escapeHtml_cons in *.
    set (out := if isHtmlSpecial c then replacer c else [c]) in *.
    destruct (Nat.lt_ge_cases i (length out)) as [L|L].
    + rewrite nth_error_app1 in Hi by exact L.
      destruct (proj2 (escape_unit c) i Hi) as [-> Hin].
      exists out. split; [exact Hin | apply startsWith_app].
    + rewrite nth_error_app2 in Hi by exact L.
      destruct (IH _ Hi) as (ent & Hin & Hs).
      exists ent. split; [exact Hin|].
      rewrite skipn_app, (skipn_all2 out) by exact L. exact Hs.
Qed.

End EscapeFacts.

(** The escaped form of the one-character string [<] is [&lt;]: the
    ampersands of an escaped text are those of its entities. *)
Example escapeHtml_output_holds_ampersand :
  In 60 (js "<") /\ Utils.isHtmlSpecial 60 = true
  /\ Utils.escapeHtml (js "<") = js "&lt;"
  /\ In 38 (Utils.escapeHtml (js "<")) /\ Utils.isHtmlSpecial 38 = true.
Proof. vm_compute. intuition. Qed.

(** C5. The output of [escapeHtml] holds none of the five characters
    raw: no less-than, greater-than, double quote or single quote at
    all, and no ampersand but the one that begins each of the five
    entities; each occurrence of one of the five characters is
    replaced, in place, by its entity; a string with none of the five
    characters is returned unchanged. *)
Theorem escapeHtml_correct :
  (forall input d, In d (Utils.escapeHtml input) ->
      d <> 60 /\ d <> 62 /\ d <> 34 /\ d <> 39)
  /\ (forall input i, nth_error (Utils.escapeHtml input) i = Some 38 ->
      exists ent, In ent entities
                  /\ startsWith ent (skipn i (Utils.escapeHtml input)) = true)
  /\ (forall before c after, Utils.isHtmlSpecial c = true ->
      Utils.escapeHtml (before ++ c :: after)
      = Utils.escapeHtml before ++ Utils.replacer c ++ Utils.escapeHtml after)
  /\ (Utils.replacer 38 = js "&amp;" /\ Utils.replacer 60 = js "&lt;"
      /\ Utils.replacer 62 = js "&gt;" /\ Utils.replacer 34 = js "&quot;"
      /\ Utils.replacer 39 = js "&#x27;")
  /\ (forall input, (forall c, In c input -> Utils.isHtmlSpecial c = false) ->
      Utils.escapeHtml input = input).
Proof.
  split; [|split; [|split; [|split]]].
  - apply escapeHtml_no_markup.
  - apply escapeHtml_ampersand.
  - intros before c after H.
    rewrite escapeHtml_app, escapeHtml_cons, H. reflexivity.
  - repeat split.
  - apply escapeHtml_safe.
Qed.

(** C5 on a markup string and on a plain one. *)
Lemma escapeHtml_correct_witness :
  Utils.escapeHtml (js "a<b" ++ [38] ++ js "c")
    = Utils.escapeHtml (js "a<b") ++ js "&amp;" ++ Utils.escapeHtml (js "c")
  /\ (exists ent, In ent entities
        /\ startsWith ent (skipn 1 (Utils.escapeHtml (js "a<b"))) = true)
  /\ Utils.escapeHtml (js "plain text") = js "plain text".
Proof.
  destruct escapeHtml_correct as (_ & Hamp & Hocc & _ & Hsafe).
  split; [|split].
  - apply (Hocc (js "a<b") 38 (js "c")). reflexivity.
  - apply (Hamp (js "a<b") 1%nat). reflexivity.
  - apply Hsafe. intros c Hc. vm_compute in Hc.
    repeat (destruct Hc as [<- | Hc]; [reflexivity|]). now elim Hc.
Defined.

(** ** The validator *)
Section ValidatorFacts.
Import Validator Errors.

Lemma isMissing_spec (v : jsvalue) : isMissing v = true <-> missingOrBlank v.
Proof.
  unfold missingOrBlank. destruct v; simpl; split; intros H; auto;
    try discriminate H;
    try (destruct H as [H | [H | (s' & H & _)]]; discriminate H).
  - right; right. exists s. split; [reflexivity | now apply eqb_eq].
  - destruct H as [H | [H | (s' & [= <-] & H)]]; try discriminate H.
    now apply eqb_eq.
Qed.

Lemma field_name_inj (f g : BuyerField) : field_name f = field_name g -> f = g.
Proof. destruct f, g; intros H; solve [reflexivity | discriminate H]. Qed.

Lemma requiredFields_all (f : BuyerField) : In f requiredFields.
Proof. destruct f; simpl; tauto. Qed.

(** The fields the loop of [validateBuyer] collects. *)
Lemma missingFields_exact (buyer : BuyerInfo) (f : BuyerField) :
  In (field_name f)
     (map field_name (filter (fun f => isMissing (get buyer f)) requiredFields))
  <-> missingOrBlank (get buyer f).
Proof.
  rewrite <- isMissing_spec, in_map_iff. split.
  - intros (g & Hg & Hin). apply field_name_inj in Hg as ->.
    now apply filter_In in Hin.
  - intros H. exists f. split; [reflexivity|].
    apply filter_In. split; [apply requiredFields_all | exact H].
Qed.

Lemma validateBuyer_cases (buyer : BuyerInfo) :
  let names :=
    map field_name (filter (fun f => isMissing (get buyer f)) requiredFields) in
  validateBuyer buyer =
  match names with
  | _ :: _ =>
    Throw (Shopier (ValidationError
      (js "Missing required buyer fields: " ++ join (js ", ") names)
      (Some [(js "missingFields", VArray names)])))
  | [] =>
    if negb (validateEmail (email buyer)) then
      Throw (Shopier (ValidationError (js "Invalid email format")
        (Some [(js "field", VString (js "email")); (js "value", email buyer)])))
    else if negb (validatePhone (phone buyer)) then
      Throw (Shopier (ValidationError (js "Invalid phone number format")
        (Some [(js "field", VString (js "phone")); (js "value", phone buyer)])))
    else Return tt
  end.
Proof.
  cbv zeta. unfold validateBuyer.
  destruct (map field_name _); reflexivity.
Qed.

(** The names the loop collects are those of the blank entries, each
    once and in the order of the six. *)
Lemma missingFields_selects (buyer : BuyerInfo) :
  exists sel,
    selects (fun entry => missingOrBlank (snd entry)) (requiredEntries buyer) sel
    /\ map field_name (filter (fun f => isMissing (get buyer f)) requiredFields)
       = map fst sel.
Proof.
  set (entry := fun f => (field_name f, get buyer f)).
  change (requiredEntries buyer) with (map entry requiredFields).
  exists (map entry (filter (fun f => isMissing (get buyer f)) requiredFields)).
  split; [|now rewrite map_map].
  induction requiredFields as [|f fs IH]; cbn [map filter]; [constructor|].
  destruct (isMissing (get buyer f)) eqn:E; cbn [map].
  - apply selects_keep; [|exact IH]. now apply isMissing_spec.
  - apply selects_drop; [|exact IH].
    intros H. apply isMissing_spec in H. cbn [snd entry] in H. congruence.
Qed.

(** What [selects] keeps. *)
Lemma selects_In {A : Type} (P : A -> Prop) (l l' : list A) :
  selects P l l' -> forall x, In x l' <-> In x l /\ P x.
Proof.
  induction 1 as [|x l l' Hx _ IH|x l l' Hx _ IH]; intros y; cbn [In].
  - tauto.
  - rewrite IH. split; [intros [<- | H]; tauto|].
    intros [[<- | H] Hy]; tauto.
  - rewrite IH. split; [tauto|].
    intros [[<- | H] Hy]; [now elim Hx | tauto].
Qed.

End ValidatorFacts.

(** C8. When at least one of the six required buyer fields is missing,
    null or blank once trimmed, [validateBuyer] throws a ValidationError
    whose detail payload is the one entry [missingFields], an array that
    lists the names of those fields and nothing else, each once, in the
    order id, firstName, lastName, email, phone, productName, whatever
    the email and the phone look like; when none is, it checks the
    email, then the phone, and throws a ValidationError whose detail
    payload names the offending field and carries its raw value. *)
Theorem validateBuyer_correct (buyer : BuyerInfo) :
  ((exists f, missingOrBlank (Validator.get buyer f)) ->
     exists e names sel,
       Validator.validateBuyer buyer = Throw (Shopier e)
       /\ name e = js "ValidationError"
       /\ code e = js "VALIDATION_ERROR"
       /\ message e = js "Missing required buyer fields: " ++ join (js ", ") names
       /\ details e = Some [(js "missingFields", VArray names)]
       /\ selects (fun entry => missingOrBlank (snd entry))
                  (requiredEntries buyer) sel
       /\ names = map fst sel
       /\ names <> []
       /\ (forall n, In n names <->
             exists v, In (n, v) (requiredEntries buyer) /\ missingOrBlank v)
       /\ (forall f, In (Validator.field_name f) names
                     <-> missingOrBlank (Validator.get buyer f)))
  /\ ((forall f, ~ missingOrBlank (Validator.get buyer f)) ->
      (Validator.validateEmail (email buyer) = false ->
       exists e,
         Validator.validateBuyer buyer = Throw (Shopier e)
         /\ name e = js "ValidationError"
         /\ code e = js "VALIDATION_ERROR"
         /\ message e = js "Invalid email format"
         /\ details e = Some [(js "field", VString (js "email"));
                              (js "value", email buyer)])
      /\ (Validator.validateEmail (email buyer) = true ->
          Validator.validatePhone (phone buyer) = false ->
          exists e,
            Validator.validateBuyer buyer = Throw (Shopier e)
            /\ name e = js "ValidationError"
            /\ code e = js "VALIDATION_ERROR"
            /\ message e = js "Invalid phone number format"
            /\ details e = Some [(js "field", VString (js "phone"));
                                 (js "value", phone buyer)])
      /\ (Validator.validateEmail (email buyer) = true ->
          Validator.validatePhone (phone buyer) = true ->
          Validator.validateBuyer buyer = Return tt)).
Proof.
  pose proof (validateBuyer_cases buyer) as E. cbv zeta in E.
  pose proof (missingFields_exact buyer) as M.
  destruct (missingFields_selects buyer) as (sel & S & N').
  destruct (map Validator.field_name _) as [|n names] eqn:N.
  - split.
    + intros (f & Hf). apply M in Hf. now elim Hf.
    + intros _. rewrite E. split; [|split].
      * intros ->. eexists. split; [reflexivity|]. repeat split.
      * intros -> ->. eexists. split; [reflexivity|]. repeat split.
      * intros -> ->. reflexivity.
  - split.
    + intros _. eexists _, (n :: names), sel.
      split; [exact E|].
      do 4 (split; [reflexivity|]).
      split; [exact S|]. split; [exact N'|]. split; [discriminate|].
      split; [|exact M].
      intros x. rewrite N', in_map_iff. split.
      * intros ([x' v] & <- & Hin). apply (selects_In _ _ _ S) in Hin.
        exists v. exact Hin.
      * intros (v & Hin & Hv). exists (x, v). split; [reflexivity|].
        apply (selects_In _ _ _ S). now split.
    + intros H. exfalso.
      assert (Hn : In n (n :: names)) by now left.
      rewrite <- N in Hn. apply in_map_iff in Hn as (f & <- & Hf).
      apply (H f). apply isMissing_spec. now apply filter_In in Hf.
Qed.

(** C8 on a buyer with no first name and a blank phone, on one with a
    malformed email, and on the buyer of the end-to-end scenario. *)
Lemma validateBuyer_correct_witness :
  (exists e,
     Validator.validateBuyer
       (mkBuyer (VString (js "b1")) None (VString (js "Plan")) None VUndefined
                (VString (js "Y")) (VString (js "a@example.com"))
                (VString (js "  ")) None)
     = Throw (Shopier e)
     /\ details e
        = Some [(js "missingFields", VArray [js "firstName"; js "phone"])])
  /\ (exists e,
        Validator.validateBuyer
          (mkBuyer (VString (js "b1")) None (VString (js "Plan")) None
                   (VString (js "A")) (VString (js "Y")) (VString (js "a@example"))
                   (VString (js "05551234567")) None)
        = Throw (Shopier e)
        /\ details e = Some [(js "field", VString (js "email"));
                             (js "value", VString (js "a@example"))])
  /\ Validator.validateBuyer
       (mkBuyer (VString (js "b1")) None (VString (js "Plan")) None
                (VString (js "Ahmet")) (VString (js "Y" ++ [305] ++ js "lmaz"))
                (VString (js "a@example.com")) (VString (js "05551234567")) None)
     = Return tt.
Proof.
  split; [|split].
  - match goal with
    | |- exists _, Validator.validateBuyer ?b = _ /\ _ =>
      destruct (validateBuyer_correct b) as [H _]
    end.
    destruct H as (e & names & sel & E & _ & _ & _ & D & _).
    + exists Validator.f_firstName. left. reflexivity.
    + exists e. split; [exact E|].
      rewrite validateBuyer_cases in E. vm_compute in E.
      injection E as <-. reflexivity.
  - match goal with
    | |- exists _, Validator.validateBuyer ?b = _ /\ _ =>
      destruct (validateBuyer_correct b) as [_ H]
    end.
    destruct H as ((e & E & _ & _ & _ & D) & _).
    + intros f Hf. apply isMissing_spec in Hf. destruct f; discriminate Hf.
    + reflexivity.
    + exists e. split; [exact E | exact D].
  - match goal with
    | |- Validator.validateBuyer ?b = _ =>
      destruct (validateBuyer_correct b) as [_ H]
    end.
    apply H; [|reflexivity|reflexivity].
    intros f Hf. apply isMissing_spec in Hf. destruct f; discriminate Hf.
Defined.

(** ** Decimal numerals and [parseInt] *)
Section ParseFacts.

Lemma digit_range (n : Z) : 48 <= digit n <= 57.
Proof. unfold digit. pose proof (Z.mod_pos_bound n 10). lia. Qed.

Lemma isDigit_digit (n : Z) : isDigit (digit n) = true.
Proof.
  unfold isDigit. pose proof (digit_range n).
  apply andb_true_iff. split; apply Z.leb_le; lia.
Qed.

Lemma digits_aux_acc (fuel : nat) (n : Z) (acc : jsstring) :
  digits_aux fuel n acc = digits_aux fuel n [] ++ acc.
Proof.
  revert n acc. induction fuel as [|fuel IH]; intros n acc; simpl.
  - reflexivity.
  - destruct (n <? 10); [reflexivity|].
    rewrite (IH _ (digit n :: acc)), (IH _ [digit n]), <- app_assoc.
    reflexivity.
Qed.

Lemma digits_aux_isDigit (fuel : nat) (n : Z) :
  Forall (fun c => isDigit c = true) (digits_aux fuel n []).
Proof.
  revert n. induction fuel as [|fuel IH]; intros n; simpl.
  - constructor.
  - destruct (n <? 10).
    + constructor; [apply isDigit_digit | constructor].
    + rewrite digits_aux_acc. apply Forall_app. split; [apply IH|].
      constructor; [apply isDigit_digit | constructor].
Qed.

Lemma digits_value_snoc (l : jsstring) (d : Z) :
  digits_value (l ++ [d]) = digits_value l * 10 + (d - 48).
Proof. unfold digits_value. now rewrite fold_left_app. Qed.

Lemma digits_aux_value (fuel : nat) (n : Z) :
  0 <= n < 10 ^ Z.of_nat fuel -> digits_value (digits_aux fuel n []) = n.
Proof.
  revert n. induction fuel as [|fuel IH]; intros n Hn.
  - simpl in *. change (digits_value []) with 0. lia.
  - cbn [digits_aux]. destruct (Z.ltb_spec n 10) as [L|L].
    + change (digits_value [digit n]) with (0 * 10 + (digit n - 48)).
      unfold digit. rewrite Z.mod_small by lia. lia.
    + rewrite digits_aux_acc, digits_value_snoc, IH.
      * unfold digit. pose proof (Z.div_mod n 10). lia.
      * rewrite Nat2Z.inj_succ, Z.pow_succ_r in Hn by lia.
        split; [apply Z.div_pos; lia|].
        apply Z.div_lt_upper_bound; lia.
Qed.

Lemma digits_fuel (n : Z) :
  0 < n -> 0 <= n < 10 ^ Z.of_nat (S (Z.to_nat (Z.log2 n))).
Proof.
  intros Hn. pose proof (Z.log2_spec n Hn) as [_ Hu].
  pose proof (Z.log2_nonneg n) as Hl.
  rewrite Nat2Z.inj_succ, Z2Nat.id by exact Hl.
  split; [lia|].
  eapply Z.lt_le_trans; [exact Hu|].
  apply Z.pow_le_mono_l. lia.
Qed.

Lemma digits_value_digits (n : Z) : 0 < n -> digits_value (digits n) = n.
Proof. intros Hn. apply digits_aux_value, digits_fuel, Hn. Qed.

Lemma digit_prefix_all (l : jsstring) :
  Forall (fun c => isDigit c = true) l -> digit_prefix l = l.
Proof.
  induction 1 as [|c l Hc _ IH]; simpl; [reflexivity|].
  now rewrite Hc, IH.
Qed.

Lemma isDigit_not_space (c : Z) :
  isDigit c = true -> isWhiteSpace c = false /\ (c =? 45) = false /\ (c =? 43) = false.
Proof.
  unfold isDigit. intros H. apply andb_true_iff in H as [L U].
  apply Z.leb_le in L, U.
  repeat split; try (apply Z.eqb_neq; lia).
  unfold isWhiteSpace. cbn [existsb].
  repeat (rewrite (proj2 (Z.eqb_neq c _)) by lia).
  rewrite (proj2 (Z.leb_gt _ _)) by lia. reflexivity.
Qed.

(** [parseInt] reads a canonical decimal numeral back. *)
Lemma parseInt10_digits (n : Z) : 0 < n -> parseInt10 (digits n) = of_Z n.
Proof.
  intros Hn.
  pose proof (digits_value_digits n Hn) as V.
  pose proof (digits_aux_isDigit (S (Z.to_nat (Z.log2 n))) n) as D.
  fold (digits n) in D.
  destruct (digits n) as [|c r] eqn:E.
  - change (digits_value []) with 0 in V. lia.
  - pose proof (Forall_inv D) as Hc. cbv beta in Hc.
    destruct (isDigit_not_space c Hc) as (W & M & P).
    unfold parseInt10. cbn [trimStart]. rewrite W, M, P.
    rewrite (digit_prefix_all _ D), V.
    rewrite (proj2 (Z.eqb_neq n 0)) by lia. reflexivity.
Qed.

Lemma trimStart_spaces (ws s : jsstring) :
  Forall (fun c => isWhiteSpace c = true) ws -> trimStart (ws ++ s) = trimStart s.
Proof.
  induction 1 as [|c ws Hc _ IH]; [reflexivity|].
  cbn [app trimStart]. now rewrite Hc.
Qed.

Lemma digit_prefix_app (ds rest : jsstring) :
  Forall (fun c => isDigit c = true) ds ->
  (forall c r, rest = c :: r -> isDigit c = false) ->
  digit_prefix (ds ++ rest) = ds.
Proof.
  intros D R. induction D as [|c ds Hc _ IH].
  - destruct rest as [|c r]; [reflexivity|].
    cbn [app digit_prefix]. now rewrite (R c r eq_refl).
  - cbn [app digit_prefix]. now rewrite Hc, IH.
Qed.

(** [parseInt] reads the numeral that follows the leading white space
    and stops at the first character that is not a digit. *)
Lemma parseInt10_numeral (ws rest : jsstring) (n : Z) :
  0 <= n ->
  Forall (fun c => isWhiteSpace c = true) ws ->
  (forall c r, rest = c :: r -> isDigit c = false) ->
  parseInt10 (ws ++ digits n ++ rest) = of_Z n.
Proof.
  intros Hn W R.
  assert (V : digits_value (digits n) = n).
  { destruct (Z.eq_dec n 0) as [-> | N]; [reflexivity|].
    apply digits_value_digits. lia. }
  pose proof (digits_aux_isDigit (S (Z.to_nat (Z.log2 n))) n) as D.
  fold (digits n) in D.
  destruct (digits n) as [|c r] eqn:E.
  - destruct (Z.eq_dec n 0) as [-> | N]; [discriminate E|].
    change (digits_value []) with 0 in V. lia.
  - pose proof (Forall_inv D) as Hc. cbv beta in Hc.
    destruct (isDigit_not_space c Hc) as (S1 & S2 & S3).
    unfold parseInt10. rewrite (trimStart_spaces ws _ W).
    cbn [app trimStart]. rewrite S1, S2, S3.
    change (c :: r ++ rest) with ((c :: r) ++ rest).
    rewrite (digit_prefix_app _ _ D R), V.
    destruct (Z.eqb_spec n 0) as [-> | N]; reflexivity.
Qed.

End ParseFacts.

(** ** Rounding an integer to a double *)
Section RoundFacts.

Lemma shr_1_m (r : shr_record) :
  0 <= shr_m r -> shr_m (shr_1 r) = Z.div2 (shr_m r).
Proof.
  destruct r as [m rb sb]. cbn [shr_m]. intros H.
  destruct m as [|[p|p|]|p]; try reflexivity. lia.
Qed.

Lemma iter_shr_1_m (p : positive) (r : shr_record) :
  0 <= shr_m r -> shr_m (iter_pos shr_1 p r) = shr_m r / 2 ^ Z.pos p.
Proof.
  revert r. induction p as [p IH | p IH |]; intros r H; cbn [iter_pos].
  - assert (H1 : 0 <= shr_m (shr_1 r)).
    { rewrite shr_1_m, Z.div2_div by exact H. apply Z.div_pos; lia. }
    assert (H2 : 0 <= shr_m (iter_pos shr_1 p (shr_1 r))).
    { rewrite IH by exact H1. apply Z.div_pos; [exact H1 | lia]. }
    rewrite IH, IH, shr_1_m, Z.div2_div by assumption.
    rewrite !Z.div_div by lia.
    replace (2 ^ Z.pos p~1) with (2 ^ (1 + (Z.pos p + Z.pos p))) by (f_equal; lia).
    rewrite !Z.pow_add_r by lia. reflexivity.
  - assert (H2 : 0 <= shr_m (iter_pos shr_1 p r)).
    { rewrite IH by exact H. apply Z.div_pos; [exact H | lia]. }
    rewrite IH, IH by assumption.
    rewrite !Z.div_div by lia.
    replace (2 ^ Z.pos p~0) with (2 ^ (Z.pos p + Z.pos p)) by (f_equal; lia).
    rewrite !Z.pow_add_r by lia. reflexivity.
  - rewrite shr_1_m, Z.div2_div by exact H. reflexivity.
Qed.

Lemma digits2_bounds (m : positive) :
  2 ^ (Z.pos (digits2_pos m) - 1) <= Z.pos m < 2 ^ Z.pos (digits2_pos m).
Proof.
  induction m as [p IH | p IH |]; cbn [digits2_pos].
  - rewrite Pos2Z.inj_succ. change (Z.pos p~1) with (2 * Z.pos p + 1).
    replace (Z.succ (Z.pos (digits2_pos p)) - 1) with (Z.succ (Z.pos (digits2_pos p) - 1)) by lia.
    rewrite !Z.pow_succ_r by lia. lia.
  - rewrite Pos2Z.inj_succ. change (Z.pos p~0) with (2 * Z.pos p).
    replace (Z.succ (Z.pos (digits2_pos p)) - 1) with (Z.succ (Z.pos (digits2_pos p) - 1)) by lia.
    rewrite !Z.pow_succ_r by lia. lia.
  - cbn. lia.
Qed.

(** Shifting a positive mantissa to its format exponent leaves it
    positive, and does not lower the exponent. *)
Lemma shr_fexp_positive (m : positive) (e : Z) (l : location) :
  emin prec emax <= e ->
  exists m' e',
    shr_fexp prec emax (Z.pos m) e l = (m', e') /\ 0 < shr_m m' /\ e <= e'.
Proof.
  intros He. unfold shr_fexp, shr.
  assert (M : shr_m (shr_record_of_loc (Z.pos m) l) = Z.pos m)
    by (destruct l as [|[| |]]; reflexivity).
  destruct (fexp prec emax (Zdigits2 (Z.pos m) + e) - e) as [|p|p] eqn:K.
  - eexists _, _. split; [reflexivity|]. rewrite M. lia.
  - eexists _, _. split; [reflexivity|].
    rewrite iter_shr_1_m by (rewrite M; lia). rewrite M.
    split; [|lia].
    apply Z.div_str_pos. split; [lia|].
    eapply Z.le_trans; [|apply (proj1 (digits2_bounds m))].
    apply Z.pow_le_mono_r; [lia|].
    unfold fexp in K. cbn [Zdigits2] in K.
    pose proof (eq_refl : prec = 53) as P. lia.
  - eexists _, _. split; [reflexivity|]. rewrite M. lia.
Qed.

Lemma round_nearest_even_positive (m : Z) (l : location) :
  0 < m -> 0 < round_nearest_even m l.
Proof.
  intros H. destruct l as [|[| |]]; cbn [round_nearest_even]; try lia.
  destruct (Z.even m); lia.
Qed.

(** Rounding a positive mantissa gives a finite number that is not zero,
    or an infinity. *)
Lemma binary_round_aux_truthy (sx : bool) (m : positive) (e : Z) (l : location) :
  emin prec emax <= e ->
  truthy (binary_round_aux prec emax sx (Z.pos m) e l) = true.
Proof.
  intros He. unfold binary_round_aux.
  destruct (shr_fexp_positive m e l He) as (m1 & e1 & -> & H1 & He1).
  pose proof (round_nearest_even_positive _ (loc_of_shr_record m1) H1) as H2.
  destruct (round_nearest_even _ _) as [|m2|m2]; try lia.
  destruct (shr_fexp_positive m2 e1 loc_Exact) as (m3 & e3 & -> & H3 & He3); [lia|].
  destruct (shr_m m3) as [|q|q]; try lia.
  destruct (e3 <=? _); reflexivity.
Qed.

Lemma of_Z_truthy (n : Z) : n <> 0 -> truthy (of_Z n) = true.
Proof.
  intros Hn. unfold of_Z, binary_normalize.
  assert (R : forall sx m, truthy (binary_round prec emax sx m 0) = true).
  { intros sx m. unfold binary_round, shl_align.
    set (f := fexp prec emax (Z.pos (digits2_pos m) + 0)).
    assert (F : emin prec emax <= f) by (unfold f, fexp; lia).
    destruct (f - 0) as [|d|d] eqn:D;
      apply binary_round_aux_truthy; try lia.
    change (emin prec emax) with (-1074). lia. }
  destruct n as [|p|p]; [now elim Hn | apply R | apply R].
Qed.

(** [n || 0] is [n] for the Number value of every integer. *)
Lemma or_zero_of_Z (n : Z) : or_zero (of_Z n) = of_Z n.
Proof.
  destruct (Z.eq_dec n 0) as [-> | Hn]; [reflexivity|].
  unfold or_zero. now rewrite of_Z_truthy.
Qed.

(** What [parseInt(s, 10) || 0] is, by what [parseInt] reads. *)
Lemma or_zero_parseInt10 (s : jsstring) :
  (parseInt10 s = NaN -> or_zero (parseInt10 s) = zero)
  /\ (forall ws n rest, 0 <= n ->
      Forall (fun c => isWhiteSpace c = true) ws ->
      (forall c rest', rest = c :: rest' -> isDigit c = false) ->
      s = ws ++ digits n ++ rest -> or_zero (parseInt10 s) = of_Z n)
  /\ (forall x, parseInt10 s = x ->
      x <> NaN -> (forall sign, x <> S754_zero sign) -> or_zero (parseInt10 s) = x)
  /\ (forall sign, parseInt10 s = S754_zero sign -> or_zero (parseInt10 s) = zero).
Proof.
  split; [intros ->; reflexivity|].
  split.
  { intros ws n rest Hn W R ->.
    rewrite (parseInt10_numeral ws rest n Hn W R). apply or_zero_of_Z. }
  split; [|intros sign ->; reflexivity].
  intros x -> Hx Hz. destruct x as [sign| | |]; try reflexivity.
  - now elim (Hz sign).
  - now elim Hx.
Qed.

End RoundFacts.

(** ** Occurrences *)
Section OccurrenceFacts.

Lemma includes_app (a p b : jsstring) : includes (a ++ p ++ b) p = true.
Proof.
  induction a as [|x a IH].
  - simpl app. destruct (p ++ b) eqn:E; unfold includes; fold includes;
      rewrite <- E, startsWith_app; reflexivity.
  - simpl app. cbn [includes]. rewrite IH. apply orb_true_r.
Qed.

Lemma occursIn_includes (p s : jsstring) : occursIn p s -> includes s p = true.
Proof. intros (a & b & ->). apply includes_app. Qed.

Lemma occursIn_refl (s : jsstring) : occursIn s s.
Proof. exists [], []. now rewrite app_nil_r. Qed.

Lemma occursIn_trans (p q s : jsstring) :
  occursIn p q -> occursIn q s -> occursIn p s.
Proof.
  intros (a & b & ->) (c & d & ->).
  exists (c ++ a), (b ++ d). now rewrite <- !app_assoc.
Qed.

Lemma occursIn_app_l (p s t : jsstring) : occursIn p s -> occursIn p (s ++ t).
Proof. intros (a & b & ->). exists a, (b ++ t). now rewrite <- !app_assoc. Qed.

Lemma occursIn_app_r (p s t : jsstring) : occursIn p s -> occursIn p (t ++ s).
Proof. intros (a & b & ->). exists (t ++ a), b. now rewrite <- !app_assoc. Qed.

Lemma occursIn_join (sep x : jsstring) (l : list jsstring) :
  In x l -> occursIn x (join sep l).
Proof.
  induction l as [|y l IH]; intros H; [now elim H|].
  destruct l as [|z l].
  - destruct H as [-> | []]. apply occursIn_refl.
  - change (join sep (y :: z :: l)) with (y ++ sep ++ join sep (z :: l)).
    destruct H as [-> | H].
    + apply occursIn_app_l, occursIn_refl.
    + now apply occursIn_app_r, occursIn_app_r, IH.
Qed.

Lemma startsWith_prefix (p s : jsstring) :
  startsWith p s = true -> exists b, s = p ++ b.
Proof.
  revert s. induction p as [|x p IH]; intros s H.
  - now exists s.
  - destruct s as [|y s]; [discriminate H|]. simpl in H.
    apply andb_true_iff in H as [E H]. apply Z.eqb_eq in E as ->.
    destruct (IH s H) as (b & ->). now exists b.
Qed.

Lemma includes_occursIn (s p : jsstring) : includes s p = true -> occursIn p s.
Proof.
  induction s as [|c s IH]; cbn [includes]; intros H.
  - rewrite orb_false_r in H. apply startsWith_prefix in H as (b & ->).
    now exists [], b.
  - apply orb_true_iff in H as [H | H].
    + apply startsWith_prefix in H as (b & ->). now exists [], b.
    + destruct (IH H) as (a & b & ->). now exists (c :: a), b.
Qed.

(** A string that lacks a character of [p] does not include [p]. *)
Lemma includes_lacking (s p : jsstring) (c : Z) :
  In c p -> ~ In c s -> includes s p = false.
Proof.
  intros Hp Hs. destruct (includes s p) eqn:E; [|reflexivity].
  apply includes_occursIn in E as (a & b & ->).
  elim Hs. apply in_or_app. right. apply in_or_app. now left.
Qed.

End OccurrenceFacts.

(** ** The shape of a signature *)
Section ShapeFacts.
Import Crypto.

Lemma sha256_length (msg : list Z) : length (sha256 msg) = 32%nat.
Proof. reflexivity. Qed.

Lemma hmac_sha256_length (key msg : list Z) :
  length (hmac_sha256 key msg) = 32%nat.
Proof. reflexivity. Qed.

Lemma base64_of_32 (l : list Z) :
  length l = 32%nat -> last (base64 l) 0 = 61 /\ base64 l <> [].
Proof.
  intros H.
  do 32 (destruct l as [|? l]; [discriminate H|]).
  destruct l; [|discriminate H].
  split; [reflexivity | discriminate].
Qed.

(** A signature is a base64 text that ends with the padding
    character. *)
Lemma generateSignature_padded (secret data : jsstring) :
  In 61 (Signature.generateSignature secret data).
Proof.
  unfold Signature.generateSignature.
  destruct (base64_of_32 _ (hmac_sha256_length (utf8 secret) (utf8 data)))
    as [L N].
  rewrite (app_removelast_last 0 N), L.
  apply in_or_app. right. now left.
Qed.

End ShapeFacts.



(** ** The callback verifier *)
Section CallbackFacts.
Import ShopierSDK Signature Config.
Variable config : ResolvedConfig.

Lemma verifyCallback_accept (body : CallbackBody) :
  verifySignature (apiSecret config)
    (cb_random_nr body ++ cb_platform_order_id body) (cb_signature body)
  = Return true ->
  verifyCallback config body = Return (decoded body).
Proof. intros H. unfold verifyCallback. rewrite H. reflexivity. Qed.

Lemma verifyCallback_reject (body : CallbackBody) :
  verifySignature (apiSecret config)
    (cb_random_nr body ++ cb_platform_order_id body) (cb_signature body)
  <> Return true ->
  verifyCallback config body = Throw (Shopier callbackRejection).
Proof.
  intros H. apply verifySignature_not_true in H.
  unfold verifyCallback. rewrite H. reflexivity.
Qed.

End CallbackFacts.

(** C3. For a notification whose signature verifies against the HMAC of
    [random_nr] followed by [platform_order_id], [verifyCallback]
    returns (it does not throw) a result whose [success] holds exactly
    when the status is the string [success]; whose installment is the
    integer parse of the installment string: 0 when the parse fails,
    the Number value of [n] when the string is the decimal numeral of
    [n], white space before it and anything but a digit after it
    allowed, and in general the number [parseInt] reads, a zero being
    read as 0; and which passes the payment id and the status through
    and copies the order id into both [orderId] and
    [platformOrderId]. *)
Theorem verifyCallback_decodes (config : Config.ResolvedConfig) (body : CallbackBody) :
  Signature.verifySignature (Config.apiSecret config)
    (cb_random_nr body ++ cb_platform_order_id body) (cb_signature body)
  = Return true ->
  exists r,
    ShopierSDK.verifyCallback config body = Return r
    /\ (success r = true <-> cb_status body = js "success")
    /\ (parseInt10 (cb_installment body) = NaN -> installment r = zero)
    /\ (forall n, 0 <= n -> cb_installment body = digits n ->
        installment r = of_Z n)
    /\ (forall ws n rest, 0 <= n ->
        Forall (fun c => isWhiteSpace c = true) ws ->
        (forall c rest', rest = c :: rest' -> isDigit c = false) ->
        cb_installment body = ws ++ digits n ++ rest ->
        installment r = of_Z n)
    /\ (forall x, parseInt10 (cb_installment body) = x ->
        x <> NaN -> (forall sign, x <> S754_zero sign) -> installment r = x)
    /\ (forall sign, parseInt10 (cb_installment body) = S754_zero sign ->
        installment r = zero)
    /\ paymentId r = cb_payment_id body
    /\ status r = cb_status body
    /\ orderId r = cb_platform_order_id body
    /\ res_platformOrderId r = cb_platform_order_id body.
Proof.
  intros H. exists (decoded body).
  split; [now apply verifyCallback_accept|].
  unfold decoded; cbn [success installment paymentId status orderId res_platformOrderId].
  destruct (or_zero_parseInt10 (cb_installment body)) as (P1 & P2 & P3 & P4).
  split; [apply eqb_eq|].
  split; [exact P1|].
  split.
  { intros n Hn E. apply (P2 [] n [] Hn); [constructor | discriminate|].
    now rewrite app_nil_r. }
  split; [exact P2|].
  split; [exact P3|].
  split; [exact P4|].
  repeat split.
Qed.

(** C3 on the notification of the end-to-end scenario 2: the decoded
    result, installment 3. *)
Lemma verifyCallback_decodes_witness :
  exists r,
    ShopierSDK.verifyCallback
      (Config.mkResolved (js "k") (js "s") TR (js "1.0.4") SITE_1)
      (mkBody (js "123456") (js "b1") (js "p1") (js "3") (js "success")
              (Signature.generateSignature (js "s") (js "123456b1")))
    = Return r
    /\ success r = true
    /\ installment r = of_Z 3
    /\ paymentId r = js "p1"
    /\ status r = js "success"
    /\ orderId r = js "b1"
    /\ res_platformOrderId r = js "b1".
Proof.
  destruct (verifyCallback_decodes
              (Config.mkResolved (js "k") (js "s") TR (js "1.0.4") SITE_1)
              (mkBody (js "123456") (js "b1") (js "p1") (js "3") (js "success")
                      (Signature.generateSignature (js "s") (js "123456b1"))))
    as (r & E & S & _ & I & _ & _ & _ & P & T & O & O').
  - vm_compute. reflexivity.
  - exists r. split; [exact E|].
    split; [apply S; reflexivity|].
    split; [apply (I 3); [lia | reflexivity]|].
    repeat split; assumption.
Defined.

(** The end-to-end scenario 2, evaluated. *)
Example verifyCallback_scenario2 :
  ShopierSDK.verifyCallback
    (Config.mkResolved (js "k") (js "s") TR (js "1.0.4") SITE_1)
    (mkBody (js "123456") (js "b1") (js "p1") (js "3") (js "success")
            (Signature.generateSignature (js "s") (js "123456b1")))
  = Return (mkResult true (js "b1") (js "p1") (of_Z 3) (js "b1") (js "success")).
Proof. vm_compute. reflexivity. Qed.

(** C4. For a notification whose signature does not verify,
    [verifyCallback] throws a SignatureValidationError with code
    SIGNATURE_VALIDATION_ERROR that carries no detail payload: neither
    the payload nor the detail of the safe-JSON projection mentions the
    received or the expected signature.  The projection is the same
    fixed record for every rejected notification, whatever was received,
    and the expected signature occurs in none of its strings. *)
Theorem verifyCallback_rejection_is_silent
    (toLowerCase : jsstring -> jsstring)
    (config : Config.ResolvedConfig) (body : CallbackBody) :
  let expected :=
    Signature.generateSignature (Config.apiSecret config)
      (cb_random_nr body ++ cb_platform_order_id body) in
  Signature.verifySignature (Config.apiSecret config)
    (cb_random_nr body ++ cb_platform_order_id body) (cb_signature body)
  <> Return true ->
  exists e,
    ShopierSDK.verifyCallback config body = Throw (Shopier e)
    /\ e = callbackRejection
    /\ name e = js "SignatureValidationError"
    /\ code e = js "SIGNATURE_VALIDATION_ERROR"
    /\ details e = None
    /\ Errors.toSafeJSON toLowerCase e
       = Errors.mkSafe (js "SignatureValidationError")
           (js "Callback signature verification failed")
           (js "SIGNATURE_VALIDATION_ERROR") None
    /\ ~ mentions (details e) (cb_signature body)
    /\ ~ mentions (details e) expected
    /\ ~ mentions (Errors.safe_details (Errors.toSafeJSON toLowerCase e))
                  (cb_signature body)
    /\ ~ mentions (Errors.safe_details (Errors.toSafeJSON toLowerCase e)) expected
    /\ includes (name e) expected = false
    /\ includes (message e) expected = false
    /\ includes (code e) expected = false.
Proof.
  intros expected H. exists callbackRejection.
  split; [now apply verifyCallback_reject|].
  pose proof (generateSignature_padded (Config.apiSecret config)
                (cb_random_nr body ++ cb_platform_order_id body)) as P.
  fold expected in P.
  assert (L : forall s, forallb (fun c => negb (c =? 61)) s = true ->
                        includes s expected = false).
  { intros s Hs. apply (includes_lacking s expected 61 P).
    intros Hin. rewrite forallb_forall in Hs. specialize (Hs 61 Hin).
    discriminate Hs. }
  repeat split;
    try (intros (d & k & v & Hd & _); discriminate Hd);
    apply L; reflexivity.
Qed.

(** C4 on the notification of the end-to-end scenario 3, signed
    [wrong]. *)
Lemma verifyCallback_rejection_is_silent_witness :
  let config := Config.mkResolved (js "k") (js "s") TR (js "1.0.4") SITE_1 in
  let body := mkBody (js "123456") (js "b1") (js "p1") (js "3") (js "success")
                     (js "wrong") in
  let expected := Signature.generateSignature (js "s") (js "123456b1") in
  exists e,
    ShopierSDK.verifyCallback config body = Throw (Shopier e)
    /\ e = callbackRejection
    /\ name e = js "SignatureValidationError"
    /\ code e = js "SIGNATURE_VALIDATION_ERROR"
    /\ details e = None
    /\ Errors.toSafeJSON Errors.ascii_toLowerCase e
       = Errors.mkSafe (js "SignatureValidationError")
           (js "Callback signature verification failed")
           (js "SIGNATURE_VALIDATION_ERROR") None
    /\ ~ mentions (details e) (js "wrong")
    /\ ~ mentions (details e) expected
    /\ ~ mentions (Errors.safe_details (Errors.toSafeJSON Errors.ascii_toLowerCase e))
                  (js "wrong")
    /\ ~ mentions (Errors.safe_details (Errors.toSafeJSON Errors.ascii_toLowerCase e))
                  expected
    /\ includes (name e) expected = false
    /\ includes (message e) expected = false
    /\ includes (code e) expected = false.
Proof.
  intros config body expected.
  apply (verifyCallback_rejection_is_silent Errors.ascii_toLowerCase config body).
  vm_compute. intros H; discriminate H.
Defined.

(** C10, as stated, fails: an accepted notification whose installment
    string is [x], or the numeral 12 between a blank and three letters,
    gives a result whose installment is the number 0, or 12; neither
    is the string that was received. *)
Lemma verifyCallback_installment_is_parsed :
  let config := Config.mkResolved (js "k") (js "s") TR (js "1.0.4") SITE_1 in
  let sig := Signature.generateSignature (js "s") (js "123456b1") in
  (exists r,
     ShopierSDK.verifyCallback config
       (mkBody (js "123456") (js "b1") (js "p9") (js "x") (js "failed") sig)
     = Return r
     /\ status r = js "failed" /\ paymentId r = js "p9"
     /\ installment r = zero
     /\ toString (installment r) = js "0"
     /\ toString (installment r) <> js "x")
  /\ (exists r,
        ShopierSDK.verifyCallback config
          (mkBody (js "123456") (js "b1") (js "p9") (js " 12abc") (js "failed") sig)
        = Return r
        /\ installment r = of_Z 12
        /\ toString (installment r) = js "12"
        /\ toString (installment r) <> js " 12abc").
Proof.
  split; (eexists; split; [vm_compute; reflexivity|]);
    vm_compute; repeat split; intros H; discriminate H.
Qed.

(** C10, amended. Whether [verifyCallback] accepts depends on
    [random_nr], [platform_order_id] and [signature] only: of two
    notifications that agree on these, the second is accepted whenever
    the first is, and is rejected with the same error whenever the
    first is rejected, whatever their status, payment id and
    installment are.  When accepted, the status and the payment id
    reach the result unchecked and as they are; the installment reaches
    it unchecked too, not as it is but as its integer parse: 0 when the
    parse fails, the Number value of [n] for the decimal numeral of
    [n], and in general the number [parseInt] reads, a zero being read
    as 0. *)
Theorem verifyCallback_decision_fields
    (config : Config.ResolvedConfig) (b1 b2 : CallbackBody) :
  let parsed (b : CallbackBody) (r : CallbackResult) :=
    (parseInt10 (cb_installment b) = NaN -> installment r = zero)
    /\ (forall n, 0 <= n -> cb_installment b = digits n ->
        installment r = of_Z n)
    /\ (forall x, parseInt10 (cb_installment b) = x ->
        x <> NaN -> (forall sign, x <> S754_zero sign) -> installment r = x)
    /\ (forall sign, parseInt10 (cb_installment b) = S754_zero sign ->
        installment r = zero) in
  cb_random_nr b1 = cb_random_nr b2 ->
  cb_platform_order_id b1 = cb_platform_order_id b2 ->
  cb_signature b1 = cb_signature b2 ->
  (forall r1, ShopierSDK.verifyCallback config b1 = Return r1 ->
     exists r2,
       ShopierSDK.verifyCallback config b2 = Return r2
       /\ status r1 = cb_status b1 /\ status r2 = cb_status b2
       /\ paymentId r1 = cb_payment_id b1 /\ paymentId r2 = cb_payment_id b2
       /\ parsed b1 r1 /\ parsed b2 r2)
  /\ (forall e, ShopierSDK.verifyCallback config b1 = Throw e ->
      ShopierSDK.verifyCallback config b2 = Throw e)
  /\ ((exists r1, ShopierSDK.verifyCallback config b1 = Return r1)
      \/ (exists e, ShopierSDK.verifyCallback config b1 = Throw e)).
Proof.
  intros parsed Hn Ho Hs.
  assert (D : forall b, parsed b (decoded b)).
  { intros b. unfold parsed, decoded; cbn [installment].
    destruct (or_zero_parseInt10 (cb_installment b)) as (P1 & P2 & P3 & P4).
    split; [exact P1|]. split; [|split; [exact P3 | exact P4]].
    intros n Hn0 E. apply (P2 [] n [] Hn0); [constructor | discriminate|].
    now rewrite app_nil_r. }
  destruct (verifySignature_returns (Config.apiSecret config)
              (cb_random_nr b1 ++ cb_platform_order_id b1) (cb_signature b1))
    as ([|] & V1).
  - pose proof (verifyCallback_accept config b1 V1) as A1.
    rewrite Hn, Ho, Hs in V1.
    pose proof (verifyCallback_accept config b2 V1) as A2.
    split; [|split].
    + intros r1 E1. rewrite A1 in E1. injection E1 as <-.
      exists (decoded b2). split; [exact A2|].
      do 4 (split; [reflexivity|]).
      split; apply D.
    + intros e E1. rewrite A1 in E1. discriminate E1.
    + left. now exists (decoded b1).
  - assert (N1 : Signature.verifySignature (Config.apiSecret config)
                   (cb_random_nr b1 ++ cb_platform_order_id b1) (cb_signature b1)
                 <> Return true) by (rewrite V1; discriminate).
    pose proof (verifyCallback_reject config b1 N1) as R1.
    rewrite Hn, Ho, Hs in N1.
    pose proof (verifyCallback_reject config b2 N1) as R2.
    split; [|split].
    + intros r1 E1. rewrite R1 in E1. discriminate E1.
    + intros e E1. rewrite R1 in E1. injection E1 as <-. exact R2.
    + right. now exists (Shopier callbackRejection).
Qed.

(** C10 on two notifications under one signature, the first reporting
    a success with installment 3, the second a failure under another
    payment id and with installment [x]: the second is accepted with
    the first, its status and payment id as received and its
    installment 0. *)
Lemma verifyCallback_decision_fields_witness :
  let config := Config.mkResolved (js "k") (js "s") TR (js "1.0.4") SITE_1 in
  let sig := Signature.generateSignature (js "s") (js "123456b1") in
  exists r2,
    ShopierSDK.verifyCallback config
      (mkBody (js "123456") (js "b1") (js "p9") (js "x") (js "failed") sig)
    = Return r2
    /\ status r2 = js "failed"
    /\ paymentId r2 = js "p9"
    /\ installment r2 = zero.
Proof.
  intros config sig.
  destruct (verifyCallback_decision_fields config
              (mkBody (js "123456") (js "b1") (js "p1") (js "3") (js "success") sig)
              (mkBody (js "123456") (js "b1") (js "p9") (js "x") (js "failed") sig)
              eq_refl eq_refl eq_refl) as (A & _ & _).
  destruct (A (mkResult true (js "b1") (js "p1") (of_Z 3) (js "b1") (js "success")))
    as (r2 & E & _ & S & _ & P & _ & I & _).
  - vm_compute. reflexivity.
  - exists r2. split; [exact E|]. split; [exact S|]. split; [exact P|].
    apply I. reflexivity.
Defined.

(** The second notification is accepted, failure status and all. *)
Example verifyCallback_unauthenticated_status :
  ShopierSDK.verifyCallback
    (Config.mkResolved (js "k") (js "s") TR (js "1.0.4") SITE_1)
    (mkBody (js "123456") (js "b1") (js "p9") (js "x") (js "failed")
            (Signature.generateSignature (js "s") (js "123456b1")))
  = Return (mkResult false (js "b1") (js "p9") zero (js "b1") (js "failed")).
Proof. vm_compute. reflexivity. Qed.

(** ** The rendering of numbers holds no markup character *)
Section NumberFacts.
Import Utils.

Lemma plain_digit (n : Z) : isHtmlSpecial (digit n) = false.
Proof.
  pose proof (digit_range n). unfold isHtmlSpecial. cbn [existsb].
  repeat (rewrite (proj2 (Z.eqb_neq (digit n) _)) by lia). reflexivity.
Qed.

Lemma plain_digits_aux (fuel : nat) (n : Z) (acc : jsstring) :
  plain acc -> plain (digits_aux fuel n acc).
Proof.
  revert n acc. induction fuel as [|fuel IH]; intros n acc H; simpl.
  - exact H.
  - destruct (n <? 10).
    + constructor; [apply plain_digit | exact H].
    + apply IH. constructor; [apply plain_digit | exact H].
Qed.

Lemma plain_digits (n : Z) : plain (digits n).
Proof. apply plain_digits_aux. constructor. Qed.

Lemma plain_zeros (n : Z) : plain (zeros n).
Proof.
  unfold zeros. apply Forall_forall. intros c H.
  apply repeat_spec in H. now subst.
Qed.

Lemma plain_app (a b : jsstring) : plain a -> plain b -> plain (a ++ b).
Proof. intros. apply Forall_app. now split. Qed.

Lemma plain_firstn (n : nat) (s : jsstring) : plain s -> plain (firstn n s).
Proof.
  intros H. rewrite <- (firstn_skipn n s) in H.
  now apply Forall_app in H.
Qed.

Lemma plain_skipn (n : nat) (s : jsstring) : plain s -> plain (skipn n s).
Proof.
  intros H. rewrite <- (firstn_skipn n s) in H.
  now apply Forall_app in H.
Qed.

Lemma plain_literal (s : jsstring) :
  forallb (fun c => negb (isHtmlSpecial c)) s = true -> plain s.
Proof.
  intros H. apply Forall_forall. intros c Hc.
  rewrite forallb_forall in H. specialize (H c Hc).
  now destruct (isHtmlSpecial c).
Qed.

Lemma plain_layout (ds : jsstring) (n k : Z) : plain ds -> plain (layout ds n k).
Proof.
  intros H. unfold layout.
  repeat match goal with
         | |- plain (if ?b then _ else _) => destruct b
         | |- plain (_ ++ _) => apply plain_app
         | |- plain (firstn _ _) => apply plain_firstn
         | |- plain (skipn _ _) => apply plain_skipn
         | |- plain (zeros _) => apply plain_zeros
         | |- plain (digits _) => apply plain_digits
         | |- plain (js _) => apply plain_literal; reflexivity
         | |- plain ds => exact H
         end.
Qed.

Lemma plain_toString_pos (m e : Z) : plain (toString_pos m e).
Proof.
  unfold toString_pos.
  destruct (shortest _ _ _ _ _) as [[s n] k].
  apply plain_layout, plain_digits.
Qed.

Lemma plain_toString (x : number) : plain (toString x).
Proof.
  destruct x as [sg | sg | | sg m e]; try destruct sg;
    try (apply plain_literal; reflexivity).
  - apply plain_app; [apply plain_literal; reflexivity | apply plain_toString_pos].
  - apply plain_toString_pos.
Qed.

Lemma escapeHtml_plain (s : jsstring) : plain s -> escapeHtml s = s.
Proof. intros H. apply escapeHtml_safe. now apply Forall_forall. Qed.

Lemma escapeHtml_toString (x : number) : escapeHtml (toString x) = toString x.
Proof. apply escapeHtml_plain, plain_toString. Qed.

End NumberFacts.

(** ** The renderers and the payment-request builder *)
Section BuilderFacts.
Import ShopierSDK Renderers Utils Validator Signature Config.

Lemma entries_random_nr (f : FormData) :
  In (js "random_nr", VNumber (random_nr f)) (Object_entries f).
Proof. unfold Object_entries. do 25 right. now left. Qed.

Lemma entries_platform_order_id (f : FormData) :
  In (js "platform_order_id", platform_order_id f) (Object_entries f).
Proof. unfold Object_entries. do 2 right. now left. Qed.

Lemma entries_signature (f : FormData) :
  In (js "signature", VString (signature f)) (Object_entries f).
Proof. unfold Object_entries. do 26 right. now left. Qed.

(** Every entry of the field set is rendered as a hidden input. *)
Lemma renderHiddenInputs_entry (f : FormData) (key : jsstring) (value : jsvalue) :
  In (key, value) (Object_entries f) ->
  occursIn (hiddenField (escapeHtml key) (escapeHtml (ToString value)))
           (renderHiddenInputs f).
Proof.
  intros H. apply occursIn_trans with (q := hiddenInput (key, value)).
  - unfold hiddenInput, hiddenField.
    exists (tpl "<input type=`hidden` "), (tpl " />").
    rewrite <- !app_assoc. reflexivity.
  - unfold renderHiddenInputs, lines. apply occursIn_join.
    now apply in_map.
Qed.

(** The page holds the hidden inputs. *)
Lemma renderAutoSubmitHTML_inputs
    (f : FormData) (url : jsstring) (language : option Language) :
  occursIn (renderHiddenInputs f) (renderAutoSubmitHTML f url language).
Proof.
  unfold renderAutoSubmitHTML.
  do 6 apply occursIn_app_r. apply occursIn_app_l, occursIn_refl.
Qed.

Lemma rendered_entry (f : FormData) (url key : jsstring)
    (language : option Language) (value : jsvalue) :
  In (key, value) (Object_entries f) ->
  includes (renderHiddenInputs f)
    (hiddenField (escapeHtml key) (escapeHtml (ToString value))) = true
  /\ includes (renderAutoSubmitHTML f url language)
       (hiddenField (escapeHtml key) (escapeHtml (ToString value))) = true.
Proof.
  intros H. pose proof (renderHiddenInputs_entry f key value H) as O.
  split; apply occursIn_includes; [exact O|].
  eapply occursIn_trans; [exact O | apply renderAutoSubmitHTML_inputs].
Qed.

Variable config : ResolvedConfig.

(** On valid options the builder returns the field set, with the nonce,
    the order id and the signature as steps 4 to 6 compute them. *)
Lemma buildFormData_valid (draw : Z) (options : PaymentOptions) :
  validateAmount (opt_amount options) = Return tt ->
  validateBuyer (opt_buyer options) = Return tt ->
  strict_eq (default (opt_maxInstallment options) zero) zero = true
  \/ validateInstallment (default (opt_maxInstallment options) zero) = Return tt ->
  exists f,
    buildFormData config draw options = Return f
    /\ random_nr f = default (opt_randomNr options) (generateRandomNumber draw)
    /\ platform_order_id f = resolveOrderId (opt_buyer options)
    /\ total_order_value f = opt_amount options
    /\ currency f = Currency_value (default (opt_currency options) TL)
    /\ signature f =
       generatePaymentSignature (apiSecret config) (random_nr f)
         (platform_order_id f) (total_order_value f) (currency f).
Proof.
  intros HA HB HI. unfold buildFormData. cbv zeta. rewrite HA, HB.
  cbn [bind].
  assert (E : (if negb (strict_eq (default (opt_maxInstallment options) zero) zero)
               then validateInstallment (default (opt_maxInstallment options) zero)
               else Return tt) = Return tt).
  { destruct HI as [-> | HI]; [reflexivity|].
    rewrite HI. now destruct (negb _). }
  rewrite E. cbn [bind].
  eexists. split; [reflexivity|]. repeat split.
Qed.

End BuilderFacts.

(** C6, as stated, fails: for a buyer whose id is [a&b] the field set
    holds that order id, and neither the hidden inputs nor the page
    holds it unchanged; they hold its escaped form. *)
Lemma createPayment_escapes_order_id :
  exists r,
    ShopierSDK.createPayment
      (Config.mkResolved (js "k") (js "s") TR (js "1.0.4") SITE_1) 0
      ampersand_options = Return r
    /\ platform_order_id (formData r) = VString (js "a&b")
    /\ includes (hiddenInputs r) (js "a&b") = false
    /\ includes (html r) (js "a&b") = false
    /\ includes (html r) (hiddenField (js "platform_order_id") (js "a&amp;b")) = true.
Proof. eexists. split; [vm_compute; reflexivity|]. vm_compute. repeat split. Qed.

(** C6, amended. For valid payment options with a nonce override [N]
    and resolved order id [O], [createPayment] puts [N] and [O]
    unchanged into the field set, which the plain-object rendering
    returns as it is; the hidden inputs and the auto-submit page hold
    the fields [random_nr], with the decimal rendering of [N] as value,
    and [platform_order_id], with the HTML-escaped rendering of [O] as
    value, which is [O] itself when [O] holds none of the five
    characters the escaping replaces. *)
Theorem createPayment_embeds_nonce_and_order
    (config : Config.ResolvedConfig) (draw : Z) (options : PaymentOptions)
    (N : number) :
  opt_randomNr options = Some N ->
  Validator.validateAmount (opt_amount options) = Return tt ->
  Validator.validateBuyer (opt_buyer options) = Return tt ->
  strict_eq (default (opt_maxInstallment options) zero) zero = true
  \/ Validator.validateInstallment
       (default (opt_maxInstallment options) zero) = Return tt ->
  let O := ShopierSDK.resolveOrderId (opt_buyer options) in
  exists r,
    ShopierSDK.createPayment config draw options = Return r
    /\ random_nr (formData r) = N
    /\ platform_order_id (formData r) = O
    /\ Renderers.getFormDataObject (formData r) None
       = mkFormDataResult (formData r) Renderers.SHOPIER_ACTION_URL
    /\ includes (hiddenInputs r) (hiddenField (js "random_nr") (toString N)) = true
    /\ includes (html r) (hiddenField (js "random_nr") (toString N)) = true
    /\ includes (hiddenInputs r)
         (hiddenField (js "platform_order_id") (Utils.escapeHtml (ToString O))) = true
    /\ includes (html r)
         (hiddenField (js "platform_order_id") (Utils.escapeHtml (ToString O))) = true
    /\ (plain (ToString O) -> Utils.escapeHtml (ToString O) = ToString O).
Proof.
  intros HN HA HB HI O.
  destruct (buildFormData_valid config draw options HA HB HI)
    as (f & E & Hn & Ho & _).
  rewrite HN in Hn. cbn [default] in Hn.
  unfold ShopierSDK.createPayment. rewrite E. cbn [bind].
  eexists. split; [reflexivity|]. cbn [formData hiddenInputs html].
  pose proof (rendered_entry f ShopierSDK.SHOPIER_ACTION_URL _
                (Some (default (opt_language options) (Config.language config)))
                _ (entries_random_nr f)) as [R1 R2].
  pose proof (rendered_entry f ShopierSDK.SHOPIER_ACTION_URL _
                (Some (default (opt_language options) (Config.language config)))
                _ (entries_platform_order_id f)) as [P1 P2].
  rewrite Hn in R1, R2. rewrite Ho in P1, P2. fold O in P1, P2.
  cbn [ToString] in R1, R2. rewrite escapeHtml_toString in R1, R2.
  repeat split; try assumption.
  apply escapeHtml_plain.
Qed.

(** C6, amended, on the payment of the end-to-end scenario 1. *)
Lemma createPayment_embeds_nonce_and_order_witness :
  let config := Config.mkResolved (js "k") (js "s") TR (js "1.0.4") SITE_1 in
  exists r,
    ShopierSDK.createPayment config 0 (scenario1_options None) = Return r
    /\ random_nr (formData r) = of_Z 123456
    /\ platform_order_id (formData r) = VString (js "b1")
    /\ Renderers.getFormDataObject (formData r) None
       = mkFormDataResult (formData r) Renderers.SHOPIER_ACTION_URL
    /\ includes (hiddenInputs r)
         (hiddenField (js "random_nr") (toString (of_Z 123456))) = true
    /\ includes (html r)
         (hiddenField (js "random_nr") (toString (of_Z 123456))) = true
    /\ includes (hiddenInputs r)
         (hiddenField (js "platform_order_id")
            (Utils.escapeHtml (ToString (VString (js "b1"))))) = true
    /\ includes (html r)
         (hiddenField (js "platform_order_id")
            (Utils.escapeHtml (ToString (VString (js "b1"))))) = true
    /\ (plain (ToString (VString (js "b1"))) ->
        Utils.escapeHtml (ToString (VString (js "b1"))) = ToString (VString (js "b1"))).
Proof.
  intros config.
  apply (createPayment_embeds_nonce_and_order config 0 (scenario1_options None)
           (of_Z 123456)).
  - reflexivity.
  - reflexivity.
  - reflexivity.
  - left. reflexivity.
Defined.

(** ** The end-to-end scenario 1 *)

Example amount_99_99_nearest :
  SFdiv prec emax (of_Z 9999) (of_Z 100) = amount_99_99.
Proof. vm_compute. reflexivity. Qed.

Example toString_99_99 : toString amount_99_99 = js "99.99".
Proof. vm_compute. reflexivity. Qed.

Example toString_samples :
  map toString
    [of_Z 123456; of_Z 0; of_Z (-15); of_Z (10 ^ 21); of_Z (2 ^ 53);
     SFdiv prec emax (of_Z 1) (of_Z 10);
     SFdiv prec emax (of_Z 1) (of_Z 10000000);
     S754_finite false 1 (-1074);
     S754_finite false 9007199254740991 971]
  = [js "123456"; js "0"; js "-15"; js "1e+21"; js "9007199254740992";
     js "0.1"; js "1e-7"; js "5e-324"; js "1.7976931348623157e+308"].
Proof. vm_compute. reflexivity. Qed.

Example scenario1_signature_value :
  Signature.generateSignature (js "s") (js "123456b199.990")
  = js "SB56QQ4jYc9+hgPhhCJgFtzepVY14Zashd2WbhBm86o=".
Proof. vm_compute. reflexivity. Qed.

(** C2. In the end-to-end scenario 1 (credentials [k] and [s], buyer
    [b1] without platform order id, amount 99.99, currency code 0 by
    default or given, nonce override 123456) the signature of the field
    set is [generateSignature] of the secret and [123456b199.990], the
    concatenation without separators of the nonce, the order id, the
    decimal rendering of the amount and the currency code; and the
    auto-submit page holds that signature inside a [value] attribute. *)
Theorem createPayment_scenario1
    (env : jsstring -> option jsstring) (draw : Z) :
  exists config,
    ShopierSDK.Shopier_new env (Some scenario1_config) = Return config
    /\ (forall currency, currency = None \/ currency = Some TL ->
        exists r,
          ShopierSDK.createPayment config draw (scenario1_options currency) = Return r
          /\ signature (formData r)
             = Signature.generateSignature (js "s") (js "123456b199.990")
          /\ includes (html r)
               (tpl "value=`" ++ signature (formData r) ++ tpl "`") = true)
    /\ toString (of_Z 123456) ++ ToString (VString (js "b1"))
         ++ toString amount_99_99 ++ toString (Currency_value TL)
       = js "123456b199.990"
    /\ (forall secret randomNr orderId amount currency,
        Signature.generatePaymentSignature secret randomNr orderId amount currency
        = Signature.generateSignature secret
            (toString randomNr ++ ToString orderId
             ++ toString amount ++ toString currency)).
Proof.
  eexists. split; [vm_compute; reflexivity|].
  split; [|split; [vm_compute; reflexivity | reflexivity]].
  intros currency [-> | ->];
    (eexists; split; [vm_compute; reflexivity|]);
    split; vm_compute; reflexivity.
Qed.

(** C2 with the currency left to its default and with the currency
    given as TL. *)
Lemma createPayment_scenario1_witness :
  exists config,
    ShopierSDK.Shopier_new (fun _ => None) (Some scenario1_config) = Return config
    /\ (exists r,
          ShopierSDK.createPayment config 0 (scenario1_options None) = Return r
          /\ signature (formData r)
             = Signature.generateSignature (js "s") (js "123456b199.990")
          /\ includes (html r)
               (tpl "value=`" ++ signature (formData r) ++ tpl "`") = true)
    /\ (exists r,
          ShopierSDK.createPayment config 0 (scenario1_options (Some TL)) = Return r
          /\ signature (formData r)
             = Signature.generateSignature (js "s") (js "123456b199.990")
          /\ includes (html r)
               (tpl "value=`" ++ signature (formData r) ++ tpl "`") = true).
Proof.
  destruct (createPayment_scenario1 (fun _ => None) 0) as (config & E & H & _).
  exists config. split; [exact E|].
  split; apply H; [left | right]; reflexivity.
Defined.

(** ** The embedding on sample inputs *)

Example K256_ends : hd 0 Crypto.K256 = 0x428a2f98 /\ last Crypto.K256 0 = 0xc67178f2.
Proof. split; reflexivity. Qed.

Example utf8_samples :
  utf8 [0x48; 0xE9; 0x20AC; 0xD83D; 0xDE00; 0xD800; 0x41]
  = [72; 195; 169; 226; 130; 172; 240; 159; 152; 128; 239; 191; 189; 65].
Proof. reflexivity. Qed.

Example trim_samples :
  map trim [js "  a b  "; [0xFEFF; 10] ++ js "x" ++ [0xA0; 9]; js "   "]
  = [js "a b"; js "x"; []].
Proof. reflexivity. Qed.

Example validateAmount_samples :
  map (fun a => match Validator.validateAmount a with
                | Return _ => true
                | Throw _ => false
                end)
      [amount_99_99; of_Z 1; zero; S754_zero true; of_Z (-5); NaN;
       S754_infinity false; S754_infinity true]
  = [true; true; false; false; false; false; false; false].
Proof. vm_compute. reflexivity. Qed.

Example validateInstallment_samples :
  map (fun a => match Validator.validateInstallment a with
                | Return _ => true
                | Throw _ => false
                end)
      [zero; of_Z 1; of_Z 12; of_Z 13; of_Z (-1);
       SFdiv prec emax (of_Z 3) (of_Z 2); NaN; S754_infinity false]
  = [true; true; true; false; false; false; false; false].
Proof. vm_compute. reflexivity. Qed.

Example validateEmail_samples :
  map (fun s => Validator.validateEmail (VString (js s)))
      ["a@example.com"; " a@b.c "; "a@b.c.d"; "a@b"; "a b@c.d"; "a@@b.c";
       "@b.c"; "a@b."; ""]%string
  = [true; true; true; false; false; false; false; false; false].
Proof. vm_compute. reflexivity. Qed.

Example validatePhone_samples :
  map (fun s => Validator.validatePhone (VString (js s)))
      ["05551234567"; "+90 (555) 123-45-67"; "1234567"; "123456789012345";
       "123456"; "1234567890123456"; "555-CALL"; ""]%string
  = [true; true; true; true; false; false; false; false].
Proof. vm_compute. reflexivity. Qed.

Example parseInt10_samples :
  map (fun s => toString (parseInt10 (js s)))
      ["3"; " 12abc"; "abc"; "-0"; "+7"; "-15.5"; "0x10"; "";
       "99999999999999999999999"]%string
  = [js "3"; js "12"; js "NaN"; js "0"; js "7"; js "-15"; js "0"; js "NaN";
     js "1e+23"].
Proof. vm_compute. reflexivity. Qed.

Example generateRandomNumber_range :
  map (fun d => toString (Utils.generateRandomNumber d)) [0; 899999; 900000; -1]
  = [js "100000"; js "999999"; js "100000"; js "999999"].
Proof. vm_compute. reflexivity. Qed.

(* ================================================================== *)
(** * Part III: further properties of the code                         *)
(* ================================================================== *)

(** ** The escaping utility, continued *)
Section EscapeLaws.
Import Utils.

Lemma escape_unit_length (c : Z) :
  (length (if isHtmlSpecial c then replacer c else [c]) >= 1)%nat
  /\ (isHtmlSpecial c = true ->
      (length (if isHtmlSpecial c then replacer c else [c]) >= 4)%nat).
Proof.
  destruct (isHtmlSpecial c) eqn:E.
  - apply isHtmlSpecial_cases in E.
    destruct E as [-> | [-> | [-> | [-> | ->]]]]; split; intros; simpl; lia.
  - split; [simpl; lia | discriminate].
Qed.

Lemma escapeHtml_length_ge (s : jsstring) :
  (length s <= length (escapeHtml s))%nat.
Proof.
  induction s as [|c s IH]; [simpl; lia|].
  rewrite escapeHtml_cons, length_app. cbn [length].
  pose proof (proj1 (escape_unit_length c)). lia.
Qed.

Lemma escapeHtml_length_special (s : jsstring) (c : Z) :
  In c s -> isHtmlSpecial c = true ->
  (length s + 3 <= length (escapeHtml s))%nat.
Proof.
  induction s as [|d s IH]; intros Hin Hc; [now elim Hin|].
  rewrite escapeHtml_cons, length_app. cbn [length].
  destruct Hin as [-> | Hin].
  - pose proof (proj2 (escape_unit_length c) Hc).
    pose proof (escapeHtml_length_ge s). lia.
  - pose proof (proj1 (escape_unit_length d)).
    specialize (IH Hin Hc). lia.
Qed.

(** The image of a code unit starts with the unit itself when it is
    kept, and with an ampersand followed by a letter that tells the
    entities apart when it is replaced. *)
Lemma escape_unit_head (c : Z) :
  match (if isHtmlSpecial c then replacer c else [c]) with
  | [] => False
  | x :: r =>
    if isHtmlSpecial c
    then x = 38 /\ exists y t, r = y :: t /\
           (y = 97 /\ c = 38 \/ y = 108 /\ c = 60 \/ y = 103 /\ c = 62
            \/ y = 113 /\ c = 34 \/ y = 35 /\ c = 39)
    else x = c /\ r = []
  end.
Proof.
  destruct (isHtmlSpecial c) eqn:E.
  - apply isHtmlSpecial_cases in E.
    destruct E as [-> | [-> | [-> | [-> | ->]]]]; cbn;
      (split; [reflexivity | eexists _, _; split; [reflexivity | tauto]]).
  - split; reflexivity.
Qed.

Lemma escapeHtml_nil_inv (s : jsstring) : escapeHtml s = [] -> s = [].
Proof.
  intros H. pose proof (escapeHtml_length_ge s) as L. rewrite H in L.
  destruct s; [reflexivity | simpl in L; lia].
Qed.

End EscapeLaws.

(** X1. Escaping loses nothing: two strings with the same escaped form
    are the same string. *)
Theorem escapeHtml_injective (a b : jsstring) :
  Utils.escapeHtml a = Utils.escapeHtml b -> a = b.
Proof.
  revert b. induction a as [|c a IH]; intros b H.
  - symmetry. apply escapeHtml_nil_inv. now rewrite <- H.
  - destruct b as [|d b].
    + apply escapeHtml_nil_inv in H. discriminate H.
    + rewrite !escapeHtml_cons in H.
      pose proof (escape_unit_head c) as Hc.
      pose proof (escape_unit_head d) as Hd.
      destruct (if Utils.isHtmlSpecial c then Utils.replacer c else [c])
        as [|x r] eqn:Ec; [now elim Hc|].
      destruct (if Utils.isHtmlSpecial d then Utils.replacer d else [d])
        as [|y t] eqn:Ed; [now elim Hd|].
      destruct (Utils.isHtmlSpecial c) eqn:Sc, (Utils.isHtmlSpecial d) eqn:Sd.
      * destruct Hc as (-> & y1 & t1 & -> & Hc).
        destruct Hd as (-> & y2 & t2 & -> & Hd).
        rewrite Ec, Ed in H. cbn [app] in H. injection H as Hy Ht. subst y2.
        assert (c = d) as ->.
        { destruct Hc as [[? ?] | [[? ?] | [[? ?] | [[? ?] | [? ?]]]]];
          destruct Hd as [[? ?] | [[? ?] | [[? ?] | [[? ?] | [? ?]]]]];
          subst; first [reflexivity | discriminate]. }
        rewrite Ec in Ed. injection Ed as <-.
        apply app_inv_head in Ht. f_equal. now apply IH.
      * destruct Hc as (-> & _).
        rewrite Ec in H. cbn [app] in H. injection H as E _.
        subst d. discriminate Sd.
      * destruct Hd as (-> & _).
        rewrite Ed in H. cbn [app] in H. injection H as E _.
        subst c. discriminate Sc.
      * cbn [app] in H. injection H as -> H. f_equal. now apply IH.
Qed.

(** X1 on two spellings of one text. *)
Lemma escapeHtml_injective_witness : js "a&b" = [97; 38] ++ js "b".
Proof. apply escapeHtml_injective. reflexivity. Defined.

(** X2. Escaping never shortens a text: the lengths agree exactly when
    the input has none of the five characters, and each of them adds at
    least three code units. *)
Theorem escapeHtml_length (s : jsstring) :
  (length s <= length (Utils.escapeHtml s))%nat
  /\ (length (Utils.escapeHtml s) = length s <->
      forall c, In c s -> Utils.isHtmlSpecial c = false)
  /\ (forall c, In c s -> Utils.isHtmlSpecial c = true ->
      (length s + 3 <= length (Utils.escapeHtml s))%nat).
Proof.
  split; [apply escapeHtml_length_ge|]. split.
  - split.
    + intros H c Hc. destruct (Utils.isHtmlSpecial c) eqn:E; [|reflexivity].
      pose proof (escapeHtml_length_special s c Hc E). lia.
    + intros H. now rewrite escapeHtml_safe.
  - apply escapeHtml_length_special.
Qed.

(** X2 on a text with one quote. *)
Lemma escapeHtml_length_witness :
  (length (js "it's") + 3 <= length (Utils.escapeHtml (js "it's")))%nat.
Proof.
  apply (proj2 (proj2 (escapeHtml_length (js "it's"))) 39).
  - simpl. tauto.
  - reflexivity.
Defined.

(** ** The markup of the rendered outputs *)
Section MarkupLaws.
Import Utils Renderers Button.

Lemma markup_app (a b : jsstring) : markup (a ++ b) = markup a ++ markup b.
Proof. apply filter_app. Qed.

Lemma markup_none (s : jsstring) :
  (forall c, In c s -> c <> 60 /\ c <> 62 /\ c <> 34 /\ c <> 39) -> markup s = [].
Proof.
  induction s as [|c s IH]; intros H; [reflexivity|].
  unfold markup in *. cbn [filter].
  destruct (H c (or_introl eq_refl)) as (H1 & H2 & H3 & H4).
  unfold isMarkup at 1. cbn [existsb].
  rewrite !(proj2 (Z.eqb_neq c _)) by assumption. cbn [orb].
  apply IH. intros d Hd. apply H. now right.
Qed.

Lemma markup_escapeHtml (s : jsstring) : markup (escapeHtml s) = [].
Proof. apply markup_none. apply escapeHtml_no_markup. Qed.

Lemma markup_join (sep : jsstring) (l : list jsstring) :
  markup sep = [] -> markup (join sep l) = concat (map markup l).
Proof.
  intros Hs. induction l as [|x l IH]; [reflexivity|].
  destruct l as [|y l].
  - cbn. now rewrite app_nil_r.
  - change (join sep (x :: y :: l)) with (x ++ sep ++ join sep (y :: l)).
    rewrite !markup_app, Hs, IH. reflexivity.
Qed.

Lemma markup_hiddenInput (entry : jsstring * jsvalue) :
  markup (hiddenInput entry) = tpl "<``````>".
Proof.
  destruct entry as [key value]. unfold hiddenInput.
  rewrite !markup_app, !markup_escapeHtml. reflexivity.
Qed.

Lemma markup_inputs (l : list (jsstring * jsvalue)) :
  concat (map markup (map hiddenInput l)) = concat (repeat (tpl "<``````>") (length l)).
Proof.
  induction l as [|e l IH]; [reflexivity|].
  cbn [map concat length repeat]. now rewrite markup_hiddenInput, IH.
Qed.

Lemma markup_renderHiddenInputs (f : FormData) :
  markup (renderHiddenInputs f) = concat (repeat (tpl "<``````>") 27).
Proof.
  unfold renderHiddenInputs, lines.
  rewrite markup_join by reflexivity. apply markup_inputs.
Qed.

Lemma markup_loadingMessage (l : Language) : markup (escapeHtml (loadingMessage l)) = [].
Proof. apply markup_escapeHtml. Qed.

Lemma markup_ifGiven_text (v : option jsstring) (d : jsstring) :
  markup d = [] -> markup (ifGiven v escapeHtml d) = [].
Proof.
  intros Hd. unfold ifGiven. destruct v as [s|]; [|exact Hd].
  destruct (JsString.truthy s); [apply markup_escapeHtml | exact Hd].
Qed.

End MarkupLaws.

(** X3. Whatever the field set holds, the markup characters of the
    hidden inputs (the angle brackets and the two quotes) are those of
    27 input tags, each one opening bracket, six double quotes and one
    closing bracket: no field value opens or closes a tag or an
    attribute. *)
Theorem renderHiddenInputs_markup (f : FormData) :
  markup (Renderers.renderHiddenInputs f) = concat (repeat (tpl "<``````>") 27)
  /\ count_occ Z.eq_dec (Renderers.renderHiddenInputs f) 60 = 27%nat
  /\ count_occ Z.eq_dec (Renderers.renderHiddenInputs f) 39 = 0%nat.
Proof.
  pose proof (markup_renderHiddenInputs f) as M.
  assert (C : forall c, isMarkup c = true ->
            count_occ Z.eq_dec (Renderers.renderHiddenInputs f) c
            = count_occ Z.eq_dec (markup (Renderers.renderHiddenInputs f)) c).
  { intros c Hc. generalize (Renderers.renderHiddenInputs f) as s.
    induction s as [|d s IH]; [reflexivity|].
    unfold markup in *. cbn [filter count_occ].
    destruct (Z.eq_dec d c) as [->|N].
    - rewrite Hc. cbn [count_occ]. destruct (Z.eq_dec c c); [|congruence].
      now rewrite IH.
    - destruct (isMarkup d); [|exact IH]. cbn [count_occ].
      destruct (Z.eq_dec d c); [congruence | exact IH]. }
  split; [exact M|].
  split; rewrite C by reflexivity; rewrite M; reflexivity.
Qed.

(** X4. The markup characters of the auto-submit page do not depend on
    the field set, on the action URL or on the language: two pages
    always have the same ones, in the same order. *)
Theorem renderAutoSubmitHTML_markup
    (f g : FormData) (url url' : jsstring) (l l' : option Language) :
  markup (Renderers.renderAutoSubmitHTML f url l)
  = markup (Renderers.renderAutoSubmitHTML g url' l').
Proof.
  unfold Renderers.renderAutoSubmitHTML. cbv zeta.
  rewrite !markup_app, !markup_escapeHtml, !markup_renderHiddenInputs.
  reflexivity.
Qed.

(** X5. The button fragment holds the hidden inputs of its field set,
    and its markup characters depend on nothing but whether an inline
    style is given: the label, the class, the style text, the action
    URL and the field values never open or close a tag or an
    attribute. *)
Theorem renderButton_markup
    (f g : FormData) (url url' : jsstring) (o o' : option Button.ButtonOptions) :
  occursIn (Renderers.renderHiddenInputs f) (Button.renderButton f url o)
  /\ (styleGiven o = styleGiven o' ->
      markup (Button.renderButton f url o) = markup (Button.renderButton g url' o')).
Proof.
  split.
  - unfold Button.renderButton. cbv zeta.
    do 6 apply occursIn_app_r. apply occursIn_app_l, occursIn_refl.
  - intros S. unfold Button.renderButton. cbv zeta.
    rewrite !markup_app, !markup_escapeHtml, !markup_renderHiddenInputs.
    rewrite !(markup_ifGiven_text _ (Button.DEFAULT_BUTTON_TEXT _))
      by (destruct (strict_eq _ _); reflexivity).
    assert (C : forall v,
              markup (Button.ifGiven v
                        (fun c => js "shopier-button " ++ Utils.escapeHtml c)
                        (js "shopier-button")) = []).
    { intros [s|]; [|reflexivity]. unfold Button.ifGiven.
      destruct (JsString.truthy s); [|reflexivity].
      now rewrite markup_app, markup_escapeHtml. }
    rewrite !C.
    assert (St : forall v,
              markup (Button.ifGiven v
                        (fun s => tpl " style=`" ++ Utils.escapeHtml s ++ tpl "`") [])
              = if Button.ifGiven v (fun _ => true) false then tpl "``" else []).
    { intros [s|]; [|reflexivity]. unfold Button.ifGiven.
      destruct (JsString.truthy s); [|reflexivity].
      now rewrite !markup_app, markup_escapeHtml. }
    rewrite !St. unfold styleGiven in S. rewrite S. reflexivity.
Qed.

(** X5 on a label and a class that try to close the tag. *)
Lemma renderButton_markup_witness :
  let f := Types.mkFormData [] zero VNull VNull zero VNull VNull VNull zero VNull
             VNull [] [] [] [] [] [] [] [] zero zero zero zero zero [] zero [] in
  markup (Button.renderButton f (js "https://x/?a=1&b=<2>")
            (Some (Button.mkButtonOptions (Some (js "</button><script>"))
                                          (Some (js "x' onclick='y")) None)))
  = markup (Button.renderButton f [] None).
Proof.
  intros f.
  apply (proj2 (renderButton_markup f f _ _ _ _)). reflexivity.
Defined.

(** ** The signature as a text *)
Section SignatureText.
Import Crypto Signature.

Lemma base64_Forall (P : Z -> Prop) :
  (forall i, P (b64_char i)) -> P 61 -> forall l, Forall P (base64 l).
Proof.
  intros Hc Hp.
  assert (G : forall n l, (length l <= n)%nat -> Forall P (base64 l)).
  { induction n as [|n IH]; intros l Hl.
    - destruct l; [constructor | simpl in Hl; lia].
    - destruct l as [|a [|b [|c r]]]; cbn [base64].
      + constructor.
      + repeat constructor; auto.
      + repeat constructor; auto.
      + apply Forall_app. split; [repeat constructor; auto|].
        apply IH. simpl in Hl. lia. }
  intros l. now apply (G (length l)).
Qed.

Lemma b64_char_Forall (P : Z -> Prop) (i : Z) :
  Forall P b64_alphabet -> P 0 -> P (b64_char i).
Proof.
  intros Ha H0. unfold b64_char.
  destruct (nth_in_or_default (Z.to_nat i) b64_alphabet 0) as [H | ->];
    [|exact H0].
  rewrite Forall_forall in Ha. now apply Ha.
Qed.

Lemma generateSignature_ascii (secret data : jsstring) :
  ascii7 (generateSignature secret data).
Proof.
  apply base64_Forall; [|lia].
  intros i. apply b64_char_Forall; [|lia].
  apply Forall_forall. intros c Hc. vm_compute in Hc.
  repeat (destruct Hc as [<- | Hc]; [lia|]). now elim Hc.
Qed.

Lemma generateSignature_plain (secret data : jsstring) :
  plain (generateSignature secret data).
Proof.
  apply base64_Forall; [|reflexivity].
  intros i. apply b64_char_Forall; [|reflexivity].
  apply plain_literal. reflexivity.
Qed.

Lemma generateSignature_length (secret data : jsstring) :
  length (generateSignature secret data) = 44%nat.
Proof.
  unfold generateSignature.
  pose proof (hmac_sha256_length (utf8 secret) (utf8 data)) as H.
  destruct (hmac_sha256 (utf8 secret) (utf8 data)) as [|? l]; [discriminate H|].
  do 31 (destruct l as [|? l]; [discriminate H|]).
  destruct l; [reflexivity | discriminate H].
Qed.

(** *** UTF-8 on ASCII texts *)

Lemma lor_not_ascii (K x : Z) :
  Z.testbit K 7 = true -> 0 <= K -> 0 <= x -> ~ (0 <= Z.lor K x < 128).
Proof.
  intros HK K0 X0 [L U].
  assert (T : Z.testbit (Z.lor K x) 7 = true)
    by (rewrite Z.lor_spec, HK; reflexivity).
  rewrite Z.bits_above_log2 in T; [discriminate T | exact L |].
  destruct (Z.eq_dec (Z.lor K x) 0) as [-> | N]; [reflexivity|].
  apply Z.log2_lt_pow2; lia.
Qed.

Lemma utf8_of_codepoint_ascii (cp e0 : Z) (e' : list Z) :
  0 <= cp -> 0 <= e0 < 128 ->
  utf8_of_codepoint cp = e0 :: e' -> cp = e0 /\ e' = [] /\ cp < 128.
Proof.
  intros C0 He. unfold utf8_of_codepoint.
  destruct (Z.ltb_spec cp 128) as [L|L]; [intros [= -> <-]; auto|].
  destruct (cp <? 2048); [|destruct (cp <? 65536)];
    match goal with
    | |- Z.lor ?K ?x :: _ = _ -> _ =>
      intros H; assert (E : Z.lor K x = e0) by congruence;
      exfalso; apply (lor_not_ascii K x);
      [reflexivity | lia | apply Z.shiftr_nonneg; lia | rewrite E; exact He]
    end.
Qed.

Lemma utf8_cons_ascii (c : Z) (rest : jsstring) (e : list Z) :
  ascii7 e -> utf8 (c :: rest) = e ->
  exists e', e = c :: e' /\ utf8 rest = e'.
Proof.
  intros He.
  assert (R : forall t, replacement ++ t <> e).
  { intros t E. subst e. apply Forall_inv in He. lia. }
  intros H. cbn [utf8] in H.
  destruct (isHighSurrogate c) eqn:Hh.
  - unfold isHighSurrogate in Hh. apply andb_true_iff in Hh as [H1 H2].
    apply Z.leb_le in H1, H2.
    destruct rest as [|d rest']; [now elim (R [])|].
    destruct (isLowSurrogate d) eqn:Hl; [|now elim (R _ H)].
    unfold isLowSurrogate in Hl. apply andb_true_iff in Hl as [H3 H4].
    apply Z.leb_le in H3, H4.
    assert (S : 0 <= Z.shiftl (c - 55296) 10) by (apply Z.shiftl_nonneg; lia).
    destruct (utf8_of_codepoint _) as [|b bs] eqn:U in H.
    + unfold utf8_of_codepoint in U. repeat destruct (_ <? _) in U; discriminate U.
    + cbn [app] in H. subst e. apply Forall_inv in He.
      assert (C0 : 0 <= 65536 + Z.shiftl (c - 55296) 10 + (d - 56320)) by lia.
      destruct (utf8_of_codepoint_ascii _ b bs C0 He U) as (_ & _ & B).
      lia.
  - destruct (isLowSurrogate c) eqn:Hl; [now elim (R _ H)|].
    destruct (Z.ltb_spec c 0) as [N|N].
    + unfold utf8_of_codepoint in H.
      rewrite (proj2 (Z.ltb_lt c 128)) in H by lia.
      exists (utf8 rest). now rewrite <- H.
    + destruct (utf8_of_codepoint c) as [|b bs] eqn:U in H.
      * unfold utf8_of_codepoint in U. repeat destruct (_ <? _) in U; discriminate U.
      * cbn [app] in H. subst e. pose proof (Forall_inv He) as Hb.
        destruct (utf8_of_codepoint_ascii c b bs N Hb U) as (-> & -> & _).
        now exists (utf8 rest).
Qed.

Lemma utf8_ascii_inv (c : jsstring) (e : list Z) :
  ascii7 e -> utf8 c = e -> c = e.
Proof.
  revert e. induction c as [|c0 rest IH]; intros e He H.
  - now rewrite <- H.
  - destruct (utf8_cons_ascii c0 rest e He H) as (e' & -> & H').
    f_equal. apply IH; [now apply Forall_inv_tail in He | exact H'].
Qed.

Lemma utf8_ascii (e : jsstring) : ascii7 e -> utf8 e = e.
Proof.
  induction 1 as [|c e Hc _ IH]; [reflexivity|].
  cbn [utf8]. unfold isHighSurrogate, isLowSurrogate, utf8_of_codepoint.
  rewrite (proj2 (Z.leb_gt 55296 c)), (proj2 (Z.leb_gt 56320 c)) by lia.
  rewrite (proj2 (Z.ltb_lt c 128)) by lia. cbn [andb app]. now rewrite IH.
Qed.

End SignatureText.

Lemma verifySignature_generated (secret data : jsstring) :
  Signature.verifySignature secret data (Signature.generateSignature secret data)
  = Return true.
Proof. rewrite verifySignature_eq. f_equal. apply eqb_refl. Qed.

(** X6. [verifySignature] accepts exactly one string: it returns true
    if and only if the candidate is, code unit for code unit, the
    string [generateSignature] returns for the secret and the data. *)
Theorem verifySignature_exact (secret data candidate : jsstring) :
  Signature.verifySignature secret data candidate = Return true
  <-> candidate = Signature.generateSignature secret data.
Proof.
  rewrite verifySignature_eq.
  pose proof (generateSignature_ascii secret data) as A.
  rewrite (utf8_ascii _ A).
  revert A. generalize (Signature.generateSignature secret data) as expected.
  intros expected A. split.
  - intros H.
    assert (E : JsString.eqb expected (utf8 candidate) = true) by congruence.
    apply eqb_eq in E. symmetry in E.
    now apply utf8_ascii_inv in E.
  - intros ->. rewrite (utf8_ascii _ A), eqb_refl. reflexivity.
Qed.

(** X6 on the signature of the end-to-end scenario 2. *)
Lemma verifySignature_exact_witness :
  Signature.verifySignature (js "s") (js "123456b1")
    (js "NK2zhE0OLwXfFe9q8tmmPda2nH32AlPdUpfQar+qLx8=") = Return true.
Proof. apply verifySignature_exact. vm_compute. reflexivity. Defined.

(** X7. A signature is a text of 44 ASCII code units with none of the
    five characters the escaping replaces, so escaping leaves it
    unchanged. *)
Theorem generateSignature_shape (secret data : jsstring) :
  length (Signature.generateSignature secret data) = 44%nat
  /\ ascii7 (Signature.generateSignature secret data)
  /\ plain (Signature.generateSignature secret data)
  /\ Utils.escapeHtml (Signature.generateSignature secret data)
     = Signature.generateSignature secret data.
Proof.
  split; [apply generateSignature_length|].
  split; [apply generateSignature_ascii|].
  split; [apply generateSignature_plain|].
  apply escapeHtml_plain, generateSignature_plain.
Qed.

(** X8. Signing and verifying a callback compose: a notification that
    carries [generateCallbackSignature] of the instance's secret, its
    [random_nr] and its [platform_order_id] is accepted and decoded,
    whatever its other fields are; so is one signed through the
    instance's own [generateSignature]. *)
Theorem verifyCallback_roundtrip
    (config : Config.ResolvedConfig)
    (random_nr order_id payment_id installment status : jsstring) :
  ShopierSDK.verifyCallback config
    (mkBody random_nr order_id payment_id installment status
       (Signature.generateCallbackSignature (Config.apiSecret config)
          random_nr order_id))
  = Return (mkResult (JsString.eqb status (js "success")) order_id payment_id
              (or_zero (parseInt10 installment)) order_id status)
  /\ ShopierSDK.verifyCallback config
       (mkBody random_nr order_id payment_id installment status
          (ShopierSDK.Shopier_generateSignature config (random_nr ++ order_id)))
     = Return (mkResult (JsString.eqb status (js "success")) order_id payment_id
                 (or_zero (parseInt10 installment)) order_id status).
Proof.
  split; apply verifyCallback_accept;
    cbv [cb_random_nr cb_platform_order_id cb_signature
         Signature.generateCallbackSignature ShopierSDK.Shopier_generateSignature];
    apply verifySignature_generated.
Qed.

(** ** The payment-request builder, continued *)
Section BuilderLaws.
Import ShopierSDK Validator Signature Config Renderers.
Variable config : ResolvedConfig.

(** The three checks of [buildFormData], in their order. *)
Lemma buildFormData_checks (draw : Z) (options : PaymentOptions) :
  buildFormData config draw options =
  match validateAmount (opt_amount options) with
  | Throw e => Throw e
  | Return _ =>
    match validateBuyer (opt_buyer options) with
    | Throw e => Throw e
    | Return _ =>
      match (if negb (strict_eq (default (opt_maxInstallment options) zero) zero)
             then validateInstallment (default (opt_maxInstallment options) zero)
             else Return tt) with
      | Throw e => Throw e
      | Return _ => buildFormData config draw options
      end
    end
  end.
Proof.
  unfold buildFormData. cbv zeta.
  destruct (validateAmount _); [|reflexivity]. cbn [bind].
  destruct (validateBuyer _); [|reflexivity]. cbn [bind].
  destruct (if negb _ then _ else _); reflexivity.
Qed.

Lemma createPayment_build (draw : Z) (options : PaymentOptions) :
  createPayment config draw options =
  match buildFormData config draw options with
  | Return f =>
    Return (mkPaymentResult
      (renderAutoSubmitHTML f ShopierSDK.SHOPIER_ACTION_URL
         (Some (default (opt_language options) (language config))))
      f ShopierSDK.SHOPIER_ACTION_URL (renderHiddenInputs f))
  | Throw e => Throw e
  end.
Proof. unfold createPayment. destruct (buildFormData _ _ _); reflexivity. Qed.

(** The field set of valid options, in full. *)
Lemma buildFormData_fields (draw : Z) (options : PaymentOptions) :
  validateAmount (opt_amount options) = Return tt ->
  validateBuyer (opt_buyer options) = Return tt ->
  strict_eq (default (opt_maxInstallment options) zero) zero = true
  \/ validateInstallment (default (opt_maxInstallment options) zero) = Return tt ->
  let buyer := opt_buyer options in
  let billingAddr := default (opt_billing options) emptyAddress in
  let shippingAddr :=
    match opt_shipping options with
    | Some a => a
    | None => default (opt_billing options) emptyAddress
    end in
  let randomNr := default (opt_randomNr options) (Utils.generateRandomNumber draw) in
  let currency := Currency_value (default (opt_currency options) TL) in
  buildFormData config draw options =
  Return (mkFormData
    (apiKey config)
    (WebsiteIndex_value (default (opt_websiteIndex options) (websiteIndex config)))
    (resolveOrderId buyer) (productName buyer)
    (ProductType_value
       (default (Types.productType buyer)
                (default (opt_productType options) REAL_OBJECT)))
    (firstName buyer) (lastName buyer) (email buyer)
    (default (accountAge buyer) zero) (id buyer) (phone buyer)
    (address billingAddr) (city billingAddr)
    (country billingAddr) (postcode billingAddr)
    (address shippingAddr) (city shippingAddr)
    (country shippingAddr) (postcode shippingAddr)
    (opt_amount options) currency
    (default (opt_maxInstallment options) zero)
    (PlatformType_value
       (if default (opt_isInFrame options) false then IN_FRAME
        else default (opt_platformType options) NOT_IN_FRAME))
    (Language_value (default (opt_language options) (language config)))
    (moduleVersion config) randomNr
    (generatePaymentSignature (apiSecret config) randomNr (resolveOrderId buyer)
       (opt_amount options) currency)).
Proof.
  intros HA HB HI. cbv zeta. unfold buildFormData. cbv zeta.
  rewrite HA, HB. cbn [bind].
  assert (E : (if negb (strict_eq (default (opt_maxInstallment options) zero) zero)
               then validateInstallment (default (opt_maxInstallment options) zero)
               else Return tt) = Return tt).
  { destruct HI as [-> | HI]; [reflexivity|].
    rewrite HI. now destruct (negb _). }
  rewrite E. reflexivity.
Qed.

(** A field set is returned only when the three checks pass. *)
Lemma buildFormData_returns (draw : Z) (options : PaymentOptions) (f : FormData) :
  buildFormData config draw options = Return f ->
  validateAmount (opt_amount options) = Return tt
  /\ validateBuyer (opt_buyer options) = Return tt
  /\ (strict_eq (default (opt_maxInstallment options) zero) zero = true
      \/ validateInstallment (default (opt_maxInstallment options) zero) = Return tt).
Proof.
  rewrite buildFormData_checks. intros H.
  destruct (validateAmount _) as [[]|]; [|discriminate H].
  destruct (validateBuyer _) as [[]|]; [|discriminate H].
  repeat split.
  destruct (strict_eq _ _); [now left|]. right. cbn [negb] in H.
  destruct (validateInstallment _) as [[]|]; [reflexivity | discriminate H].
Qed.

End BuilderLaws.

(** X9. [createPayment] returns a result exactly when the amount, the
    buyer and a non-zero installment count pass their checks; otherwise
    it throws the error of the first check that fails, in that order:
    a bad amount is reported whatever the buyer is, a bad buyer whatever
    the installment count is, and no field set is produced. *)
Theorem createPayment_validation
    (config : Config.ResolvedConfig) (draw : Z) (options : PaymentOptions) :
  let installments := default (opt_maxInstallment options) zero in
  ((exists r, ShopierSDK.createPayment config draw options = Return r)
   <-> Validator.validateAmount (opt_amount options) = Return tt
       /\ Validator.validateBuyer (opt_buyer options) = Return tt
       /\ (strict_eq installments zero = true
           \/ Validator.validateInstallment installments = Return tt))
  /\ (forall e, Validator.validateAmount (opt_amount options) = Throw e ->
      ShopierSDK.createPayment config draw options = Throw e)
  /\ (forall e, Validator.validateAmount (opt_amount options) = Return tt ->
      Validator.validateBuyer (opt_buyer options) = Throw e ->
      ShopierSDK.createPayment config draw options = Throw e)
  /\ (forall e, Validator.validateAmount (opt_amount options) = Return tt ->
      Validator.validateBuyer (opt_buyer options) = Return tt ->
      strict_eq installments zero = false ->
      Validator.validateInstallment installments = Throw e ->
      ShopierSDK.createPayment config draw options = Throw e).
Proof.
  intros installments. subst installments.
  rewrite createPayment_build, buildFormData_checks.
  split; [|split; [|split]].
  - split.
    + intros (r & H).
      destruct (Validator.validateAmount _) as [[]|]; [|discriminate H].
      destruct (Validator.validateBuyer _) as [[]|]; [|discriminate H].
      repeat split.
      destruct (strict_eq _ _); [now left|]. right. cbn [negb] in H.
      destruct (Validator.validateInstallment _) as [[]|]; [reflexivity | discriminate H].
    + intros (HA & HB & HI).
      rewrite (buildFormData_fields config draw options HA HB HI), HA, HB.
      destruct HI as [-> | HI]; cbn [negb]; [eauto|].
      rewrite HI. destruct (negb _); eauto.
  - intros e ->. reflexivity.
  - intros e -> ->. reflexivity.
  - intros e -> -> -> ->. reflexivity.
Qed.

(** X9 on a zero amount with a buyer that has no name: the amount is
    what is reported. *)
Lemma createPayment_validation_witness :
  ShopierSDK.createPayment
    (Config.mkResolved (js "k") (js "s") TR (js "1.0.4") SITE_1) 0
    (mkOptions zero
       (mkBuyer VUndefined None VNull None VUndefined VUndefined VUndefined
                VUndefined None)
       None None None (Some (of_Z 99)) None None None None None None)
  = Throw (Shopier (Errors.ValidationError
      (js "Amount must be a valid positive number")
      (Some [(js "field", VString (js "amount")); (js "value", VNumber zero)]))).
Proof.
  match goal with
  | |- ShopierSDK.createPayment ?c ?d ?o = _ =>
    apply (proj1 (proj2 (createPayment_validation c d o)))
  end.
  reflexivity.
Defined.

(** X10. The field set of a valid payment carries a signature that
    [verifySignature] accepts for the message its own fields spell
    (nonce, order id, amount, currency), and both HTML outputs hold
    that signature unchanged as the value of the field [signature]. *)
Theorem createPayment_signature_verifies
    (config : Config.ResolvedConfig) (draw : Z) (options : PaymentOptions) :
  Validator.validateAmount (opt_amount options) = Return tt ->
  Validator.validateBuyer (opt_buyer options) = Return tt ->
  strict_eq (default (opt_maxInstallment options) zero) zero = true
  \/ Validator.validateInstallment
       (default (opt_maxInstallment options) zero) = Return tt ->
  exists r,
    ShopierSDK.createPayment config draw options = Return r
    /\ Signature.verifySignature (Config.apiSecret config)
         (toString (random_nr (formData r))
          ++ ToString (platform_order_id (formData r))
          ++ toString (total_order_value (formData r))
          ++ toString (currency (formData r)))
         (signature (formData r)) = Return true
    /\ includes (hiddenInputs r)
         (hiddenField (js "signature") (signature (formData r))) = true
    /\ includes (html r)
         (hiddenField (js "signature") (signature (formData r))) = true.
Proof.
  intros HA HB HI.
  rewrite createPayment_build,
    (buildFormData_fields config draw options HA HB HI). cbv zeta.
  eexists. split; [reflexivity|].
  cbn [formData hiddenInputs html random_nr platform_order_id
       total_order_value currency signature].
  split; [apply verifySignature_generated|].
  match goal with
  | |- includes (Renderers.renderHiddenInputs ?f) _ = _ /\ _ =>
    pose proof (rendered_entry f ShopierSDK.SHOPIER_ACTION_URL _
                  (Some (default (opt_language options) (Config.language config)))
                  _ (entries_signature f)) as [R1 R2]
  end.
  cbn [signature ToString] in R1, R2.
  unfold Signature.generatePaymentSignature in R1, R2.
  rewrite (escapeHtml_plain _ (generateSignature_plain _ _)) in R1, R2.
  split; assumption.
Qed.

(** X10 on the payment of the end-to-end scenario 1. *)
Lemma createPayment_signature_verifies_witness :
  let config := Config.mkResolved (js "k") (js "s") TR (js "1.0.4") SITE_1 in
  exists r,
    ShopierSDK.createPayment config 0 (scenario1_options None) = Return r
    /\ Signature.verifySignature (Config.apiSecret config)
         (toString (random_nr (formData r))
          ++ ToString (platform_order_id (formData r))
          ++ toString (total_order_value (formData r))
          ++ toString (currency (formData r)))
         (signature (formData r)) = Return true
    /\ includes (hiddenInputs r)
         (hiddenField (js "signature") (signature (formData r))) = true
    /\ includes (html r)
         (hiddenField (js "signature") (signature (formData r))) = true.
Proof.
  intros config.
  apply (createPayment_signature_verifies config 0 (scenario1_options None)).
  - reflexivity.
  - reflexivity.
  - left. reflexivity.
Defined.

(** X11. In the field set of a valid payment the billing fields are
    those of the billing address, empty strings when none is given, and
    the shipping fields are those of the shipping address when one is
    given and the billing fields otherwise. *)
Theorem createPayment_addresses
    (config : Config.ResolvedConfig) (draw : Z) (options : PaymentOptions) :
  Validator.validateAmount (opt_amount options) = Return tt ->
  Validator.validateBuyer (opt_buyer options) = Return tt ->
  strict_eq (default (opt_maxInstallment options) zero) zero = true
  \/ Validator.validateInstallment
       (default (opt_maxInstallment options) zero) = Return tt ->
  exists r,
    ShopierSDK.createPayment config draw options = Return r
    /\ let f := formData r in
       let billing := mkAddress (billing_address f) (billing_city f)
                        (billing_country f) (billing_postcode f) in
       let shipping := mkAddress (shipping_address f) (shipping_city f)
                         (shipping_country f) (shipping_postcode f) in
       (forall a, opt_billing options = Some a -> billing = a)
       /\ (opt_billing options = None -> billing = mkAddress [] [] [] [])
       /\ (forall a, opt_shipping options = Some a -> shipping = a)
       /\ (opt_shipping options = None -> shipping = billing).
Proof.
  intros HA HB HI.
  rewrite createPayment_build,
    (buildFormData_fields config draw options HA HB HI). cbv zeta.
  eexists. split; [reflexivity|].
  cbn [formData billing_address billing_city billing_country billing_postcode
       shipping_address shipping_city shipping_country shipping_postcode].
  repeat split.
  - intros a ->. now destruct a.
  - intros ->. reflexivity.
  - intros a ->. now destruct a.
  - intros ->. reflexivity.
Qed.

(** X11 on a payment with a billing address and no shipping address. *)
Lemma createPayment_addresses_witness :
  let config := Config.mkResolved (js "k") (js "s") TR (js "1.0.4") SITE_1 in
  let home := mkAddress (js "Test Sokak No:1") (js "Istanbul") (js "TR") (js "34000") in
  let options :=
    mkOptions (of_Z 100) scenario1_buyer (Some home) None None None None None
              None None None (Some (of_Z 123456)) in
  exists r,
    ShopierSDK.createPayment config 0 options = Return r
    /\ let f := formData r in
       let billing := mkAddress (billing_address f) (billing_city f)
                        (billing_country f) (billing_postcode f) in
       let shipping := mkAddress (shipping_address f) (shipping_city f)
                         (shipping_country f) (shipping_postcode f) in
       (forall a, opt_billing options = Some a -> billing = a)
       /\ (opt_billing options = None -> billing = mkAddress [] [] [] [])
       /\ (forall a, opt_shipping options = Some a -> shipping = a)
       /\ (opt_shipping options = None -> shipping = billing).
Proof.
  intros config home options.
  apply (createPayment_addresses config 0 options).
  - reflexivity.
  - reflexivity.
  - left. reflexivity.
Defined.

(** X12. A nonce override is used as it is and the random source is
    then not consulted: the whole result is the same whatever the
    source would have yielded.  Without an override the nonce of a
    valid payment is an integer from 100000 to 999999. *)
Theorem createPayment_nonce
    (config : Config.ResolvedConfig) (options : PaymentOptions) :
  (forall N draw draw', opt_randomNr options = Some N ->
      ShopierSDK.createPayment config draw options
      = ShopierSDK.createPayment config draw' options)
  /\ (forall draw r, opt_randomNr options = None ->
      ShopierSDK.createPayment config draw options = Return r ->
      exists n, random_nr (formData r) = of_Z n /\ 100000 <= n <= 999999).
Proof.
  split.
  - intros N draw draw' H.
    unfold ShopierSDK.createPayment, ShopierSDK.buildFormData.
    rewrite H. reflexivity.
  - intros draw r H E.
    rewrite createPayment_build in E.
    destruct (ShopierSDK.buildFormData config draw options) as [f|] eqn:B;
      [|discriminate E].
    injection E as <-. cbn [formData].
    destruct (buildFormData_returns config draw options f B) as (HA & HB & HI).
    rewrite (buildFormData_fields config draw options HA HB HI) in B.
    cbv zeta in B. injection B as <-. cbn [random_nr]. rewrite H. cbn [default].
    unfold Utils.generateRandomNumber, Utils.randomInt,
      Utils.MIN_RANDOM, Utils.MAX_RANDOM.
    eexists. split; [reflexivity|].
    pose proof (Z.mod_pos_bound draw (999999 + 1 - 100000)). lia.
Qed.

(** X12 on the payment of the end-to-end scenario 1, under two draws,
    and on the same payment without its override. *)
Lemma createPayment_nonce_witness :
  let config := Config.mkResolved (js "k") (js "s") TR (js "1.0.4") SITE_1 in
  ShopierSDK.createPayment config 0 (scenario1_options None)
  = ShopierSDK.createPayment config 41 (scenario1_options None)
  /\ (forall r,
      ShopierSDK.createPayment config 899999
        (mkOptions amount_99_99 scenario1_buyer None None None None None None
                   None None None None) = Return r ->
      exists n, random_nr (formData r) = of_Z n /\ 100000 <= n <= 999999).
Proof.
  intros config. split.
  - apply (proj1 (createPayment_nonce config (scenario1_options None))
             (of_Z 123456) 0 41).
    reflexivity.
  - intros r.
    apply (proj2 (createPayment_nonce config
                   (mkOptions amount_99_99 scenario1_buyer None None None None
                      None None None None None None)) 899999 r).
    reflexivity.
Defined.

(** X13. [validateAmount] accepts exactly the positive finite numbers:
    it throws on NaN, on both infinities, on both zeros and on every
    negative number, with a ValidationError that names the field
    [amount] and carries the value. *)
Theorem validateAmount_accepts (amount : number) :
  (Validator.validateAmount amount = Return tt
   <-> exists m e, amount = S754_finite false m e)
  /\ ((forall m e, amount <> S754_finite false m e) ->
      Validator.validateAmount amount =
      Throw (Shopier (Errors.ValidationError
        (js "Amount must be a valid positive number")
        (Some [(js "field", VString (js "amount"));
               (js "value", VNumber amount)])))).
Proof.
  assert (E : Validator.validateAmount amount =
              match amount with
              | S754_finite false _ _ => Return tt
              | _ => Throw (Shopier (Errors.ValidationError
                       (js "Amount must be a valid positive number")
                       (Some [(js "field", VString (js "amount"));
                              (js "value", VNumber amount)])))
              end)
    by (destruct amount as [[]|[]| |[] m e]; reflexivity).
  rewrite E. split; [split|].
  - destruct amount as [[]|[]| |[] m e]; try discriminate. eauto.
  - intros (m & e & ->). reflexivity.
  - intros H. destruct amount as [[]|[]| |[] m e]; try reflexivity.
    now elim (H m e).
Qed.

(** X13 on the amount of the end-to-end scenario 1 and on minus
    zero. *)
Lemma validateAmount_accepts_witness :
  Validator.validateAmount amount_99_99 = Return tt
  /\ Validator.validateAmount (S754_zero true) =
     Throw (Shopier (Errors.ValidationError
       (js "Amount must be a valid positive number")
       (Some [(js "field", VString (js "amount"));
              (js "value", VNumber (S754_zero true))]))).
Proof.
  split.
  - apply (proj1 (validateAmount_accepts amount_99_99)). unfold amount_99_99. eauto.
  - apply (proj2 (validateAmount_accepts (S754_zero true))).
    intros m e H. discriminate H.
Defined.

(** ** Trimming *)
Section TrimLaws.

Lemma trimStart_kept (c : Z) (r : jsstring) :
  isWhiteSpace c = false -> trimStart (c :: r) = c :: r.
Proof. intros H. cbn [trimStart]. now rewrite H. Qed.

Lemma trimStart_head (s : jsstring) :
  trimStart s = [] \/ exists c r, trimStart s = c :: r /\ isWhiteSpace c = false.
Proof.
  induction s as [|c s IH]; [now left|].
  cbn [trimStart]. destruct (isWhiteSpace c) eqn:E; [exact IH|].
  right. now exists c, s.
Qed.

Lemma trimStart_suffix (s : jsstring) : exists w, s = w ++ trimStart s.
Proof.
  induction s as [|c s (w & IH)]; [now exists []|].
  cbn [trimStart]. destruct (isWhiteSpace c).
  - exists (c :: w). cbn [app]. now rewrite <- IH.
  - now exists [].
Qed.

Lemma trimEnd_prefix (s : jsstring) : exists w, s = trimEnd s ++ w.
Proof.
  destruct (trimStart_suffix (rev s)) as (w & H).
  exists (rev w). unfold trimEnd.
  rewrite <- rev_app_distr, <- H. now rewrite rev_involutive.
Qed.

Lemma trimEnd_last (s : jsstring) :
  trimEnd s = [] \/ exists r c, trimEnd s = r ++ [c] /\ isWhiteSpace c = false.
Proof.
  unfold trimEnd. destruct (trimStart_head (rev s)) as [-> | (c & r & -> & H)].
  - now left.
  - right. now exists (rev r), c.
Qed.

Lemma trimEnd_fixed (s : jsstring) : trimEnd (trimEnd s) = trimEnd s.
Proof.
  destruct (trimEnd_last s) as [-> | (r & c & -> & H)]; [reflexivity|].
  unfold trimEnd at 1. rewrite rev_app_distr. cbn [rev app].
  rewrite trimStart_kept by exact H.
  cbn [rev]. now rewrite rev_involutive.
Qed.

Lemma trimStart_trimEnd (t : jsstring) :
  trimStart t = t -> trimStart (trimEnd t) = trimEnd t.
Proof.
  intros Ht. destruct (trimEnd_prefix t) as (w & Hw).
  destruct (trimEnd t) as [|x u] eqn:E; [reflexivity|].
  destruct (trimStart_head t) as [H0 | (c & r & Hc & Hws)].
  - rewrite Ht in H0. rewrite H0 in Hw. discriminate Hw.
  - rewrite Ht in Hc. rewrite Hc in Hw. cbn [app] in Hw.
    injection Hw as -> _. now apply trimStart_kept.
Qed.

Lemma trimStart_fixed (s : jsstring) : trimStart (trimStart s) = trimStart s.
Proof.
  destruct (trimStart_head s) as [-> | (c & r & -> & H)]; [reflexivity|].
  now apply trimStart_kept.
Qed.

Lemma trim_fixed (s : jsstring) : trim (trim s) = trim s.
Proof.
  unfold trim.
  rewrite (trimStart_trimEnd (trimStart s) (trimStart_fixed s)).
  apply trimEnd_fixed.
Qed.

End TrimLaws.

(** ** The configuration, continued *)
Section ConfigLaws.
Import Config ConfigCheck.
Variable env : jsstring -> option jsstring.

Lemma resolveApiKey_credential (explicit : option jsstring) (k : jsstring) :
  resolveApiKey env explicit = Some k -> credential k.
Proof.
  unfold resolveApiKey.
  destruct (nonBlank_cases explicit) as [(v & -> & Hv & ->)|(_ & ->)].
  - intros [= <-]. split; [exact Hv | apply trim_fixed].
  - destruct (nonBlank_cases (env ENV_API_KEY)) as [(v & -> & Hv & ->)|(_ & ->)].
    + intros [= <-]. split; [exact Hv | apply trim_fixed].
    + discriminate.
Qed.

Lemma resolveApiSecret_credential (explicit : option jsstring) (k : jsstring) :
  resolveApiSecret env explicit = Some k -> credential k.
Proof.
  unfold resolveApiSecret.
  destruct (nonBlank_cases explicit) as [(v & -> & Hv & ->)|(_ & ->)].
  - intros [= <-]. split; [exact Hv | apply trim_fixed].
  - destruct (nonBlank_cases (env ENV_API_SECRET)) as [(v & -> & Hv & ->)|(_ & ->)].
    + intros [= <-]. split; [exact Hv | apply trim_fixed].
    + discriminate.
Qed.

Lemma resolve_cases (o : option jsstring) :
  o = None \/ exists k, o = Some k.
Proof. destruct o; eauto. Qed.

Lemma resolveConfig_wellFormed (config : option ShopierConfig) (c : ResolvedConfig) :
  resolveConfig env config = Return c -> wellFormed c.
Proof.
  destruct (resolve_cases (resolveApiKey env (cfg_apiKey (default config emptyConfig))))
    as [Hk | (k & Hk)].
  - rewrite (resolveConfig_no_key env config Hk). discriminate.
  - destruct (resolve_cases
                (resolveApiSecret env (cfg_apiSecret (default config emptyConfig))))
      as [Hs | (s & Hs)].
    + rewrite (resolveConfig_no_secret env config k Hk Hs). discriminate.
    + rewrite (resolveConfig_ok env config k s Hk Hs). intros [= <-].
      split; cbn [apiKey apiSecret];
        [eapply resolveApiKey_credential | eapply resolveApiSecret_credential];
        eassumption.
Qed.

(** What [updateConfig] does to the credentials, whatever it does to
    the other fields. *)
Lemma updateConfig_wellFormed (updates : ShopierConfig) (c : ResolvedConfig) :
  wellFormed c -> wellFormed (snd (updateConfig env updates c)).
Proof.
  intros [Wk Ws]. unfold updateConfig, andThen, when.
  destruct (cfg_apiKey updates) as [k|]; cbn [isDefined].
  - destruct (resolve_cases (resolveApiKey env (Some k))) as [-> | (k' & Hk)].
    + cbn. now split.
    + rewrite Hk, (resolveApiKey_truthy env _ _ Hk). cbn [default assign].
      pose proof (resolveApiKey_credential _ _ Hk) as Ck.
      destruct (cfg_apiSecret updates) as [s|]; cbn [isDefined].
      * destruct (resolve_cases (resolveApiSecret env (Some s))) as [-> | (s' & Hs)].
        -- cbn. now split.
        -- rewrite Hs, (resolveApiSecret_truthy env _ _ Hs). cbn [default assign].
           pose proof (resolveApiSecret_credential _ _ Hs) as Cs.
           destruct (cfg_language updates), (cfg_moduleVersion updates),
             (cfg_websiteIndex updates); cbn; now split.
      * destruct (cfg_language updates), (cfg_moduleVersion updates),
          (cfg_websiteIndex updates); cbn; now split.
  - destruct (cfg_apiSecret updates) as [s|]; cbn [isDefined].
    + destruct (resolve_cases (resolveApiSecret env (Some s))) as [-> | (s' & Hs)].
      * cbn. now split.
      * rewrite Hs, (resolveApiSecret_truthy env _ _ Hs). cbn [default assign ret].
        pose proof (resolveApiSecret_credential _ _ Hs) as Cs.
        destruct (cfg_language updates), (cfg_moduleVersion updates),
          (cfg_websiteIndex updates); cbn; now split.
    + destruct (cfg_language updates), (cfg_moduleVersion updates),
        (cfg_websiteIndex updates); cbn; now split.
Qed.

Lemma missingOrEmpty_false (v : option jsstring) :
  missingOrEmpty v = false -> exists s, v = Some s /\ trim s <> [].
Proof.
  destruct v as [s|]; [|discriminate]. cbn [missingOrEmpty].
  intros H. apply orb_false_iff in H as [_ H].
  exists s. split; [reflexivity | now apply eqb_neq].
Qed.

Lemma orElse_resolves (explicit envValue : option jsstring) :
  missingOrEmpty (orElse explicit envValue) = false ->
  nonBlank explicit = true
  \/ (nonBlank explicit = false /\ nonBlank envValue = true).
Proof.
  intros H. apply missingOrEmpty_false in H as (s & H & Hs).
  unfold orElse in H. destruct explicit as [x|].
  - destruct (JsString.truthy x) eqn:T.
    + injection H as ->. left. now apply nonBlank_true.
    + right. split; [cbn; now rewrite T|].
      rewrite H. now apply nonBlank_true.
  - right. split; [reflexivity|]. rewrite H. now apply nonBlank_true.
Qed.

End ConfigLaws.

(** X14. The credentials of a configuration are always trimmed and not
    empty: [resolveConfig] returns only such configurations, and
    [updateConfig] keeps them so, whether it returns or throws. *)
Theorem config_wellFormed (env : jsstring -> option jsstring) :
  (forall config c, Config.resolveConfig env config = Return c -> wellFormed c)
  /\ (forall updates c outcome c',
      wellFormed c -> Config.updateConfig env updates c = (outcome, c') ->
      wellFormed c').
Proof.
  split.
  - apply resolveConfig_wellFormed.
  - intros updates c outcome c' W E.
    pose proof (updateConfig_wellFormed env updates c W) as H.
    now rewrite E in H.
Qed.

(** X14 on a manager built from padded credentials and updated with a
    padded key and a blank secret. *)
Lemma config_wellFormed_witness :
  wellFormed (Config.mkResolved (js "k") (js "s") TR (js "1.0.4") SITE_1)
  /\ wellFormed (Config.mkResolved (js "new") (js "s") TR (js "1.0.4") SITE_1).
Proof.
  destruct (config_wellFormed (fun _ => None)) as [H1 H2].
  assert (W : wellFormed (Config.mkResolved (js "k") (js "s") TR (js "1.0.4") SITE_1)).
  { apply (H1 (Some (mkConfig (Some (js " k ")) (Some (js " s ")) None None None))).
    vm_compute. reflexivity. }
  split; [exact W|].
  apply (H2 (mkConfig (Some (js " new ")) (Some (js "  ")) None None None)
            _ (Throw secretError) _ W).
  vm_compute. reflexivity.
Defined.

(** X15. Every configuration [validateConfig] accepts is one
    [resolveConfig] resolves.  The converse fails on an explicit key
    of white space only: [validateConfig] then throws
    InvalidApiKeyError whatever the environment holds, while
    [resolveConfig] falls back to the environment's key. *)
Theorem validateConfig_resolveConfig
    (env : jsstring -> option jsstring) (config : ShopierConfig) :
  (ConfigCheck.validateConfig env config = Return tt ->
   exists c, Config.resolveConfig env (Some config) = Return c)
  /\ (forall k, cfg_apiKey config = Some k -> k <> [] -> trim k = [] ->
      ConfigCheck.validateConfig env config = Throw keyError
      /\ Config.resolveApiKey env (cfg_apiKey config)
         = Config.resolveApiKey env None).
Proof.
  split.
  - unfold ConfigCheck.validateConfig. cbv zeta.
    destruct (ConfigCheck.missingOrEmpty
                (ConfigCheck.orElse (cfg_apiKey config) _)) eqn:K; [discriminate|].
    destruct (ConfigCheck.missingOrEmpty
                (ConfigCheck.orElse (cfg_apiSecret config) _)) eqn:S; [discriminate|].
    intros _.
    assert (Hk : exists k, Config.resolveApiKey env (cfg_apiKey config) = Some k).
    { unfold Config.resolveApiKey.
      destruct (orElse_resolves _ _ K) as [E | [E1 E2]].
      - rewrite E. destruct (cfg_apiKey config); [cbn [option_map]; eauto | discriminate E].
      - rewrite E1.
        change (js "SHOPIER_API_KEY") with Config.ENV_API_KEY in E2.
        rewrite E2. destruct (env Config.ENV_API_KEY); [cbn [option_map]; eauto | discriminate E2]. }
    assert (Hs : exists s, Config.resolveApiSecret env (cfg_apiSecret config) = Some s).
    { unfold Config.resolveApiSecret.
      destruct (orElse_resolves _ _ S) as [E | [E1 E2]].
      - rewrite E. destruct (cfg_apiSecret config); [cbn [option_map]; eauto | discriminate E].
      - rewrite E1.
        change (js "SHOPIER_API_SECRET") with Config.ENV_API_SECRET in E2.
        rewrite E2. destruct (env Config.ENV_API_SECRET); [cbn [option_map]; eauto | discriminate E2]. }
    destruct Hk as (k & Hk). destruct Hs as (s & Hs).
    eexists. apply (resolveConfig_ok env (Some config) k s Hk Hs).
  - intros k Hk Hne Ht. split.
    + unfold ConfigCheck.validateConfig. cbv zeta. rewrite Hk.
      unfold ConfigCheck.orElse.
      destruct k as [|x k]; [now elim Hne|]. cbn [JsString.truthy].
      unfold ConfigCheck.missingOrEmpty at 1. rewrite Ht. reflexivity.
    + rewrite Hk. unfold Config.resolveApiKey.
      assert (B : blank (Some k)) by (intros v [= <-]; exact Ht).
      rewrite (nonBlank_blank _ B). reflexivity.
Qed.

(** X15 on an explicit key of two spaces beside an environment that
    holds both credentials. *)
Lemma validateConfig_resolveConfig_witness :
  let env := fun n => if JsString.eqb n (js "SHOPIER_API_KEY") then Some (js "E")
                      else Some (js "S") in
  let config := mkConfig (Some (js "  ")) None None None None in
  (ConfigCheck.validateConfig env config = Throw keyError
   /\ Config.resolveApiKey env (cfg_apiKey config) = Config.resolveApiKey env None)
  /\ exists c, Config.resolveConfig env
                 (Some (mkConfig (Some (js "k")) None None None None)) = Return c.
Proof.
  intros env config. split.
  - apply (proj2 (validateConfig_resolveConfig env config) (js "  "));
      [reflexivity | discriminate | reflexivity].
  - apply (proj1 (validateConfig_resolveConfig env
                    (mkConfig (Some (js "k")) None None None None))).
    reflexivity.
Defined.

(** X16. An update with a blank key is rejected with
    InvalidApiKeyError and leaves the stored configuration untouched
    when the environment holds no key; when the environment holds one,
    the same update does not throw and stores the environment's key. *)
Theorem updateConfig_blank_key
    (env : jsstring -> option jsstring) (stored : Config.ResolvedConfig)
    (k : jsstring) :
  trim k = [] ->
  let updates := mkConfig (Some k) None None None None in
  (blank (env Config.ENV_API_KEY) ->
   Config.updateConfig env updates stored = (Throw keyError, stored))
  /\ (forall ev, env Config.ENV_API_KEY = Some ev -> trim ev <> [] ->
      Config.updateConfig env updates stored
      = (Return tt, Config.set_apiKey (trim ev) stored)).
Proof.
  intros Hk updates.
  assert (B : blank (Some k)) by (intros v [= <-]; exact Hk).
  unfold Config.updateConfig, Config.andThen, Config.when. subst updates.
  cbn [cfg_apiKey cfg_apiSecret cfg_language cfg_moduleVersion cfg_websiteIndex
       Config.isDefined].
  split.
  - intros Be. rewrite (resolveApiKey_absent env _ B Be). reflexivity.
  - intros ev He Hev.
    rewrite (resolveApiKey_env env _ ev B He Hev).
    rewrite (resolveApiKey_truthy env _ _ (resolveApiKey_env env _ ev B He Hev)).
    reflexivity.
Qed.

(** X16 on an empty key, without and with a key in the environment. *)
Lemma updateConfig_blank_key_witness :
  let stored := Config.mkResolved (js "old-key") (js "old-secret") TR (js "1.0.4") SITE_1 in
  let updates := mkConfig (Some []) None None None None in
  Config.updateConfig (fun _ => None) updates stored = (Throw keyError, stored)
  /\ Config.updateConfig (fun _ => Some (js " E ")) updates stored
     = (Return tt, Config.set_apiKey (js "E") stored).
Proof.
  intros stored updates. split.
  - apply (proj1 (updateConfig_blank_key (fun _ => None) stored [] eq_refl)).
    intros v H. discriminate H.
  - apply (proj2 (updateConfig_blank_key (fun _ => Some (js " E ")) stored [] eq_refl)
             (js " E ")).
    + reflexivity.
    + vm_compute. intros H; discriminate H.
Defined.

(** ** The matcher decides the denotation *)
Section RegexLaws.
Import Regex.

Lemma matches_fail (s : jsstring) : ~ Matches Fail s.
Proof. intros H; inversion H. Qed.

Lemma matches_eps (s : jsstring) : Matches Eps s <-> s = [].
Proof. split; [intros H; now inversion H | intros ->; constructor]. Qed.

Lemma matches_class (p : Z -> bool) (s : jsstring) :
  Matches (Class p) s <-> exists c, s = [c] /\ p c = true.
Proof.
  split; [intros H; inversion H; subst; eauto|].
  intros (c & -> & H). now constructor.
Qed.

Lemma matches_seq (a b : regex) (s : jsstring) :
  Matches (Seq a b) s <->
  exists s1 s2, s = s1 ++ s2 /\ Matches a s1 /\ Matches b s2.
Proof.
  split; [intros H; inversion H; subst; eauto|].
  intros (s1 & s2 & -> & H1 & H2). now constructor.
Qed.

Lemma matches_alt (a b : regex) (s : jsstring) :
  Matches (Alt a b) s <-> Matches a s \/ Matches b s.
Proof.
  split; [intros H; inversion H; subst; auto|].
  intros [H | H]; [now apply MAltL | now apply MAltR].
Qed.

Lemma nullable_spec (r : regex) : nullable r = true <-> Matches r [].
Proof.
  induction r as [| |p|a IHa b IHb|a IHa b IHb|a IHa]; cbn [nullable].
  - split; [discriminate | intros H; inversion H].
  - split; [constructor | reflexivity].
  - split; [discriminate | intros H; inversion H].
  - rewrite andb_true_iff, IHa, IHb, matches_seq. split.
    + intros [Ha Hb]. now exists [], [].
    + intros (s1 & s2 & E & Ha & Hb). symmetry in E.
      apply app_eq_nil in E as [-> ->]. now split.
  - rewrite orb_true_iff, IHa, IHb, matches_alt. reflexivity.
  - split; [constructor | reflexivity].
Qed.

Lemma deriv_sound (c : Z) (r : regex) (s : jsstring) :
  Matches (deriv c r) s -> Matches r (c :: s).
Proof.
  revert s. induction r as [| |p|a IHa b IHb|a IHa b IHb|a IHa];
    intros s H; cbn [deriv] in H.
  - inversion H.
  - inversion H.
  - destruct (p c) eqn:E; [|inversion H].
    apply matches_eps in H as ->. now constructor.
  - destruct (nullable a) eqn:N.
    + apply matches_alt in H as [H | H].
      * apply matches_seq in H as (s1 & s2 & -> & H1 & H2).
        change (c :: s1 ++ s2) with ((c :: s1) ++ s2).
        constructor; auto.
      * change (c :: s) with ([] ++ c :: s).
        constructor; [now apply nullable_spec | auto].
    + apply matches_seq in H as (s1 & s2 & -> & H1 & H2).
      change (c :: s1 ++ s2) with ((c :: s1) ++ s2).
      constructor; auto.
  - apply matches_alt in H as [H | H]; [apply MAltL | apply MAltR]; auto.
  - apply matches_seq in H as (s1 & s2 & -> & H1 & H2).
    change (c :: s1 ++ s2) with ((c :: s1) ++ s2).
    apply MStarApp; auto.
Qed.

Lemma deriv_complete (c : Z) (r : regex) (s : jsstring) :
  Matches r (c :: s) -> Matches (deriv c r) s.
Proof.
  intros H. remember (c :: s) as t eqn:E. revert c s E.
  induction H as [|p d Hd|r1 r2 s1 s2 H1 IH1 H2 IH2|r1 r2 t H IH|r1 r2 t H IH
                  | r | r s1 s2 H1 IH1 H2 IH2];
    intros c s E; cbn [deriv].
  - discriminate E.
  - injection E as -> <-. rewrite Hd. constructor.
  - destruct s1 as [|x s1].
    + cbn [app] in E. subst s2.
      rewrite (proj2 (nullable_spec r1) H1).
      apply MAltR. now apply IH2.
    + cbn [app] in E. injection E as -> <-.
      assert (M : Matches (Seq (deriv c r1) r2) (s1 ++ s2))
        by (constructor; [now apply IH1 | exact H2]).
      destruct (nullable r1); [now apply MAltL | exact M].
  - apply MAltL. now apply IH.
  - apply MAltR. now apply IH.
  - discriminate E.
  - destruct s1 as [|x s1].
    + cbn [app] in E. now apply IH2.
    + cbn [app] in E. injection E as -> <-.
      constructor; [now apply IH1 | exact H2].
Qed.

Lemma test_spec (r : regex) (s : jsstring) : test r s = true <-> Matches r s.
Proof.
  revert r. induction s as [|c s IH]; intros r; cbn [test].
  - apply nullable_spec.
  - rewrite IH. split; [apply deriv_sound | apply deriv_complete].
Qed.

Lemma matches_star_class (p : Z -> bool) (s : jsstring) :
  Matches (Star (Class p)) s <-> Forall (fun c => p c = true) s.
Proof.
  split.
  - intros H. remember (Star (Class p)) as r eqn:E.
    induction H as [| | | | | r' | r' s1 s2 H1 _ H2 IH2]; try discriminate E.
    + constructor.
    + injection E as ->. apply matches_class in H1 as (c & -> & Hc).
      constructor; [exact Hc | now apply IH2].
  - induction 1 as [|c s Hc _ IH]; [constructor|].
    change (c :: s) with ([c] ++ s).
    apply MStarApp; [now constructor | exact IH].
Qed.

Lemma matches_plus_class (p : Z -> bool) (s : jsstring) :
  Matches (Plus (Class p)) s <-> s <> [] /\ Forall (fun c => p c = true) s.
Proof.
  unfold Plus. rewrite matches_seq. split.
  - intros (s1 & s2 & -> & H1 & H2).
    apply matches_class in H1 as (c & -> & Hc).
    apply matches_star_class in H2.
    split; [discriminate | now constructor].
  - intros [Hn H]. destruct s as [|c s]; [now elim Hn|].
    exists [c], s. split; [reflexivity|]. split.
    + constructor. now apply Forall_inv in H.
    + apply matches_star_class. now apply Forall_inv_tail in H.
Qed.

Lemma matches_power_class (p : Z -> bool) (n : nat) (s : jsstring) :
  Matches (power n (Class p)) s <-> length s = n /\ Forall (fun c => p c = true) s.
Proof.
  revert s. induction n as [|n IH]; intros s; cbn [power].
  - rewrite matches_eps. split.
    + intros ->. now split.
    + intros [H _]. now apply length_zero_iff_nil.
  - rewrite matches_seq. split.
    + intros (s1 & s2 & -> & H1 & H2).
      apply matches_class in H1 as (c & -> & Hc). apply IH in H2 as [L F].
      split; [cbn; now rewrite L | now constructor].
    + intros [L F]. destruct s as [|c s]; [discriminate L|].
      exists [c], s. split; [reflexivity|]. split.
      * constructor. now apply Forall_inv in F.
      * apply IH. split; [now injection L | now apply Forall_inv_tail in F].
Qed.

Lemma matches_upto_class (p : Z -> bool) (n : nat) (s : jsstring) :
  Matches (upto n (Class p)) s <->
  (length s <= n)%nat /\ Forall (fun c => p c = true) s.
Proof.
  revert s. induction n as [|n IH]; intros s; cbn [upto].
  - rewrite matches_eps. split.
    + intros ->. split; [reflexivity | constructor].
    + intros [H _]. destruct s; [reflexivity | cbn in H; lia].
  - rewrite matches_alt, matches_eps, matches_seq. split.
    + intros [-> | (s1 & s2 & -> & H1 & H2)].
      * split; [cbn; lia | constructor].
      * apply matches_class in H1 as (c & -> & Hc). apply IH in H2 as [L F].
        split; [cbn; lia | now constructor].
    + intros [L F]. destruct s as [|c s]; [now left|]. right.
      exists [c], s. split; [reflexivity|]. split.
      * constructor. now apply Forall_inv in F.
      * apply IH. split; [cbn in L; lia | now apply Forall_inv_tail in F].
Qed.

End RegexLaws.

(** X17. [validateEmail] accepts exactly the strings that, once
    trimmed, read [a@b.d] with [a], [b] and [d] not empty and free of
    white space and of the at sign (so with exactly one at sign, and a
    dot inside what follows it); it rejects everything that is not a
    string. *)
Theorem validateEmail_accepts (v : jsvalue) :
  Validator.validateEmail v = true
  <-> exists s a b d,
        v = VString s /\ trim s = a ++ [64] ++ b ++ [46] ++ d
        /\ atom a /\ atom b /\ atom d.
Proof.
  assert (R : forall t,
    Regex.test Validator.emailRegex t = true
    <-> exists a b d, t = a ++ [64] ++ b ++ [46] ++ d /\ atom a /\ atom b /\ atom d).
  { intros t. rewrite test_spec. unfold Validator.emailRegex, atom. split.
    - intros H.
      apply matches_seq in H as (a & r1 & -> & Ha & H).
      apply matches_seq in H as (x & r2 & -> & Hx & H).
      apply matches_seq in H as (b & r3 & -> & Hb & H).
      apply matches_seq in H as (y & d & -> & Hy & Hd).
      apply matches_class in Hx as (c1 & -> & E1). apply Z.eqb_eq in E1 as <-.
      apply matches_class in Hy as (c2 & -> & E2). apply Z.eqb_eq in E2 as <-.
      apply matches_plus_class in Ha, Hb, Hd.
      now exists a, b, d.
    - intros (a & b & d & -> & Ha & Hb & Hd).
      repeat (apply MSeq); try (apply matches_plus_class; assumption);
        constructor; reflexivity. }
  destruct v as [| | | |s|]; cbn [Validator.validateEmail];
    try (split; [discriminate | intros (? & ? & ? & ? & H & _); discriminate H]).
  rewrite andb_true_iff, R. split.
  - intros [_ (a & b & d & H)]. now exists s, a, b, d.
  - intros (s' & a & b & d & [= <-] & H & Ha & Hb & Hd).
    split; [|now exists a, b, d].
    destruct s; [|reflexivity]. rewrite trim_nil in H.
    destruct a; discriminate H.
Qed.

(** X17 on a padded address. *)
Lemma validateEmail_accepts_witness :
  Validator.validateEmail (VString (js " a@example.com ")) = true.
Proof.
  apply validateEmail_accepts.
  exists (js " a@example.com "), (js "a"), (js "example"), (js "com").
  split; [reflexivity|]. split; [reflexivity|].
  repeat split; try discriminate; repeat constructor.
Defined.

(** X18. [validatePhone] accepts exactly the strings that, once white
    space, dashes, parentheses and plus signs are removed wherever they
    stand, consist of 7 to 15 decimal digits; it rejects everything
    that is not a string. *)
Theorem validatePhone_accepts (v : jsvalue) :
  Validator.validatePhone v = true
  <-> exists s,
        v = VString s
        /\ let kept := filter (fun c => negb (Validator.isPhoneSeparator c)) s in
           Forall (fun c => isDigit c = true) kept
           /\ (7 <= length kept <= 15)%nat.
Proof.
  assert (R : forall t,
    Regex.test Validator.phoneRegex t = true
    <-> Forall (fun c => isDigit c = true) t /\ (7 <= length t <= 15)%nat).
  { intros t. rewrite test_spec. unfold Validator.phoneRegex.
    rewrite matches_seq. split.
    - intros (s1 & s2 & -> & H1 & H2).
      apply matches_power_class in H1 as [L1 F1].
      apply matches_upto_class in H2 as [L2 F2].
      split; [now apply Forall_app | rewrite length_app; lia].
    - intros [F [L U]].
      exists (firstn 7 t), (skipn 7 t).
      rewrite <- (firstn_skipn 7 t) in F. apply Forall_app in F as [F1 F2].
      split; [now rewrite firstn_skipn|]. split.
      + apply matches_power_class. split; [|exact F1].
        rewrite length_firstn. lia.
      + apply matches_upto_class. split; [|exact F2].
        rewrite length_skipn. lia. }
  destruct v as [| | | |s|]; cbn [Validator.validatePhone];
    try (split; [discriminate | intros (? & H & _); discriminate H]).
  cbv zeta. rewrite andb_true_iff, R. split.
  - intros [_ H]. now exists s.
  - intros (s' & [= <-] & F & L). split; [|now split].
    destruct s; [cbn in L; lia | reflexivity].
Qed.

(** X18 on a number written with a plus sign in its middle. *)
Lemma validatePhone_accepts_witness :
  Validator.validatePhone (VString (js "(555) 123+45-67")) = true.
Proof.
  apply validatePhone_accepts. exists (js "(555) 123+45-67").
  split; [reflexivity|]. cbv zeta. split.
  - vm_compute. repeat constructor.
  - vm_compute. lia.
Defined.

(** ** Installment counts *)
Section InstallmentLaws.
Import Validator.

(** A finite double that passes the three tests of
    [validateInstallment] is positive, has an exponent from -52 to -49
    and a mantissa of 53 bits that its exponent divides. *)
Lemma accepted_finite (s : bool) (m : positive) (e : Z) :
  valid_binary prec emax (S754_finite s m e) = true ->
  validateInstallment (S754_finite s m e) = Return tt ->
  s = false /\ -52 <= e <= -49
  /\ 2 ^ 52 <= Z.pos m < 2 ^ 53 /\ Z.pos m mod 2 ^ (- e) = 0
  /\ (e = -49 -> Z.pos m <= 6755399441055744).
Proof.
  intros V H. unfold validateInstallment in H.
  destruct (negb (isInteger (S754_finite s m e))
            || ltb (S754_finite s m e) zero
            || ltb (of_Z 12) (S754_finite s m e)) eqn:C; [discriminate H|].
  clear H. apply orb_false_iff in C as [C H3].
  apply orb_false_iff in C as [H1 H2].
  apply negb_false_iff in H1.
  assert (Hs : s = false) by (destruct s; [discriminate H2 | reflexivity]).
  subst s. split; [reflexivity|].
  change (of_Z 12) with (S754_finite false 6755399441055744 (-49)) in H3.
  unfold ltb, SFltb, SFcompare in H3.
  change (Pos.compare_cont Eq 6755399441055744 m)
    with (Pos.compare 6755399441055744 m) in H3.
  assert (He : e <= -49).
  { destruct (Z.compare_spec (-49) e); [lia | discriminate H3 | lia]. }
  cbn [valid_binary] in V. unfold bounded, canonical_mantissa, fexp, emin in V.
  apply andb_true_iff in V as [V _]. apply Z.eqb_eq in V.
  change (3 - emax - prec) with (-1074) in V. change prec with 53 in V.
  pose proof (digits2_bounds m) as [Dl Du].
  set (d := Z.pos (digits2_pos m)) in *.
  assert (Dd : d <= 53) by lia.
  assert (M53 : Z.pos m < 2 ^ 53).
  { eapply Z.lt_le_trans; [exact Du|]. apply Z.pow_le_mono_r; lia. }
  cbn [isInteger] in H1.
  rewrite (proj2 (Z.leb_gt 0 e)) in H1 by lia. cbn [orb] in H1.
  apply Z.eqb_eq in H1.
  assert (El : -52 <= e).
  { destruct (Z.le_gt_cases (-52) e) as [L|G]; [exact L | exfalso].
    assert (P : 2 ^ 53 <= 2 ^ (- e)) by (apply Z.pow_le_mono_r; lia).
    rewrite Z.mod_small in H1 by lia. lia. }
  assert (D53 : d = 53) by lia. rewrite D53 in Dl.
  repeat split; try lia; try assumption.
  intros ->. rewrite Z.compare_refl in H3.
  destruct (Pos.compare 6755399441055744 m) eqn:P; [| discriminate H3 |].
  - apply Pos.compare_eq in P. rewrite <- P. reflexivity.
  - apply Pos.compare_gt_iff in P. apply Z.lt_le_incl. exact P.
Qed.

Lemma installmentCounts_range (n : Z) : 0 <= n <= 12 -> In n installmentCounts.
Proof.
  intros Hn. change installmentCounts with (map Z.of_nat (seq 0 13)).
  apply in_map_iff. exists (Z.to_nat n). split; [lia|].
  apply in_seq. lia.
Qed.

Lemma installmentCounts_accepted :
  Forall (fun n => validateInstallment (of_Z n) = Return tt) installmentCounts.
Proof. repeat constructor. Qed.

End InstallmentLaws.

(** X19. On doubles, [validateInstallment] accepts exactly minus zero
    and the integers from 0 to 12: every other number, fractional,
    negative, above 12, infinite or NaN, makes it throw. *)
Theorem validateInstallment_accepts (x : number) :
  valid_binary prec emax x = true ->
  (Validator.validateInstallment x = Return tt
   <-> x = S754_zero true \/ exists n, 0 <= n <= 12 /\ x = of_Z n).
Proof.
  intros V. split.
  - intros H. destruct x as [[]|s| |s m e].
    + now left.
    + right. exists 0. split; [lia | reflexivity].
    + destruct s; discriminate H.
    + discriminate H.
    + destruct (accepted_finite s m e V H) as (-> & He & Hm & Hd & H49).
      right.
      assert (E : e = -52 \/ e = -51 \/ e = -50 \/ e = -49) by lia.
      destruct E as [-> | [-> | [-> | ->]]].
      * change (2 ^ (- -52)) with 4503599627370496 in Hd.
        apply Z.mod_divide in Hd; [|discriminate]. destruct Hd as (q & Hq).
        change (2 ^ 52) with 4503599627370496 in Hm.
        change (2 ^ 53) with 9007199254740992 in Hm.
        assert (C : Z.pos m = 4503599627370496) by lia.
        injection C as ->; exists 1; split; [lia | reflexivity].
      * change (2 ^ (- -51)) with 2251799813685248 in Hd.
        apply Z.mod_divide in Hd; [|discriminate]. destruct Hd as (q & Hq).
        change (2 ^ 52) with 4503599627370496 in Hm.
        change (2 ^ 53) with 9007199254740992 in Hm.
        assert (C : Z.pos m = 4503599627370496 \/ Z.pos m = 6755399441055744) by lia.
        destruct C as [C | C]; injection C as ->.
        -- exists 2. split; [lia | reflexivity].
        -- exists 3. split; [lia | reflexivity].
      * change (2 ^ (- -50)) with 1125899906842624 in Hd.
        apply Z.mod_divide in Hd; [|discriminate]. destruct Hd as (q & Hq).
        change (2 ^ 52) with 4503599627370496 in Hm.
        change (2 ^ 53) with 9007199254740992 in Hm.
        assert (C : Z.pos m = 4503599627370496 \/ Z.pos m = 5629499534213120 \/ Z.pos m = 6755399441055744 \/ Z.pos m = 7881299347898368) by lia.
        destruct C as [C | [C | [C | C]]]; injection C as ->.
        -- exists 4. split; [lia | reflexivity].
        -- exists 5. split; [lia | reflexivity].
        -- exists 6. split; [lia | reflexivity].
        -- exists 7. split; [lia | reflexivity].
      * change (2 ^ (- -49)) with 562949953421312 in Hd.
        apply Z.mod_divide in Hd; [|discriminate]. destruct Hd as (q & Hq).
        change (2 ^ 52) with 4503599627370496 in Hm.
        change (2 ^ 53) with 9007199254740992 in Hm.
        specialize (H49 eq_refl).
        assert (C : Z.pos m = 4503599627370496 \/ Z.pos m = 5066549580791808 \/ Z.pos m = 5629499534213120 \/ Z.pos m = 6192449487634432 \/ Z.pos m = 6755399441055744) by lia.
        destruct C as [C | [C | [C | [C | C]]]]; injection C as ->.
        -- exists 8. split; [lia | reflexivity].
        -- exists 9. split; [lia | reflexivity].
        -- exists 10. split; [lia | reflexivity].
        -- exists 11. split; [lia | reflexivity].
        -- exists 12. split; [lia | reflexivity].
  - intros [-> | (n & Hn & ->)]; [reflexivity|].
    apply installmentCounts_range in Hn.
    exact (proj1 (Forall_forall _ _) installmentCounts_accepted n Hn).
Qed.

(** X19 on the doubles 12 and 13. *)
Lemma validateInstallment_accepts_witness :
  Validator.validateInstallment (of_Z 12) = Return tt
  /\ Validator.validateInstallment (of_Z 13) <> Return tt.
Proof.
  split.
  - apply validateInstallment_accepts; [reflexivity|].
    right. exists 12. split; [lia | reflexivity].
  - intros H. apply validateInstallment_accepts in H; [|reflexivity].
    destruct H as [H | (n & Hn & H)]; [discriminate H|].
    apply installmentCounts_range in Hn. cbv [installmentCounts In] in Hn.
    repeat (destruct Hn as [<- | Hn]; [discriminate H|]). exact Hn.
Defined.

Section RedactionLaws.
Import Errors Validator ShopierSDK.
Variable toLowerCase : jsstring -> jsstring.
Hypothesis toLowerCase_ascii :
  forall s, ascii7 s -> toLowerCase s = ascii_toLowerCase s.

Lemma ascii7_forallb (s : jsstring) :
  forallb (fun c => (0 <=? c) && (c <? 128)) s = true -> ascii7 s.
Proof.
  intros H. apply Forall_forall. intros c Hc.
  rewrite forallb_forall in H. specialize (H c Hc).
  apply andb_true_iff in H as (H1 & H2).
  apply Z.leb_le in H1. apply Z.ltb_lt in H2. lia.
Qed.

(** The test of [getSafeDetails] on a key of ASCII letters is the one
    the ASCII case mapping gives. *)
Lemma isSensitive_ascii (key : jsstring) :
  ascii7 key ->
  isSensitive toLowerCase key =
  existsb (fun field => includes (ascii_toLowerCase key) (ascii_toLowerCase field))
          SENSITIVE_FIELDS.
Proof.
  intros K. unfold isSensitive, SENSITIVE_FIELDS. cbn [existsb].
  rewrite (toLowerCase_ascii key K).
  rewrite !toLowerCase_ascii by (apply ascii7_forallb; reflexivity).
  reflexivity.
Qed.

Lemma isSensitive_value : isSensitive toLowerCase (js "value") = true.
Proof. rewrite isSensitive_ascii by (apply ascii7_forallb; reflexivity). reflexivity. Qed.

Lemma isSensitive_field : isSensitive toLowerCase (js "field") = false.
Proof. rewrite isSensitive_ascii by (apply ascii7_forallb; reflexivity). reflexivity. Qed.

Lemma isSensitive_missingFields :
  isSensitive toLowerCase (js "missingFields") = false.
Proof. rewrite isSensitive_ascii by (apply ascii7_forallb; reflexivity). reflexivity. Qed.

(** The masked details of a field error. *)
Lemma getSafeDetails_field (message f : jsstring) (v : jsvalue) :
  getSafeDetails toLowerCase
    (ValidationError message (Some [(js "field", VString f); (js "value", v)]))
  = Some [(js "field", VString f); (js "value", VString REDACTED)].
Proof.
  unfold getSafeDetails, ValidationError, with_name, ShopierError_new.
  cbn [details map]. rewrite isSensitive_value, isSensitive_field. reflexivity.
Qed.

Lemma getSafeDetails_missing (message : jsstring) (names : list jsstring) :
  getSafeDetails toLowerCase
    (ValidationError message (Some [(js "missingFields", VArray names)]))
  = Some [(js "missingFields", VArray names)].
Proof.
  unfold getSafeDetails, ValidationError, with_name, ShopierError_new.
  cbn [details map]. rewrite isSensitive_missingFields. reflexivity.
Qed.

Lemma validateAmount_masked (amount : number) (e : exception) :
  validateAmount amount = Throw e ->
  exists err, e = Shopier err
              /\ maskedDetails (safe_details (toSafeJSON toLowerCase err)).
Proof.
  unfold validateAmount. destruct (negb _ || _); [|discriminate].
  intros H. injection H as <-. eexists. split; [reflexivity|].
  right. exists (js "amount"). split.
  - apply getSafeDetails_field.
  - cbn [In]. auto.
Qed.

Lemma validateInstallment_masked (installment : number) (e : exception) :
  validateInstallment installment = Throw e ->
  exists err, e = Shopier err
              /\ maskedDetails (safe_details (toSafeJSON toLowerCase err)).
Proof.
  unfold validateInstallment. destruct (_ || _); [|discriminate].
  intros H. injection H as <-. eexists. split; [reflexivity|].
  right. exists (js "installment"). split.
  - apply getSafeDetails_field.
  - cbn [In]. auto.
Qed.

Lemma validateBuyer_masked (buyer : BuyerInfo) (e : exception) :
  validateBuyer buyer = Throw e ->
  exists err, e = Shopier err
              /\ maskedDetails (safe_details (toSafeJSON toLowerCase err)).
Proof.
  unfold validateBuyer. cbv zeta.
  set (names := map field_name _).
  assert (I : incl names (map field_name requiredFields)).
  { intros n Hn. apply in_map_iff in Hn as (f & <- & Hf).
    apply in_map. now apply filter_In in Hf. }
  destruct (0 <? length names)%nat.
  - intros H. injection H as <-. eexists. split; [reflexivity|].
    left. exists names. split; [apply getSafeDetails_missing | exact I].
  - destruct (negb (validateEmail _)).
    + intros H. injection H as <-. eexists. split; [reflexivity|].
      right. exists (js "email"). split; [apply getSafeDetails_field|].
      cbn [In]. auto.
    + destruct (negb (validatePhone _)); [|discriminate].
      intros H. injection H as <-. eexists. split; [reflexivity|].
      right. exists (js "phone"). split; [apply getSafeDetails_field|].
      cbn [In]. auto.
Qed.

End RedactionLaws.

(** X20. Whatever [createPayment] throws is a validation error whose
    safe rendering for logs carries none of the caller's data: provided
    [toLowerCase] is the ASCII case mapping on ASCII text, the details
    of [toSafeJSON] are either the names of the missing required fields
    or the name of the offending field beside a masked value, so the
    rejected email, phone, amount or installment count is not in them. *)
Theorem createPayment_errors_masked
    (toLowerCase : jsstring -> jsstring)
    (config : Config.ResolvedConfig) (draw : Z) (options : PaymentOptions)
    (e : exception) :
  (forall s, ascii7 s -> toLowerCase s = Errors.ascii_toLowerCase s) ->
  ShopierSDK.createPayment config draw options = Throw e ->
  exists err,
    e = Shopier err
    /\ name err = js "ValidationError"
    /\ code err = js "VALIDATION_ERROR"
    /\ maskedDetails (Errors.safe_details (Errors.toSafeJSON toLowerCase err)).
Proof.
  intros L. rewrite createPayment_build.
  destruct (ShopierSDK.buildFormData config draw options) as [f|e'] eqn:B;
    [discriminate|].
  intros H. injection H as ->.
  rewrite buildFormData_checks in B.
  assert (N : forall c err, c = Throw (Shopier err) ->
              (exists x, c = Validator.validateAmount x)
              \/ (exists x, c = Validator.validateBuyer x)
              \/ (exists x, c = Validator.validateInstallment x) ->
              name err = js "ValidationError" /\ code err = js "VALIDATION_ERROR").
  { intros c err -> [(x & E) | [(x & E) | (x & E)]].
    - unfold Validator.validateAmount in E.
      destruct (negb _ || _); [|discriminate]. injection E as ->. now split.
    - unfold Validator.validateBuyer in E. cbv zeta in E.
      destruct (0 <? _)%nat; [injection E as ->; now split|].
      destruct (negb (Validator.validateEmail _)); [injection E as ->; now split|].
      destruct (negb (Validator.validatePhone _)); [injection E as ->; now split|].
      discriminate.
    - unfold Validator.validateInstallment in E.
      destruct (_ || _); [|discriminate]. injection E as ->. now split. }
  destruct (Validator.validateAmount (opt_amount options)) as [[]|ea] eqn:A.
  - destruct (Validator.validateBuyer (opt_buyer options)) as [[]|eb] eqn:V.
    + destruct (negb (strict_eq (default (opt_maxInstallment options) zero) zero))
        eqn:Z0.
      * destruct (Validator.validateInstallment _) as [[]|ei] eqn:I.
        -- rewrite buildFormData_fields in B; [discriminate B | exact A | exact V |].
           right. exact I.
        -- injection B as <-.
           destruct (validateInstallment_masked toLowerCase L _ _ I) as (err & -> & M).
           exists err. split; [reflexivity|].
           destruct (N _ err I) as (N1 & N2); [eauto|]. auto.
      * rewrite buildFormData_fields in B; [discriminate B | exact A | exact V |].
        left. now apply negb_false_iff in Z0.
    + injection B as <-.
      destruct (validateBuyer_masked toLowerCase L _ _ V) as (err & -> & M).
      exists err. split; [reflexivity|].
      destruct (N _ err V) as (N1 & N2); [eauto|]. auto.
  - injection B as <-.
    destruct (validateAmount_masked toLowerCase L _ _ A) as (err & -> & M).
    exists err. split; [reflexivity|].
    destruct (N _ err A) as (N1 & N2); [eauto|]. auto.
Qed.

(** X20 on a payment whose buyer gives a malformed email, with the ASCII
    case mapping. *)
Lemma createPayment_errors_masked_witness :
  exists err,
    Shopier (Errors.ValidationError (js "Invalid email format")
      (Some [(js "field", VString (js "email"));
             (js "value", VString (js "ahmet.example.com"))]))
    = Shopier err
    /\ name err = js "ValidationError"
    /\ code err = js "VALIDATION_ERROR"
    /\ maskedDetails
         (Errors.safe_details (Errors.toSafeJSON Errors.ascii_toLowerCase err)).
Proof.
  apply (createPayment_errors_masked Errors.ascii_toLowerCase
           (Config.mkResolved (js "k") (js "s") TR (js "1.0.4") SITE_1) 0
           (mkOptions amount_99_99
              (mkBuyer (VString (js "b1")) None (VString (js "Plan")) None
                 (VString (js "Ahmet")) (VString (js "Y"))
                 (VString (js "ahmet.example.com"))
                 (VString (js "05551234567")) None)
              None None None None None None None None None None)).
  - intros s _. reflexivity.
  - vm_compute. reflexivity.
Defined.
